(** * ai-sales-analytics: the query generation and repair workflow

    A shallow embedding of [src/query_generator.py], [src/automated_eda.py],
    [src/summary_generator.py] and [src/main.py], and the properties of the
    generation / execution / correction loop and of the components around
    it.

    Conventions.
    - A Python [str] is a list of Unicode code points ([list N]); [lit]
      turns an ASCII literal into such a text.
    - Python dictionaries built by the program are finite maps from key
      names to Python values ([gmap string pyval]).
    - The Gemini backend, the database, pandas / matplotlib and the clock
      are the environment: a record of oracles ([Env]) answers every
      external call, and a [World] value carries everything the program
      can change (clock, files, the two generator objects, the event log).
    - Methods are computations in a state-and-exception monad [M]; Python's
      [try ... except Exception as e] is [try_except].
    - Time is the clock of the world, in exact rational seconds. It
      advances in [time.sleep], by at least the time asked, and in the
      calls of the backend and of the database; the other steps take no
      time.
    - The console and the files are UTF-8. A text that holds a surrogate
      code point cannot be encoded: [f.write] raises [UnicodeEncodeError]
      on it, and so does [print], unless the error handler of the console
      lets the code point through. The decoder of [json.loads] yields
      such code points from [\u] escapes, so the texts taken from a
      response of the backend (query, explanation, changes, summary) are
      printed and written with that check. The question, the texts of
      exceptions, the time stamps and the paths are texts of the caller
      and of the libraries; printing them is not modelled. What reaches
      the console is not recorded. The file system accepts every file
      that is opened. *)

From Stdlib Require Import QArith Lqa NArith Ascii String.
From stdpp Require Import base option gmap strings list.

Set Default Proof Using "Type".
Set Warnings "-register-all".
Local Open Scope list_scope.

(* ================================================================== *)
(** * Python texts *)
(* ================================================================== *)

Module Py.

(** A text is a sequence of code points. *)
Definition str := list N.

(** An ASCII literal, character by character. *)
Definition lit (s : string) : str :=
  List.map N_of_ascii (list_ascii_of_string s).

(** The same, with every apostrophe standing for a double quote
    (code point 34), which is how JSON literals are written below. *)
Definition jlit (s : string) : str :=
  List.map (fun c => if N.eqb c 39 then 34%N else c) (lit s).

Definition str_eqb (a b : str) : bool := bool_decide (a = b).

(** [s.startswith(pre)] *)
Fixpoint starts_with (pre s : str) : bool :=
  match pre, s with
  | [], _ => true
  | _ :: _, [] => false
  | a :: pre', b :: s' => N.eqb a b && starts_with pre' s'
  end.

(** [s.partition(sep)] at the leftmost occurrence of [sep]:
    [Some (before, after)], or [None] when [sep] does not occur. *)
Fixpoint cut (sep s : str) : option (str * str) :=
  if starts_with sep s then Some ([], drop (length sep) s)
  else match s with
       | [] => None
       | c :: r =>
           match cut sep r with
           | Some (a, b) => Some (c :: a, b)
           | None => None
           end
       end.

(** [sep in s] *)
Definition contains (sep s : str) : bool :=
  match cut sep s with Some _ => true | None => false end.

(** [s.split(sep)] for a non-empty [sep]: the pieces between the
    leftmost non-overlapping occurrences.  Every cut removes at least
    one character, so [length s] rounds are enough. *)
Fixpoint split_rounds (n : nat) (sep s : str) : list str :=
  match n with
  | O => [s]
  | S n' =>
      match cut sep s with
      | Some (a, b) => a :: split_rounds n' sep b
      | None => [s]
      end
  end.

Definition split (sep s : str) : list str := split_rounds (length s) sep s.

(** The code points [str.strip()] removes: those for which
    [str.isspace()] holds. *)
Definition whitespace : list N :=
  [9; 10; 11; 12; 13; 28; 29; 30; 31; 32; 133; 160; 5760;
   8192; 8193; 8194; 8195; 8196; 8197; 8198; 8199; 8200; 8201; 8202;
   8232; 8233; 8239; 8287; 12288]%N.

Definition is_space (c : N) : bool := existsb (N.eqb c) whitespace.

Fixpoint lstrip (s : str) : str :=
  match s with
  | c :: r => if is_space c then lstrip r else s
  | [] => []
  end.

Definition rstrip (s : str) : str := rev (lstrip (rev s)).

(** [s.strip()] *)
Definition strip (s : str) : str := rstrip (lstrip s).

(** [sep.join(items)] *)
Fixpoint join (sep : str) (items : list str) : str :=
  match items with
  | [] => []
  | x :: rest =>
      match rest with
      | [] => x
      | _ :: _ => x ++ sep ++ join sep rest
      end
  end.

(** The decimal digits of [n], the last one first in [acc]. *)
Fixpoint decimal_digits (fuel : nat) (n : N) (acc : str) : str :=
  match fuel with
  | O => acc
  | S fuel' =>
      let acc' := (48 + n mod 10)%N :: acc in
      if N.ltb n 10 then acc' else decimal_digits fuel' (n / 10) acc'
  end.

(** [str(n)] for a natural number: no more decimal digits than binary
    ones. *)
Definition decimal (n : nat) : str :=
  decimal_digits (S (N.size_nat (N.of_nat n))) (N.of_nat n) [].

(** A comma after every third digit, on the digits in reverse. *)
Fixpoint group3 (digits : str) : str :=
  match digits with
  | a :: b :: c :: ((_ :: _) as rest) => a :: b :: c :: 44%N :: group3 rest
  | _ => digits
  end.

(** [f"{n:,}"] *)
Definition grouped (n : nat) : str := rev (group3 (rev (decimal n))).

(** The surrogate code points, U+D800 to U+DFFF. *)
Definition is_surrogate (c : N) : bool := N.leb 55296 c && N.leb c 57343.

(** Whether [s.encode('utf-8')] succeeds: a text is encoded unless it
    holds a surrogate code point. *)
Definition encodable (s : str) : bool :=
  forallb (fun c => negb (is_surrogate c)) s.

(** The error handler of [sys.stdout]: [strict]; [surrogateescape],
    which Python installs in the C locale and which lets U+DC80 to
    U+DCFF through; or one of the handlers that replace or escape what
    cannot be encoded and never fail. *)
Inductive error_handler := Strict | SurrogateEscape | Replacing.

Definition console_accepts (h : error_handler) (c : N) : bool :=
  match h with
  | Strict => negb (is_surrogate c)
  | SurrogateEscape => negb (is_surrogate c) || (N.leb 56448 c && N.leb c 56575)
  | Replacing => true
  end.

(** Whether the console can show [s]. *)
Definition printable (h : error_handler) (s : str) : bool :=
  forallb (console_accepts h) s.

End Py.
Export Py.

Arguments lit : simpl never.
Arguments jlit : simpl never.

(* ================================================================== *)
(** * [json.loads] *)
(* ================================================================== *)

(** The decoder of the standard library is not part of the repository.
    It is modelled as a one-pass pushdown recogniser for the documents
    CPython's decoder accepts (RFC 8259 plus [NaN], [Infinity] and
    [-Infinity], strict control-character checking, surrogate pairs in
    [\u] escapes joined), reading one code point at a time.  Numbers are
    kept as their lexemes: the program never computes with them.  The
    grammar knows nothing of the limits of the interpreter (the digits
    of an integer, the depth of the nesting); they are part of the
    environment, see [decoder_limit] and [json_loads] below. *)

Module Json.

Inductive json :=
| JNull
| JBool (b : bool)
| JInt (lexeme : str)
| JFloat (lexeme : str)
| JStr (s : str)
| JList (items : list json)
| JDict (members : list (str * json)).

(** An enclosing container that waits for the value being read. *)
Inductive frame :=
| FList (done : list json)
| FDict (done : list (str * json)) (key : str).

(** What a string being read is: a member name or a value. *)
Inductive target :=
| TKey (done : list (str * json))
| TValue.

(** Inside a string. [hi] is a high surrogate read from a [\u] escape
    that a following [\u] escape may complete. *)
Inductive sstate :=
| SPlain
| SPending (hi : N)
| SEscape (hi : option N)
| SHex (hi : option N) (k : nat) (acc : N).

(** Inside a number: an optional sign, an integer part without leading
    zeros, an optional fraction, an optional exponent. *)
Inductive nstate :=
| NSign | NZero | NInt | NPoint | NFrac | NExpMark | NExpSign | NExp.

Inductive pstate :=
| PValue (st : list frame)
| PFirst (st : list frame)
| PKeyFirst (st : list frame)
| PKey (done : list (str * json)) (st : list frame)
| PColon (done : list (str * json)) (key : str) (st : list frame)
| PString (tg : target) (buf : str) (ss : sstate) (st : list frame)
| PNumber (buf : str) (ns : nstate) (st : list frame)
| PLiteral (rest : str) (v : json) (st : list frame)
| PAfter (v : json) (st : list frame)
| PError.

(** The four code points the decoder skips between tokens. *)
Definition is_ws (c : N) : bool :=
  N.eqb c 32 || N.eqb c 9 || N.eqb c 10 || N.eqb c 13.

Definition is_digit (c : N) : bool := N.leb 48 c && N.leb c 57.

Definition hex_value (c : N) : option N :=
  if N.leb 48 c && N.leb c 57 then Some (c - 48)%N
  else if N.leb 97 c && N.leb c 102 then Some (c - 87)%N
  else if N.leb 65 c && N.leb c 70 then Some (c - 55)%N
  else None.

Definition is_high_surrogate (u : N) : bool := N.leb 55296 u && N.leb u 56319.
Definition is_low_surrogate (u : N) : bool := N.leb 56320 u && N.leb u 57343.

Definition join_surrogates (hi lo : N) : N :=
  (65536 + ((hi - 55296) * 1024 + (lo - 56320)))%N.

(** The one-character escapes: a backslash followed by a double quote,
    a backslash, a slash, or one of b, f, n, r, t. *)
Definition simple_escape (c : N) : option N :=
  if N.eqb c 34 then Some 34%N
  else if N.eqb c 92 then Some 92%N
  else if N.eqb c 47 then Some 47%N
  else if N.eqb c 98 then Some 8%N
  else if N.eqb c 102 then Some 12%N
  else if N.eqb c 110 then Some 10%N
  else if N.eqb c 114 then Some 13%N
  else if N.eqb c 116 then Some 9%N
  else None.

Definition flush (hi : option N) (buf : str) : str :=
  match hi with Some h => h :: buf | None => buf end.

(** The end of a string: a member name waits for its colon, a value is
    complete. [buf] holds the decoded text in reverse. *)
Definition close_string (tg : target) (buf : str) (st : list frame) : pstate :=
  match tg with
  | TKey done => PColon done (rev buf) st
  | TValue => PAfter (JStr (rev buf)) st
  end.

Definition plain_step (tg : target) (buf : str) (st : list frame) (c : N) : pstate :=
  if N.eqb c 34 then close_string tg buf st
  else if N.eqb c 92 then PString tg buf (SEscape None) st
  else if N.ltb c 32 then PError
  else PString tg (c :: buf) SPlain st.

Definition string_step (tg : target) (buf : str) (ss : sstate)
    (st : list frame) (c : N) : pstate :=
  match ss with
  | SPlain => plain_step tg buf st c
  | SPending hi =>
      if N.eqb c 92 then PString tg buf (SEscape (Some hi)) st
      else plain_step tg (hi :: buf) st c
  | SEscape hi =>
      if N.eqb c 117 then PString tg buf (SHex hi 0 0) st
      else match simple_escape c with
           | Some e => PString tg (e :: flush hi buf) SPlain st
           | None => PError
           end
  | SHex hi k acc =>
      match hex_value c with
      | None => PError
      | Some d =>
          let u := (acc * 16 + d)%N in
          if Nat.ltb k 3 then PString tg buf (SHex hi (S k) u) st
          else
            match hi with
            | Some h =>
                if is_low_surrogate u
                then PString tg (join_surrogates h u :: buf) SPlain st
                else if is_high_surrogate u
                     then PString tg (h :: buf) (SPending u) st
                     else PString tg (u :: h :: buf) SPlain st
            | None =>
                if is_high_surrogate u
                then PString tg buf (SPending u) st
                else PString tg (u :: buf) SPlain st
            end
      end
  end.

Definition number_step (ns : nstate) (c : N) : option nstate :=
  let e := N.eqb c 101 || N.eqb c 69 in
  match ns with
  | NSign => if N.eqb c 48 then Some NZero
             else if is_digit c then Some NInt else None
  | NZero => if N.eqb c 46 then Some NPoint
             else if e then Some NExpMark else None
  | NInt => if is_digit c then Some NInt
            else if N.eqb c 46 then Some NPoint
            else if e then Some NExpMark else None
  | NPoint => if is_digit c then Some NFrac else None
  | NFrac => if is_digit c then Some NFrac
             else if e then Some NExpMark else None
  | NExpMark => if N.eqb c 43 || N.eqb c 45 then Some NExpSign
                else if is_digit c then Some NExp else None
  | NExpSign => if is_digit c then Some NExp else None
  | NExp => if is_digit c then Some NExp else None
  end.

(** The value of a number that ends here, if it may end here. *)
Definition number_value (buf : str) (ns : nstate) : option json :=
  match ns with
  | NZero | NInt => Some (JInt (rev buf))
  | NFrac | NExp => Some (JFloat (rev buf))
  | NSign | NPoint | NExpMark | NExpSign => None
  end.

(** After a complete value: white space, or the separator or closing
    bracket of the enclosing container. *)
Definition after_step (v : json) (st : list frame) (c : N) : pstate :=
  if is_ws c then PAfter v st
  else
    match st with
    | [] => PError
    | FList done :: st' =>
        if N.eqb c 44 then PValue (FList (v :: done) :: st')
        else if N.eqb c 93 then PAfter (JList (rev (v :: done))) st'
        else PError
    | FDict done key :: st' =>
        if N.eqb c 44 then PKey ((key, v) :: done) st'
        else if N.eqb c 125 then PAfter (JDict (rev ((key, v) :: done))) st'
        else PError
    end.

(** The first character of a value. *)
Definition value_start (st : list frame) (c : N) : pstate :=
  if N.eqb c 34 then PString TValue [] SPlain st
  else if N.eqb c 123 then PKeyFirst st
  else if N.eqb c 91 then PFirst st
  else if N.eqb c 110 then PLiteral (lit "ull") JNull st
  else if N.eqb c 116 then PLiteral (lit "rue") (JBool true) st
  else if N.eqb c 102 then PLiteral (lit "alse") (JBool false) st
  else if N.eqb c 78 then PLiteral (lit "aN") (JFloat (lit "NaN")) st
  else if N.eqb c 73 then PLiteral (lit "nfinity") (JFloat (lit "Infinity")) st
  else if N.eqb c 45 then PNumber [c] NSign st
  else if N.eqb c 48 then PNumber [c] NZero st
  else if is_digit c then PNumber [c] NInt st
  else PError.

Definition step (p : pstate) (c : N) : pstate :=
  match p with
  | PValue st => if is_ws c then p else value_start st c
  | PFirst st =>
      if is_ws c then p
      else if N.eqb c 93 then PAfter (JList []) st
      else value_start (FList [] :: st) c
  | PKeyFirst st =>
      if is_ws c then p
      else if N.eqb c 34 then PString (TKey []) [] SPlain st
      else if N.eqb c 125 then PAfter (JDict []) st
      else PError
  | PKey done st =>
      if is_ws c then p
      else if N.eqb c 34 then PString (TKey done) [] SPlain st
      else PError
  | PColon done key st =>
      if is_ws c then p
      else if N.eqb c 58 then PValue (FDict done key :: st)
      else PError
  | PString tg buf ss st => string_step tg buf ss st c
  | PNumber buf ns st =>
      match number_step ns c with
      | Some ns' => PNumber (c :: buf) ns' st
      | None =>
          match ns, N.eqb c 73 with
          | NSign, true =>
              PLiteral (lit "nfinity") (JFloat (lit "-Infinity")) st
          | _, _ =>
              match number_value buf ns with
              | Some v => after_step v st c
              | None => PError
              end
          end
      end
  | PLiteral rest v st =>
      match rest with
      | x :: rest' =>
          if N.eqb c x
          then match rest' with [] => PAfter v st | _ => PLiteral rest' v st end
          else PError
      | [] => PError
      end
  | PAfter v st => after_step v st c
  | PError => PError
  end.

(** The document is complete when one value has been read and nothing
    is open (a number may run to the very end of the text). *)
Definition finish (p : pstate) : option json :=
  match p with
  | PAfter v [] => Some v
  | PNumber buf ns [] => number_value buf ns
  | _ => None
  end.

Definition run (p : pstate) (s : str) : pstate := fold_left step s p.

(** [json.loads(s)] by the grammar: [None] stands for a raised
    [JSONDecodeError]. *)
Definition loads (s : str) : option json := finish (run (PValue []) s).

(** The document without the white space before and after it, which
    the decoder skips around the scan. *)
Fixpoint skip_ws (s : str) : str :=
  match s with
  | c :: r => if is_ws c then skip_ws r else s
  | [] => []
  end.

Definition trim (s : str) : str := rev (skip_ws (rev (skip_ws s))).

(** [d.get(key)] on a decoded object: the last member of that name. *)
Fixpoint dict_lookup (key : str) (members : list (str * json)) : option json :=
  match members with
  | [] => None
  | (k, v) :: rest =>
      match dict_lookup key rest with
      | Some v' => Some v'
      | None => if str_eqb k key then Some v else None
      end
  end.

(** [type(v).__name__] of the Python value a document decodes to. *)
Definition type_name (v : json) : str :=
  match v with
  | JNull => lit "NoneType"
  | JBool _ => lit "bool"
  | JInt _ => lit "int"
  | JFloat _ => lit "float"
  | JStr _ => lit "str"
  | JList _ => lit "list"
  | JDict _ => lit "dict"
  end.

End Json.
Export Json.


(* ================================================================== *)
(** * The runtime: values, exceptions, the environment, the world *)
(* ================================================================== *)

Module Runtime.

(** A raised exception: its class and [str(e)]. *)
Record exn := Exn { exn_class : string; exn_text : str }.

(** A [pandas.DataFrame]: column names and rows of rendered cells. *)
Record DataFrame := { df_columns : list str; df_rows : list (list str) }.

(** The dictionary [AutomatedEDA.generate_eda_report] returns. The
    floating-point statistics are kept as the text pandas renders. *)
Record Analysis := {
  a_timestamp : str;
  a_query_context : str;
  a_row_count : nat;
  a_column_count : nat;
  a_columns : list str;
  a_statistics : str;
  a_insights : list str;
  a_visualization_files : list str;
  a_tableau_files : list str;
  a_report_file : option str }.

(** The values stored in the dictionaries the program builds. *)
Inductive pyval :=
| VNone
| VBool (b : bool)
| VInt (n : nat)
| VStr (s : str)
| VFrame (df : DataFrame)
| VAnalysis (a : Analysis).

(** [bool(v)] *)
Definition truthy (v : pyval) : bool :=
  match v with
  | VNone => false
  | VBool b => b
  | VInt n => negb (Nat.eqb n 0)
  | VStr s => match s with [] => false | _ => true end
  | VFrame _ => true
  | VAnalysis _ => true
  end.

(** A length of time: a non-negative rational number of seconds. *)
Record duration := { d_num : N; d_den : positive }.

Definition seconds (d : duration) : Q := Z.of_N (d_num d) # d_den d.

(** What a completion request comes back with: an exception, or a
    response whose [.text] is a text or [None]. *)
Inductive completion :=
| Raises (e : exn)
| Responds (text : option str).

(** What the pandas computations over a result table yield; they are
    floating-point work and are taken from the environment. *)
Record Profile := { p_statistics : str; p_insights : list str }.

(** The environment: one oracle per external collaborator. Requests,
    statements and sleeps are numbered in the order they are issued. *)
Record Env := {
  (** [client.models.generate_content(model, contents)], k-th request *)
  gemini : nat -> str -> str -> completion;
  gemini_latency : nat -> duration;
  (** [engine.connect()] and [pd.read_sql(sql, conn)], k-th statement *)
  database : nat -> str -> exn + DataFrame;
  database_latency : nat -> duration;
  (** how much longer than asked the k-th [time.sleep] takes *)
  oversleep : nat -> duration;
  (** [datetime.fromtimestamp(t).strftime(fmt)] *)
  strftime : str -> Q -> str;
  (** [str(e)] of the [JSONDecodeError] for a document [loads] rejects *)
  decode_error : str -> str;
  (** the limits of the interpreter that runs the decoder: the exception
      [json.loads] raises on a document (given without the white space
      around it) that exceeds one of them, an integer of more digits
      than [sys.get_int_max_str_digits()] ([ValueError]) or containers
      nested deeper than the recursion limit leaves room for
      ([RecursionError]); [None] for a document within the limits *)
  decoder_limit : str -> option exn;
  (** the error handler of the console, and [str(e)] of the
      [UnicodeEncodeError] for a text that cannot be encoded *)
  stdout_errors : error_handler;
  encode_error : str -> str;
  (** pandas, matplotlib and the report templates *)
  profile : DataFrame -> exn + Profile;
  numeric_columns : DataFrame -> list str;
  categorical_columns : DataFrame -> list str;
  nunique : DataFrame -> str -> nat;
  savefig : string -> DataFrame -> exn + str;
  to_csv : DataFrame -> exn + str;
  to_excel : DataFrame -> exn + str;
  summary_prompt : str -> DataFrame -> Analysis -> exn + str;
  detailed_report : str -> str -> DataFrame -> Analysis -> option str -> exn + str }.

(** The same environment, except that every completion request is
    answered by [c]. *)
Definition answering (env : Env) (c : completion) : Env :=
  {| gemini := fun _ _ _ => c;
     gemini_latency := gemini_latency env;
     database := database env;
     database_latency := database_latency env;
     oversleep := oversleep env;
     strftime := strftime env;
     decode_error := decode_error env;
     decoder_limit := decoder_limit env;
     stdout_errors := stdout_errors env;
     encode_error := encode_error env;
     profile := profile env;
     numeric_columns := numeric_columns env;
     categorical_columns := categorical_columns env;
     nunique := nunique env;
     savefig := savefig env;
     to_csv := to_csv env;
     to_excel := to_excel env;
     summary_prompt := summary_prompt env;
     detailed_report := detailed_report env |}.

(** The fields of a [QueryGenerator] and of a [SummaryGenerator]
    (the Gemini client itself is the environment). *)
Record query_generator := {
  model_id : str;
  min_delay : Q;
  last_request_time : Q;
  schema_context : str }.

Record summary_generator := {
  sg_model_id : str;
  sg_min_delay : Q;
  sg_last_request_time : Q }.

(** What a run leaves behind, in order. [Call] marks the entry into one
    of the three components of the repair loop. *)
Inductive event :=
| Call (method : string) (args : list str)
| Request (at_time : Q) (model contents : str)
| Statement (sql : str)
| Sleep (at_time : Q) (asked : Q)
| Written (path text : str).

Record World := {
  clock : Q;
  requests : nat;
  statements : nat;
  sleeps : nat;
  files : gmap str str;
  log : list event;
  query_gen : query_generator;
  summary_gen : summary_generator }.

Definition set_clock (t : Q) (w : World) : World :=
  {| clock := t; requests := requests w; statements := statements w;
     sleeps := sleeps w; files := files w; log := log w;
     query_gen := query_gen w; summary_gen := summary_gen w |}.

Definition set_requests (n : nat) (w : World) : World :=
  {| clock := clock w; requests := n; statements := statements w;
     sleeps := sleeps w; files := files w; log := log w;
     query_gen := query_gen w; summary_gen := summary_gen w |}.

Definition set_statements (n : nat) (w : World) : World :=
  {| clock := clock w; requests := requests w; statements := n;
     sleeps := sleeps w; files := files w; log := log w;
     query_gen := query_gen w; summary_gen := summary_gen w |}.

Definition set_sleeps (n : nat) (w : World) : World :=
  {| clock := clock w; requests := requests w; statements := statements w;
     sleeps := n; files := files w; log := log w;
     query_gen := query_gen w; summary_gen := summary_gen w |}.

Definition set_files (f : gmap str str) (w : World) : World :=
  {| clock := clock w; requests := requests w; statements := statements w;
     sleeps := sleeps w; files := f; log := log w;
     query_gen := query_gen w; summary_gen := summary_gen w |}.

Definition set_log (l : list event) (w : World) : World :=
  {| clock := clock w; requests := requests w; statements := statements w;
     sleeps := sleeps w; files := files w; log := l;
     query_gen := query_gen w; summary_gen := summary_gen w |}.

Definition set_query_gen (g : query_generator) (w : World) : World :=
  {| clock := clock w; requests := requests w; statements := statements w;
     sleeps := sleeps w; files := files w; log := log w;
     query_gen := g; summary_gen := summary_gen w |}.

Definition set_summary_gen (g : summary_generator) (w : World) : World :=
  {| clock := clock w; requests := requests w; statements := statements w;
     sleeps := sleeps w; files := files w; log := log w;
     query_gen := query_gen w; summary_gen := g |}.

Definition emit (e : event) (w : World) : World := set_log (log w ++ [e]) w.

(** ** The monad *)

Definition M (A : Type) : Type := World -> (exn + A) * World.

Definition ret {A} (a : A) : M A := fun w => (inr a, w).

Definition bind {A B} (m : M A) (k : A -> M B) : M B :=
  fun w =>
    match m w with
    | (inr a, w') => k a w'
    | (inl e, w') => (inl e, w')
    end.

Definition raise {A} (e : exn) : M A := fun w => (inl e, w).

(** [try: body  except Exception as e: handler(e)] *)
Definition try_except {A} (body : M A) (handler : exn -> M A) : M A :=
  fun w =>
    match body w with
    | (inr a, w') => (inr a, w')
    | (inl e, w') => handler e w'
    end.

Definition gets {A} (f : World -> A) : M A := fun w => (inr (f w), w).

Definition modify (f : World -> World) : M unit := fun w => (inr tt, f w).

Definition lift {A} (x : exn + A) : M A :=
  match x with inl e => raise e | inr a => ret a end.

End Runtime.
Export Runtime.

Notation "x <- m ;; k" := (bind m (fun x => k))
  (at level 100, m at next level, right associativity).
Notation "m ;;; k" := (bind m (fun _ => k))
  (at level 100, right associativity).

(** ** Primitives over the world *)

Definition Qltb (a b : Q) : bool := negb (Qle_bool b a).

(** [time.time()] *)
Definition time_time : M Q := gets clock.

(** [time.sleep(secs)]: suspends for at least [secs]. *)
Definition time_sleep (env : Env) (secs : Q) : M unit :=
  if Qltb secs 0
  then raise (Exn "ValueError" (lit "sleep length must be non-negative"))
  else
    modify (fun w =>
      set_sleeps (S (sleeps w))
        (set_clock (clock w + secs + seconds (oversleep env (sleeps w)))
           (emit (Sleep (clock w) secs) w))).

(** [datetime.now().strftime(fmt)] *)
Definition datetime_now (env : Env) (fmt : str) : M str :=
  gets (fun w => strftime env fmt (clock w)).

(** [client.models.generate_content(model=..., contents=...).text] *)
Definition generate_content (env : Env) (model contents : str) : M (option str) :=
  k <- gets requests ;;
  modify (fun w =>
    set_requests (S k)
      (set_clock (clock w + seconds (gemini_latency env k))
         (emit (Request (clock w) model contents) w))) ;;;
  match gemini env k model contents with
  | Raises e => raise e
  | Responds text => ret text
  end.

(** [with engine.connect() as conn: pd.read_sql(sql, conn)] *)
Definition read_sql (env : Env) (sql : str) : M DataFrame :=
  k <- gets statements ;;
  modify (fun w =>
    set_statements (S k)
      (set_clock (clock w + seconds (database_latency env k))
         (emit (Statement sql) w))) ;;;
  lift (database env k sql).

(** [plt.savefig(path)], [df.to_csv(path)], [df.to_excel(path)]: the
    library stores at [path] what it has produced. *)
Definition library_write (path data : str) : M unit :=
  modify (fun w => set_files (<[path := data]> (files w)) (emit (Written path data) w)).

(** The texts of [pieces] that are written before the first one that
    cannot be encoded, and that one. *)
Fixpoint encoded_prefix (pieces : list str) : list str * option str :=
  match pieces with
  | [] => ([], None)
  | t :: rest =>
      if encodable t
      then let '(written, bad) := encoded_prefix rest in (t :: written, bad)
      else ([], Some t)
  end.

(** [with open(path, 'w') as f:] followed by one [f.write(t)] for every
    [t] of [pieces], in order. The file is created or emptied; every
    text is encoded and appended; a text that cannot be encoded raises
    [UnicodeEncodeError], and the file is closed with what was written
    before it. [Written] records what the file holds when it is
    closed. *)
Definition write_file (env : Env) (path : str) (pieces : list str) : M unit :=
  let '(written, bad) := encoded_prefix pieces in
  modify (fun w => set_files (<[path := concat written]> (files w))
                     (emit (Written path (concat written)) w)) ;;;
  match bad with
  | Some t => raise (Exn "UnicodeEncodeError" (encode_error env t))
  | None => ret tt
  end.

(** [print(text)] for a text taken from a response of the backend *)
Definition print_text (env : Env) (text : str) : M unit :=
  if printable (stdout_errors env) text then ret tt
  else raise (Exn "UnicodeEncodeError" (encode_error env text)).

(** [os.path.join(a, b)] *)
Definition path_join (a b : str) : str :=
  if starts_with (lit "/") b then b
  else match a with
       | [] => b
       | _ => if starts_with (lit "/") (rev a) then a ++ b else a ++ lit "/" ++ b
       end.

(** ** Python operations that can raise *)

(** The right operand of [in]: [None] is not a container. *)
Definition container (x : option str) : M str :=
  match x with
  | Some s => ret s
  | None => raise (Exn "TypeError" (lit "argument of type 'NoneType' is not iterable"))
  end.

(** [l[i]] *)
Definition item (l : list str) (i : nat) : M str :=
  match l !! i with
  | Some s => ret s
  | None => raise (Exn "IndexError" (lit "list index out of range"))
  end.

(** [json.loads(s)]: the exception of a limit of the interpreter, when
    the document exceeds one; otherwise the value of the document, or
    the [JSONDecodeError] of a document the grammar rejects. *)
Definition json_loads (env : Env) (s : str) : M json :=
  match decoder_limit env (trim s) with
  | Some e => raise e
  | None =>
      match loads s with
      | Some v => ret v
      | None => raise (Exn "JSONDecodeError" (decode_error env s))
      end
  end.

Definition no_attribute (v : json) (name : string) : exn :=
  Exn "AttributeError"
    (lit "'" ++ type_name v ++ lit "' object has no attribute '" ++ lit name ++ lit "'").

(** [result.get(key, default)] *)
Definition get_method (result : json) (key : str) (default : json) : M json :=
  match result with
  | JDict members =>
      ret (match dict_lookup key members with Some v => v | None => default end)
  | _ => raise (no_attribute result "get")
  end.

(** [v.strip()] *)
Definition strip_method (v : json) : M str :=
  match v with
  | JStr s => ret (strip s)
  | _ => raise (no_attribute v "strip")
  end.

(** [d[key]] on a dictionary of the program *)
Definition getitem (d : gmap string pyval) (key : string) : M pyval :=
  match d !! key with
  | Some v => ret v
  | None => raise (Exn "KeyError" (lit "'" ++ lit key ++ lit "'"))
  end.

(** A value used where only a text will do ([f.write], a SQL statement).
    The dictionaries of a successful generation or correction always
    hold texts there. *)
Definition text_of (v : pyval) : M str :=
  match v with
  | VStr s => ret s
  | _ => raise (Exn "TypeError" (lit "expected str"))
  end.

(** [len(s)] where [s] may be [None] *)
Definition len_text (s : option str) : M nat :=
  match s with
  | Some t => ret (length t)
  | None => raise (Exn "TypeError" (lit "object of type 'NoneType' has no len()"))
  end.

(** [str(x)] as an f-string renders it *)
Definition format_opt (s : option str) : str :=
  match s with Some t => t | None => lit "None" end.

Definition unlines (ls : list string) : str :=
  match ls with
  | [] => []
  | l :: rest => fold_left (fun acc x => acc ++ [10%N] ++ lit x) rest (lit l)
  end.

Definition junlines (ls : list string) : str :=
  List.map (fun c => if N.eqb c 39 then 34%N else c) (unlines ls).

(* ================================================================== *)
(** * [query_generator.py] *)
(* ================================================================== *)

Module QueryGenerator.

Definition schema_text : str :=
  unlines [
    "";
    "        Database: PostgreSQL";
    "        Table: sales_data";
    "        ";
    "        Columns:";
    "        - id: SERIAL PRIMARY KEY";
    "        - date: DATE (transaction date)";
    "        - day: INTEGER (day of month)";
    "        - month: VARCHAR(20) (month name)";
    "        - year: INTEGER";
    "        - customer_age: INTEGER";
    "        - age_group: VARCHAR(50) (Youth (<25), Young Adults (25-34), Adults (35-64), Seniors (64+))";
    "        - customer_gender: VARCHAR(10) (M/F)";
    "        - country: VARCHAR(50)";
    "        - state: VARCHAR(100)";
    "        - product_category: VARCHAR(100)";
    "        - sub_category: VARCHAR(100)";
    "        - product: VARCHAR(200)";
    "        - order_quantity: INTEGER";
    "        - unit_cost: DECIMAL(10,2)";
    "        - unit_price: DECIMAL(10,2)";
    "        - profit: DECIMAL(10,2)";
    "        - cost: DECIMAL(10,2)";
    "        - revenue: DECIMAL(10,2)";
    "        ";
    "        Notes:";
    "        - All column names are lowercase";
    "        - Date format: YYYY-MM-DD";
    "        - Revenue = Unit_Price * Order_Quantity";
    "        - Profit = Revenue - Cost";
    "        " ].

(** [QueryGenerator.__init__] *)
Definition __init__ : query_generator :=
  {| model_id := lit "gemini-2.0-flash";
     min_delay := 5;
     last_request_time := 0;
     schema_context := schema_text |}.

Definition set_last_request_time (t : Q) (self : query_generator) : query_generator :=
  {| model_id := model_id self;
     min_delay := min_delay self;
     last_request_time := t;
     schema_context := schema_context self |}.

(** [QueryGenerator._wait_for_rate_limit] *)
Definition _wait_for_rate_limit (env : Env) : M unit :=
  current_time <- time_time ;;
  self <- gets query_gen ;;
  let time_since_last := (current_time - last_request_time self)%Q in
  (if Qltb time_since_last (min_delay self)
   then
     let wait_time := (min_delay self - time_since_last)%Q in
     time_sleep env wait_time
   else ret tt) ;;;
  t <- time_time ;;
  modify (fun w => set_query_gen (set_last_request_time t (query_gen w)) w).

Definition generate_prompt (self : query_generator) (natural_language_query : str) : str :=
  unlines [
    "You are a SQL expert. Convert the following natural language question into a PostgreSQL query.";
    "";
    "" ]
  ++ schema_context self
  ++ unlines [ ""; ""; "User Question: " ]
  ++ natural_language_query
  ++ junlines [
    "";
    "";
    "Requirements:";
    "1. Generate ONLY valid PostgreSQL syntax";
    "2. Use appropriate aggregations, joins, and filters";
    "3. Include ORDER BY and LIMIT where appropriate";
    "4. Use meaningful column aliases";
    "5. Format the query for readability";
    "";
    "Respond in JSON format:";
    "{";
    "    'sql': 'SELECT ...',";
    "    'explanation': 'This query retrieves...'";
    "}";
    "" ].

Definition review_prompt (self : query_generator) (sql_query : str)
    (error_message : option str) : str :=
  unlines [
    "You are a SQL expert. Review and improve this PostgreSQL query.";
    "";
    "" ]
  ++ schema_context self
  ++ unlines [ ""; ""; "Query to review:"; "" ]
  ++ sql_query
  ++ unlines [ ""; ""; "" ]
  ++ match error_message with
     | Some ((_ :: _) as m) => lit "Error encountered: " ++ m
     | _ => lit "Please validate and optimize this query."
     end
  ++ junlines [
    "";
    "";
    "Provide:";
    "1. Corrected/improved query (if needed)";
    "2. Explanation of changes";
    "3. Potential issues to watch for";
    "";
    "Respond in JSON format:";
    "{";
    "    'sql': 'corrected query',";
    "    'changes': 'what was changed and why',";
    "    'warnings': 'any potential issues'";
    "}";
    "" ].

(** The two markers a failure text is searched for. *)
Definition is_rate_limit (error_msg : str) : bool :=
  contains (lit "429") error_msg || contains (lit "RESOURCE_EXHAUSTED") error_msg.

(** Lines 101 to 104 of [generate_sql], repeated as lines 179 to 182 of
    [validate_and_improve_query]: a markdown code fence around the
    payload is removed. *)
Definition unfence (response_text : str) : M str :=
  if contains (lit "```json") response_text then
    a <- item (split (lit "```json") response_text) 1 ;;
    b <- item (split (lit "```") a) 0 ;;
    ret (strip b)
  else if contains (lit "```") response_text then
    a <- item (split (lit "```") response_text) 1 ;;
    b <- item (split (lit "```") a) 0 ;;
    ret (strip b)
  else ret response_text.

(** [QueryGenerator.generate_sql] *)
Definition generate_sql (env : Env) (natural_language_query : str)
    : M (gmap string pyval) :=
  modify (emit (Call "generate_sql" [natural_language_query])) ;;;
  self <- gets query_gen ;;
  let prompt := generate_prompt self natural_language_query in
  try_except
    (response <- generate_content env (model_id self) prompt ;;
     response_text <- container response ;;
     response_text <- unfence response_text ;;
     result <- json_loads env response_text ;;
     sql <- (v <- get_method result (lit "sql") (JStr []) ;; strip_method v) ;;
     explanation <-
       (v <- get_method result (lit "explanation") (JStr []) ;; strip_method v) ;;
     ret (<["sql" := VStr sql]>
          (<["explanation" := VStr explanation]>
          (<["success" := VBool true]> ∅))))
    (fun e =>
       let error_msg := exn_text e in
       if is_rate_limit error_msg then
         ret (<["sql" := VNone]>
              (<["explanation" := VNone]>
              (<["success" := VBool false]>
              (<["error" := VStr (lit "Rate limit exceeded. Try again in a few minutes or enable billing for higher quota.")]>
              (<["error_type" := VStr (lit "rate_limit")]> ∅)))))
       else
         ret (<["sql" := VNone]>
              (<["explanation" := VNone]>
              (<["success" := VBool false]>
              (<["error" := VStr (exn_text e)]> ∅))))).

(** [QueryGenerator.validate_and_improve_query] *)
Definition validate_and_improve_query (env : Env) (sql_query : str)
    (error_message : option str) : M (gmap string pyval) :=
  modify (emit (Call "validate_and_improve_query"
                  [sql_query; format_opt error_message])) ;;;
  self <- gets query_gen ;;
  let prompt := review_prompt self sql_query error_message in
  try_except
    (_wait_for_rate_limit env ;;;
     response <- generate_content env (model_id self) prompt ;;
     response_text <- container response ;;
     response_text <- unfence response_text ;;
     result <- json_loads env response_text ;;
     sql <- (v <- get_method result (lit "sql") (JStr []) ;; strip_method v) ;;
     changes <- (v <- get_method result (lit "changes") (JStr []) ;; strip_method v) ;;
     warnings <- (v <- get_method result (lit "warnings") (JStr []) ;; strip_method v) ;;
     ret (<["sql" := VStr sql]>
          (<["changes" := VStr changes]>
          (<["warnings" := VStr warnings]>
          (<["success" := VBool true]> ∅)))))
    (fun e =>
       let error_msg := exn_text e in
       if is_rate_limit error_msg then
         ret (<["success" := VBool false]>
              (<["error" := VStr (lit "Rate limit exceeded. Try again in a few minutes.")]>
              (<["error_type" := VStr (lit "rate_limit")]> ∅)))
       else
         ret (<["success" := VBool false]>
              (<["error" := VStr (exn_text e)]> ∅))).

End QueryGenerator.

(* ================================================================== *)
(** * [automated_eda.py] *)
(* ================================================================== *)

Module AutomatedEDA.

Definition output_dir : str := lit "../outputs".

(** [AutomatedEDA.execute_query] *)
Definition execute_query (env : Env) (sql_query : str)
    : M (option DataFrame * option str) :=
  modify (emit (Call "execute_query" [sql_query])) ;;;
  try_except
    (df <- read_sql env sql_query ;;
     ret (Some df, None))
    (fun e => ret (None, Some (exn_text e))).

(** [AutomatedEDA.analyze_results] (with [_generate_insights]) *)
Definition analyze_results (env : Env) (df : DataFrame) (query_context : str)
    : M Analysis :=
  timestamp <- datetime_now env (lit "%Y-%m-%d %H:%M:%S") ;;
  p <- lift (profile env df) ;;
  ret {| a_timestamp := timestamp;
         a_query_context := query_context;
         a_row_count := length (df_rows df);
         a_column_count := length (df_columns df);
         a_columns := df_columns df;
         a_statistics := p_statistics p;
         a_insights := p_insights p;
         a_visualization_files := [];
         a_tableau_files := [];
         a_report_file := None |}.

(** [AutomatedEDA.create_visualizations] *)
Definition create_visualizations (env : Env) (df : DataFrame) (analysis_name : str)
    : M (list str) :=
  let numeric_cols := numeric_columns env df in
  match numeric_cols with
  | [] => ret []
  | _ :: _ =>
      png <- lift (savefig env "distributions" df) ;;
      let filepath := path_join output_dir (analysis_name ++ lit "_distributions.png") in
      library_write filepath png ;;;
      let created_files := [filepath] in
      let categorical_cols := categorical_columns env df in
      match categorical_cols with
      | cat_col :: _ =>
          if Nat.leb (nunique env df cat_col) 15 then
            png <- lift (savefig env "top_categories" df) ;;
            let filepath :=
              path_join output_dir (analysis_name ++ lit "_top_categories.png") in
            library_write filepath png ;;;
            ret (created_files ++ [filepath])
          else ret created_files
      | [] => ret created_files
      end
  end.

(** [AutomatedEDA.export_for_tableau] *)
Definition export_for_tableau (env : Env) (df : DataFrame) (filename : str)
    : M (list str) :=
  try_except
    (let csv_path := path_join output_dir (filename ++ lit ".csv") in
     csv <- lift (to_csv env df) ;;
     library_write csv_path csv ;;;
     let excel_path := path_join output_dir (filename ++ lit ".xlsx") in
     xlsx <- lift (to_excel env df) ;;
     library_write excel_path xlsx ;;;
     ret [csv_path; excel_path])
    (fun e => ret []).

Definition with_files (viz tableau : list str) (report : option str)
    (a : Analysis) : Analysis :=
  {| a_timestamp := a_timestamp a;
     a_query_context := a_query_context a;
     a_row_count := a_row_count a;
     a_column_count := a_column_count a;
     a_columns := a_columns a;
     a_statistics := a_statistics a;
     a_insights := a_insights a;
     a_visualization_files := viz;
     a_tableau_files := tableau;
     a_report_file := report |}.

(** The texts [generate_eda_report] writes to its report, one for
    every [f.write] of lines 245 to 253. *)
Definition report_pieces (analysis : Analysis) : list str :=
  [ lit "=== Automated EDA Report ===" ++ [10%N; 10%N];
    lit "Generated: " ++ a_timestamp analysis ++ [10%N];
    lit "Query Context: " ++ a_query_context analysis ++ [10%N; 10%N];
    lit "Dataset Overview:" ++ [10%N];
    lit "  - Rows: " ++ grouped (a_row_count analysis) ++ [10%N];
    lit "  - Columns: " ++ decimal (a_column_count analysis) ++ [10%N; 10%N];
    lit "Columns: " ++ join (lit ", ") (a_columns analysis) ++ [10%N; 10%N];
    lit "Key Insights:" ++ [10%N] ]
  ++ List.map (fun insight => lit "  " ++ [8226%N] ++ lit " " ++ insight ++ [10%N])
       (a_insights analysis).

(** [AutomatedEDA.generate_eda_report] *)
Definition generate_eda_report (env : Env) (df : DataFrame)
    (query_context analysis_name : str) : M Analysis :=
  analysis <- analyze_results env df query_context ;;
  viz_files <- create_visualizations env df analysis_name ;;
  tableau_files <- export_for_tableau env df analysis_name ;;
  let analysis := with_files viz_files tableau_files None analysis in
  let report_path := path_join output_dir (analysis_name ++ lit "_report.txt") in
  write_file env report_path (report_pieces analysis) ;;;
  ret (with_files viz_files tableau_files (Some report_path) analysis).

End AutomatedEDA.

(* ================================================================== *)
(** * [summary_generator.py] *)
(* ================================================================== *)

Module SummaryGenerator.

(** [SummaryGenerator.__init__] *)
Definition __init__ : summary_generator :=
  {| sg_model_id := lit "gemini-2.0-flash-exp";
     sg_min_delay := 5;
     sg_last_request_time := 0 |}.

Definition set_last_request_time (t : Q) (self : summary_generator) : summary_generator :=
  {| sg_model_id := sg_model_id self;
     sg_min_delay := sg_min_delay self;
     sg_last_request_time := t |}.

(** [SummaryGenerator._wait_for_rate_limit] *)
Definition _wait_for_rate_limit (env : Env) : M unit :=
  current_time <- time_time ;;
  self <- gets summary_gen ;;
  let time_since_last := (current_time - sg_last_request_time self)%Q in
  (if Qltb time_since_last (sg_min_delay self)
   then
     let wait_time := (sg_min_delay self - time_since_last)%Q in
     time_sleep env wait_time
   else ret tt) ;;;
  t <- time_time ;;
  modify (fun w => set_summary_gen (set_last_request_time t (summary_gen w)) w).

(** The text returned in place of a summary when the request fails on a
    rate limit (the second paragraph starts with the four code points
    the source file holds there). *)
Definition rate_limit_summary : str :=
  unlines [
    "Error generating summary: Rate limit exceeded.";
    "";
    "Please wait a few minutes and try again.";
    "";
    "" ]
  ++ [240; 376; 8217; 161]%N
  ++ unlines [
    " To avoid this in production:";
    "- Enable billing at https://ai.google.dev/pricing for higher quota";
    "- Add longer delays between requests";
    "- Use batch processing for multiple analyses";
    "" ].

(** [SummaryGenerator.generate_executive_summary]. The prompt is put
    together before the [try]; the returned summary is [response.text],
    or an error text when the request raised. *)
Definition generate_executive_summary (env : Env) (query_context : str)
    (df : DataFrame) (analysis_results : Analysis) : M (option str) :=
  prompt <- lift (summary_prompt env query_context df analysis_results) ;;
  self <- gets summary_gen ;;
  try_except
    (_wait_for_rate_limit env ;;;
     response <- generate_content env (sg_model_id self) prompt ;;
     let summary := response in
     ret summary)
    (fun e =>
       let error_msg := exn_text e in
       if QueryGenerator.is_rate_limit error_msg
       then ret (Some rate_limit_summary)
       else ret (Some (lit "Error generating summary: " ++ exn_text e))).

(** [SummaryGenerator.generate_detailed_report] *)
Definition generate_detailed_report (env : Env) (query_context sql_query : str)
    (df : DataFrame) (analysis_results : Analysis) (summary : option str) : M str :=
  lift (detailed_report env query_context sql_query df analysis_results summary).

(** [SummaryGenerator.save_report] with the default [output_dir] *)
Definition save_report (env : Env) (report filename : str) : M str :=
  let filepath := path_join (lit "../outputs") filename in
  write_file env filepath [report] ;;;
  ret filepath.

End SummaryGenerator.

(* ================================================================== *)
(** * [main.py] *)
(* ================================================================== *)

Module AnalyticsWorkflow.

(** [AnalyticsWorkflow.__init__]: the three collaborators are built. *)
Definition __init__ (w : World) : World :=
  set_summary_gen SummaryGenerator.__init__
    (set_query_gen QueryGenerator.__init__ w).

(** [if error:] on the second component of an execution outcome *)
Definition is_error (error : option str) : bool :=
  match error with
  | Some (_ :: _) => true
  | _ => false
  end.

Definition error_value (error : option str) : pyval :=
  match error with Some s => VStr s | None => VNone end.

(** Lines 107 to 168 of [run_analysis] (Steps 3 to 5).
    [len(df)] comes first and raises when [df] is [None]; the closing
    printout takes [len(summary)] and shows the summary, or its first
    500 code points. *)
Definition report_steps (env : Env) (natural_language_query : str)
    (results : gmap string pyval) (timestamp sql_query : str)
    (df : option DataFrame) : M (gmap string pyval) :=
  match df with
  | None => raise (Exn "TypeError" (lit "object of type 'NoneType' has no len()"))
  | Some df =>
      let row_count := length (df_rows df) in
      let results := <["row_count" := VInt row_count]> results in
      let results := <["dataframe" := VFrame df]> results in
      let analysis_name := lit "analysis_" ++ timestamp in
      eda_results <-
        AutomatedEDA.generate_eda_report env df natural_language_query analysis_name ;;
      let results := <["eda_results" := VAnalysis eda_results]> results in
      summary <-
        SummaryGenerator.generate_executive_summary env natural_language_query
          df eda_results ;;
      let results :=
        <["executive_summary" := match summary with Some s => VStr s | None => VNone end]>
          results in
      full_report <-
        SummaryGenerator.generate_detailed_report env natural_language_query
          sql_query df eda_results summary ;;
      let report_filename := lit "complete_report_" ++ timestamp ++ lit ".md" in
      report_path <- SummaryGenerator.save_report env full_report report_filename ;;
      let results := <["report_file" := VStr report_path]> results in
      let results := <["success" := VBool true]> results in
      n <- len_text summary ;;
      print_text env
        (if Nat.ltb 500 n then take 500 (format_opt summary) ++ lit "..."
         else format_opt summary) ;;;
      ret results
  end.

(** Lines 77 to 105 of [run_analysis] (Step 2): the query is executed;
    on an error the Corrector is asked once, its changes are shown and
    its query is executed once; the run then goes on to the report or
    returns. *)
Definition execution_steps (env : Env) (natural_language_query : str)
    (results : gmap string pyval) (timestamp sql_query : str)
    : M (gmap string pyval) :=
  outcome <- AutomatedEDA.execute_query env sql_query ;;
  let '(df, error) := outcome in
  if is_error error then
    fix_result <-
      QueryGenerator.validate_and_improve_query env sql_query error ;;
    ok <- getitem fix_result "success" ;;
    if truthy ok then
      changes <- (v <- getitem fix_result "changes" ;; text_of v) ;;
      print_text env (lit "Changes: " ++ changes) ;;;
      sql_query <- (v <- getitem fix_result "sql" ;; text_of v) ;;
      let results := <["sql_query" := VStr sql_query]> results in
      outcome <- AutomatedEDA.execute_query env sql_query ;;
      let '(df, error) := outcome in
      if is_error error then
        ret (<["error" := error_value error]> results)
      else
        report_steps env natural_language_query results timestamp sql_query df
    else
      ret (<["error" := error_value error]> results)
  else
    report_steps env natural_language_query results timestamp sql_query df.

(** [AnalyticsWorkflow.run_analysis]: Step 1, the printout of the
    query and of its explanation and the saving of the query (lines 36
    to 75), then the steps above. *)
Definition run_analysis (env : Env) (natural_language_query : str)
    (save_sql : bool) : M (gmap string pyval) :=
  timestamp <- datetime_now env (lit "%Y-%m-%d_%H-%M-%S") ;;
  let results : gmap string pyval :=
    <["success" := VBool false]>
    (<["query" := VStr natural_language_query]>
    (<["timestamp" := VStr timestamp]> ∅)) in
  query_result <- QueryGenerator.generate_sql env natural_language_query ;;
  ok <- getitem query_result "success" ;;
  if negb (truthy ok) then ret results
  else
    sql_query <- (v <- getitem query_result "sql" ;; text_of v) ;;
    explanation <- (v <- getitem query_result "explanation" ;; text_of v) ;;
    print_text env sql_query ;;;
    print_text env ([10%N] ++ lit "Explanation: " ++ explanation) ;;;
    let results := <["sql_query" := VStr sql_query]> results in
    let results := <["sql_explanation" := VStr explanation]> results in
    results <-
      (if save_sql then
         let sql_filename := lit "query_" ++ timestamp ++ lit ".sql" in
         let sql_path := path_join (lit "../sql_queries") sql_filename in
         write_file env sql_path
           [ lit "-- Generated: " ++ timestamp ++ [10%N];
             lit "-- Question: " ++ natural_language_query ++ [10%N];
             lit "-- Explanation: " ++ explanation ++ [10%N; 10%N];
             sql_query ] ;;;
         ret (<["sql_file" := VStr sql_path]> results)
       else ret results) ;;
    execution_steps env natural_language_query results timestamp sql_query.

(** The words that end an interactive session. *)
Definition exit_words : list str := [lit "exit"; lit "quit"; lit "q"].

(** [c.lower()] for a code point of ASCII; the other code points are
    left as they are. *)
Definition ascii_lower (c : N) : N :=
  if N.leb 65 c && N.leb c 90 then (c + 32)%N else c.

(** [query.lower() in ['exit', 'quit', 'q']]. The three words are
    ASCII, and [str.lower] maps no code point outside ASCII to a text
    made of letters of these words, so lowering the ASCII letters alone
    decides the membership as Python does. *)
Definition is_exit (query : str) : bool :=
  existsb (str_eqb (List.map ascii_lower query)) exit_words.

(** [AnalyticsWorkflow.interactive_mode]. [lines] are the lines that
    the calls of [input()] read, in order; once they are used up,
    [input()] raises [EOFError]. Every question is analysed with
    [save_sql] left at its default. *)
Fixpoint interactive_mode (env : Env) (lines : list str) : M unit :=
  match lines with
  | [] => raise (Exn "EOFError" (lit "EOF when reading a line"))
  | line :: rest =>
      let query := strip line in
      if is_exit query then ret tt
      else
        match query with
        | [] => interactive_mode env rest
        | _ :: _ => run_analysis env query true ;;; interactive_mode env rest
        end
  end.

End AnalyticsWorkflow.

(** A process that has just built its workflow object, at clock [t],
    with no file written yet. *)
Definition boot (t : Q) : World :=
  AnalyticsWorkflow.__init__
    {| clock := t; requests := 0; statements := 0; sleeps := 0;
       files := ∅; log := [];
       query_gen := QueryGenerator.__init__;
       summary_gen := SummaryGenerator.__init__ |}.


(* ================================================================== *)
(** * Vocabulary of the properties *)
(* ================================================================== *)

(** A text that does not start with white space. *)
Definition trimmed_left (s : str) : Prop :=
  match s with c :: _ => is_space c = false | [] => True end.

(** The literal being matched holds no white space; true of every state
    the decoder reaches. *)
Definition wf_state (p : pstate) : Prop :=
  match p with
  | PLiteral rest _ _ => Forall (fun x => is_space x = false) rest
  | _ => True
  end.

(** A payload wrapped in a markdown code fence, the way the completion
    backend decorates its answers: with and without the language tag. *)
Definition fence_json (payload : str) : str :=
  lit "```json" ++ [10%N] ++ payload ++ [10%N] ++ lit "```".

Definition fence_plain (payload : str) : str :=
  lit "```" ++ [10%N] ++ payload ++ [10%N] ++ lit "```".

(** How many times a component method was entered, by the event log. *)
Fixpoint calls (method : string) (l : list event) : nat :=
  match l with
  | [] => 0
  | Call m _ :: rest =>
      (if bool_decide (m = method) then 1 else 0) + calls method rest
  | _ :: rest => calls method rest
  end.

(** The times at which completion requests were issued, in order. *)
Fixpoint request_times (l : list event) : list Q :=
  match l with
  | [] => []
  | Request t _ _ :: rest => t :: request_times rest
  | _ :: rest => request_times rest
  end.

(** [m] keeps [I]: whatever it returns or raises, a world satisfying [I]
    is left in a world satisfying [I]. *)
Definition preserves {A} (I : World -> Prop) (m : M A) : Prop :=
  forall w, I w -> I (snd (m w)).

(** [m] enters [method] at most [n] times. *)
Definition adds {A} (method : string) (n : nat) (m : M A) : Prop :=
  forall w, calls method (log (snd (m w))) <= calls method (log w) + n.

(** Whenever [m] returns a value, the value satisfies [Q]. *)
Definition returns {A} (Q : A -> Prop) (m : M A) : Prop :=
  forall w a w', m w = (inr a, w') -> Q a.

(** [m] never raises. *)
Definition total {A} (m : M A) : Prop :=
  forall w, exists a, fst (m w) = inr a.

(** A file name that [os.path.join] appends to the directory. *)
Definition relative (name : str) : Prop :=
  match name with c :: _ => c <> 47%N | [] => False end.

(** [I] is an invariant of the program's effects: it does not depend on
    the clock, the counters or the generator objects; it survives every
    event except the entry into a [loud] method, and every file write
    to a [free] path; the paths under [../outputs/] are free. *)
Record Stable (I : World -> Prop) (loud : string -> Prop) (free : str -> Prop)
    : Prop := {
  stable_clock : forall t w, I w -> I (set_clock t w);
  stable_requests : forall n w, I w -> I (set_requests n w);
  stable_statements : forall n w, I w -> I (set_statements n w);
  stable_sleeps : forall n w, I w -> I (set_sleeps n w);
  stable_query_gen : forall g w, I w -> I (set_query_gen g w);
  stable_summary_gen : forall g w, I w -> I (set_summary_gen g w);
  stable_emit :
    forall e w, (forall m a, e = Call m a -> ~ loud m) -> I w -> I (emit e w);
  stable_files :
    forall p t w, free p -> I w -> I (set_files (<[p := t]> (files w)) w);
  stable_outputs : forall x, free (lit "../outputs/" ++ x) }.

(** [m] leaves the world as it found it. *)
Definition pure {A} (m : M A) : Prop := forall w, snd (m w) = w.


(** A result dictionary after the report: success, with the table and
    the path of the report. *)
Definition reported (d : gmap string pyval) : Prop :=
  d !! "success" = Some (VBool true) /\
  (exists df, d !! "dataframe" = Some (VFrame df)) /\
  (exists path, d !! "report_file" = Some (VStr path)).

(** What a failed run returns once a query has been generated: the
    question, the query attempted last and a non-empty error text. *)
Definition failed_after_generation (q : str) (d : gmap string pyval) : Prop :=
  d !! "success" = Some (VBool false) /\ (exists sql, d !! "sql_query" = Some (VStr sql)) ->
  d !! "query" = Some (VStr q) /\
  exists sql e,
    d !! "sql_query" = Some (VStr sql) /\ d !! "error" = Some (VStr e) /\ e <> [].

(** [m] leaves the component [f] of the world as it found it, whether
    it returns or raises. *)
Definition keeps {A X} (f : World -> X) (m : M A) : Prop :=
  forall w, f (snd (m w)) = f w.

(** [m] raises the counter [f] by at most [n]. *)
Definition grows {A} (f : World -> nat) (n : nat) (m : M A) : Prop :=
  forall w, f (snd (m w)) <= f w + n.

(** From a world satisfying [P], whenever [m] returns, its value and
    the world it leaves satisfy [Q]. *)
Definition ensures {A} (P : World -> Prop) (m : M A) (Q : A -> World -> Prop) : Prop :=
  forall w a w', P w -> m w = (inr a, w') -> Q a w'.

(** The statements sent to the database, in order. *)
Definition statement_of (e : event) : option str :=
  match e with Statement sql => Some sql | _ => None end.

Definition statements_sent (l : list event) : list str := omap statement_of l.

(** The sleeps asked of [time.sleep], in order. *)
Definition sleep_of (e : event) : option Q :=
  match e with Sleep _ asked => Some asked | _ => None end.

Definition sleeps_asked (l : list event) : list Q := omap sleep_of l.

(** The paths written, in order. *)
Definition path_of (e : event) : option str :=
  match e with Written path _ => Some path | _ => None end.

Definition paths_written (l : list event) : list str := omap path_of l.

(** The log has grown from [l0] by events that all satisfy [ok]. *)
Definition only (ok : event -> Prop) (l0 : list event) (w : World) : Prop :=
  exists l, log w = l0 ++ l /\ Forall ok l.

(** [m] takes a world satisfying [P] to a world satisfying [Q],
    whether it returns or raises. *)
Definition leads {A} (P Q : World -> Prop) (m : M A) : Prop :=
  forall w, P w -> Q (snd (m w)).

(** The generator object's last request is at least its minimum
    interval old. *)
Definition rested (w : World) : Prop :=
  (last_request_time (query_gen w) + min_delay (query_gen w) <= clock w)%Q.

Definition summary_rested (w : World) : Prop :=
  (sg_last_request_time (summary_gen w) + sg_min_delay (summary_gen w) <= clock w)%Q.


(** The file a run saves its generated query to, and what it writes
    there. *)
Definition saved_path (ts : str) : str := lit "../sql_queries/query_" ++ ts ++ lit ".sql".



(** The result dictionary of a run when its query has been generated. *)
Definition generated (ts q explanation sql : str) : gmap string pyval :=
  <["sql_explanation" := VStr explanation]>
    (<["sql_query" := VStr sql]>
    (<["success" := VBool false]>
    (<["query" := VStr q]>
    (<["timestamp" := VStr ts]> ∅)))).

(** An event that is not a statement sent to the database. *)
Definition no_statement (e : event) : Prop := statement_of e = None.

(** The statements sent since [l0] end with [sql]. *)
Definition last_sent (l0 : list str) (sql : str) (w : World) : Prop :=
  exists pre, statements_sent (log w) = l0 ++ pre ++ [sql].

(** No sleep beyond the [n] first ones, with both generator objects
    rested, and with the summary generator rested. *)
Definition both_rested (n : nat) (w : World) : Prop :=
  sleeps w = n /\ rested w /\ summary_rested w.

Definition summary_still_rested (n : nat) (w : World) : Prop :=
  sleeps w = n /\ summary_rested w.

Definition unslept (n : nat) (w : World) : Prop := sleeps w = n.

(** The path of the complete report of a run. *)
Definition report_path (ts : str) : str :=
  lit "../outputs/complete_report_" ++ ts ++ lit ".md".

(** The entry [sql_file] of a result: the path of the saved query when
    the run was asked to save it, and no entry otherwise. *)
Definition sql_file_entry (save_sql : bool) (ts : str) : option pyval :=
  if save_sql then Some (VStr (saved_path ts)) else None.

(** A complete result: the question, the time stamp and a query, with
    the path of its file if it was saved; the table with its number of
    rows; the EDA results, for the same number of rows; a summary that
    is a text; the path of the complete report, a file that exists in
    [w]; and no error entry. *)
Definition complete (save_sql : bool) (q ts : str) (d : gmap string pyval)
    (w : World) : Prop :=
  d !! "query" = Some (VStr q) /\
  d !! "timestamp" = Some (VStr ts) /\
  (exists sql, d !! "sql_query" = Some (VStr sql)) /\
  d !! "sql_file" = sql_file_entry save_sql ts /\
  (exists df a summary,
     d !! "dataframe" = Some (VFrame df) /\
     d !! "row_count" = Some (VInt (length (df_rows df))) /\
     d !! "eda_results" = Some (VAnalysis a) /\
     a_row_count a = length (df_rows df) /\
     d !! "executive_summary" = Some (VStr summary)) /\
  d !! "report_file" = Some (VStr (report_path ts)) /\
  is_Some (files w !! report_path ts) /\
  d !! "error" = None.

(** The entries of a result dictionary on which Step 2 builds. *)
Definition started (save_sql : bool) (q ts : str) (results : gmap string pyval) : Prop :=
  results !! "success" = Some (VBool false) /\
  results !! "query" = Some (VStr q) /\
  results !! "timestamp" = Some (VStr ts) /\
  (exists sql, results !! "sql_query" = Some (VStr sql)) /\
  results !! "sql_file" = sql_file_entry save_sql ts /\
  results !! "error" = None.

(** A failed result blames the database: its error entry is the text,
    not empty, of an exception the database raised for the query the
    result carries. *)
Definition blamed (env : Env) (q : str) (d : gmap string pyval) : Prop :=
  forall s, d !! "sql_query" = Some (VStr s) ->
    d !! "query" = Some (VStr q) /\
    exists k e, database env k s = inl e /\ exn_text e <> [] /\
                d !! "error" = Some (VStr (exn_text e)).

(** A line that holds nothing but white space. *)
Definition blank (line : str) : bool :=
  match strip line with [] => true | _ :: _ => false end.

(** The questions of an interactive session: the lines read before the
    first exit word, stripped, the blank ones left out. *)
Fixpoint questions (lines : list str) : list str :=
  match lines with
  | [] => []
  | line :: rest =>
      if AnalyticsWorkflow.is_exit (strip line) then []
      else if blank line then questions rest
      else strip line :: questions rest
  end.

(** The questions handed to the Generator, in order. *)
Definition question_of (e : event) : option str :=
  match e with
  | Call m [q] => if bool_decide (m = "generate_sql"%string) then Some q else None
  | _ => None
  end.

Definition asked (l : list event) : list str := omap question_of l.

(** An event that is not an entry into the Generator. *)
Definition not_generation (e : event) : Prop :=
  forall a, e <> Call "generate_sql" a.

(** An event that is not a write, or is a write under [../outputs/], or
    is the write of the file [extra]. *)
Definition writes_within (extra : option str) (e : event) : Prop :=
  match e with
  | Written path _ =>
      starts_with (lit "../outputs/") path = true \/ extra = Some path
  | _ => True
  end.


(* ================================================================== *)
(** * Sample environments *)
(* ================================================================== *)

Module Samples.

Definition instant : duration := {| d_num := 0; d_den := 1 |}.

Definition table : DataFrame :=
  {| df_columns := [lit "product"; lit "revenue"];
     df_rows := [[lit "Road Bike"; lit "1200.00"]; [lit "Helmet"; lit "35.00"]] |}.

(** An environment with the given console, limits of the interpreter,
    backend and database, no latency, and fixed answers from the clock
    formatting and the reporting libraries. *)
Definition env_with (console : error_handler) (limit : str -> option exn)
    (llm : nat -> str -> str -> completion)
    (db : nat -> str -> exn + DataFrame) : Env :=
  {| gemini := llm;
     gemini_latency := fun _ => instant;
     database := db;
     database_latency := fun _ => instant;
     oversleep := fun _ => instant;
     strftime := fun _ _ => lit "2024-02-08_10-30-00";
     decode_error := fun _ => lit "Expecting value: line 1 column 1 (char 0)";
     decoder_limit := limit;
     stdout_errors := console;
     encode_error := fun _ => lit "'utf-8' codec can't encode character '\ud800' in position 7: surrogates not allowed";
     profile := fun _ => inr {| p_statistics := lit "revenue: mean 617.50";
                                p_insights := [lit "Dataset contains 2 records"] |};
     numeric_columns := fun _ => [lit "revenue"];
     categorical_columns := fun _ => [lit "product"];
     nunique := fun _ _ => 2;
     savefig := fun _ _ => inr (lit "PNG");
     to_csv := fun _ => inr (lit "product,revenue");
     to_excel := fun _ => inr (lit "XLSX");
     summary_prompt := fun _ _ _ => inr (lit "You are a business analyst");
     detailed_report := fun _ _ _ _ _ => inr (lit "# Sales Analytics Report") |}.

(** The same with a strict console and an interpreter whose limits are
    out of reach. *)
Definition env_of (llm : nat -> str -> str -> completion)
    (db : nat -> str -> exn + DataFrame) : Env :=
  env_with Strict (fun _ => None) llm db.

Definition question : str := lit "top 5 products by revenue".

Definition answer_sql : str :=
  lit "SELECT product, SUM(revenu) AS revenue FROM sales_data GROUP BY product ORDER BY revenue DESC LIMIT 5".

Definition answer_explanation : str := lit "The five products with the highest revenue.".

(** A payload of the Generator (its query misspells a column). *)
Definition answer : str :=
  jlit "{'sql': 'SELECT product, SUM(revenu) AS revenue FROM sales_data GROUP BY product ORDER BY revenue DESC LIMIT 5', 'explanation': 'The five products with the highest revenue.'}".

Definition answer_value : json :=
  JDict [(lit "sql", JStr answer_sql); (lit "explanation", JStr answer_explanation)].

(** A payload of the Corrector. *)
Definition correction : str :=
  jlit "{'sql': 'SELECT product, SUM(revenue) AS revenue FROM sales_data GROUP BY product ORDER BY revenue DESC LIMIT 5', 'changes': 'Fixed the column name.', 'warnings': 'None'}".

Definition corrected_sql : str :=
  lit "SELECT product, SUM(revenue) AS revenue FROM sales_data GROUP BY product ORDER BY revenue DESC LIMIT 5".

(** A payload without a query. *)
Definition answer_without_sql : str := jlit "{'explanation': 'No query is needed.'}".

(** A payload whose explanation quotes a fenced snippet. *)
Definition answer_quoting_a_fence : str :=
  jlit "{'sql': 'SELECT 1', 'explanation': '```{}```'}".

Definition unavailable : exn := Exn "ServerError" (lit "503 UNAVAILABLE").

Definition exhausted : exn :=
  Exn "ClientError" (lit "429 RESOURCE_EXHAUSTED. Quota exceeded.").

Definition missing_column : exn :=
  Exn "ProgrammingError" (lit "column revenu does not exist").

Definition database_up : nat -> str -> exn + DataFrame := fun _ _ => inr table.

Definition database_down : nat -> str -> exn + DataFrame :=
  fun _ _ => inl missing_column.

(** The first statement fails, the following ones succeed. *)
Definition database_picky : nat -> str -> exn + DataFrame :=
  fun k _ => match k with O => inl missing_column | _ => inr table end.

(** The backend answers the first request with [first] and every later
    request with [later]. *)
Definition backend (first later : completion) : nat -> str -> str -> completion :=
  fun k _ _ => match k with O => first | _ => later end.

Definition overview : completion := Responds (Some (lit "## Overview")).

(** Everything works. *)
Definition env_fine : Env :=
  env_of (backend (Responds (Some answer)) overview) database_up.

(** The first execution fails, the Corrector repairs the query. The
    third request is the summary. *)
Definition env_repair : Env :=
  env_of (fun k _ _ => match k with
                       | 0 => Responds (Some answer)
                       | 1 => Responds (Some correction)
                       | _ => Responds (Some (lit "## Overview"))
                       end) database_picky.

(** Every execution fails. *)
Definition env_database_down : Env :=
  env_of (backend (Responds (Some answer)) (Responds (Some correction))) database_down.

(** The backend is out of quota. *)
Definition env_exhausted : Env := env_of (fun _ _ _ => Raises exhausted) database_up.

(** The backend is down. *)
Definition env_unavailable : Env := env_of (fun _ _ _ => Raises unavailable) database_up.


(** The Generator's payload has no query. *)
Definition env_without_sql : Env :=
  env_of (backend (Responds (Some answer_without_sql)) overview) database_up.

(** The dictionary a call returned, empty when it raised. *)
Definition returned (r : exn + gmap string pyval) : gmap string pyval :=
  match r with inr d => d | inl _ => ∅ end.

(** Whether a call returned. *)
Definition has_returned {A} (r : exn + A) : bool :=
  match r with inr _ => true | inl _ => false end.

(** The database raises an exception that has no text. *)
Definition silent : exn := Exn "Exception" [].


(** The backend answers with a list instead of an object. *)
Definition env_list : Env :=
  env_of (fun _ _ _ => Responds (Some (lit "[1, 2]"))) database_up.

(** A payload whose query holds the escape of a lone surrogate, U+D800,
    and the query it decodes to. *)
Definition answer_with_surrogate : str :=
  jlit "{'sql': 'SELECT \ud800', 'explanation': 'One row.'}".

Definition sql_with_surrogate : str := lit "SELECT " ++ [55296%N].

Definition env_surrogate : Env :=
  env_of (backend (Responds (Some answer_with_surrogate)) overview) database_up.




(** An interpreter with room for three nested arrays: the decoder
    raises on a document that opens a fourth. *)
Definition too_deep : exn :=
  Exn "RecursionError"
    (lit "maximum recursion depth exceeded while decoding a JSON array from a unicode string").

Definition env_shallow : Env :=
  env_with Strict
    (fun s => if starts_with (lit "[[[[") s then Some too_deep else None)
    (fun _ _ _ => Responds (Some (lit " [[[[1]]]]"))) database_up.

(** Prose before and after a fenced block. *)
Definition preamble : str := lit "Here is the query you asked for:" ++ [10%N].

Definition postscript : str := [10%N] ++ lit "Let me know if you need anything else.".

(** The results of an analysis of the sample table. *)
Definition findings : Analysis :=
  {| a_timestamp := lit "2024-02-08 10:30:00";
     a_query_context := question;
     a_row_count := 2;
     a_column_count := 2;
     a_columns := [lit "product"; lit "revenue"];
     a_statistics := lit "revenue: mean 617.50";
     a_insights := [lit "Dataset contains 2 records"];
     a_visualization_files := [];
     a_tableau_files := [];
     a_report_file := None |}.

(** The analysis a call returned, the sample one when it raised. *)
Definition analysis_of (r : exn + Analysis) : Analysis :=
  match r with inr a => a | inl _ => findings end.

(** The input of an interactive session: a blank line, a question, an
    exit word, and a line that comes too late. *)
Definition session : list str :=
  [lit "   "; question; lit "  QUIT "; lit "never read"].

End Samples.

(* ================================================================== *)
(** * Facts about texts *)
(* ================================================================== *)

Section Texts.
Implicit Types (s p t sep : str) (c : N).

Lemma starts_with_nil_r sep : starts_with sep [] = true -> sep = [].
Proof. destruct sep; [done | discriminate]. Qed.

Lemma starts_with_split sep s :
  starts_with sep s = true -> s = sep ++ drop (length sep) s.
Proof.
  revert s. induction sep as [|a sep IH]; intros [|b s] H; simpl in *; try done.
  apply andb_true_iff in H as [Hab H]. apply N.eqb_eq in Hab. subst b.
  f_equal. by apply IH.
Qed.

Lemma starts_with_app_other c sep x y :
  c ∉ sep -> starts_with sep (x ++ c :: y) = starts_with sep x.
Proof.
  revert x. induction sep as [|a sep IH]; intros x Hc; [by destruct x|].
  apply not_elem_of_cons in Hc as [Hca Hc].
  destruct x as [|b x]; simpl.
  - destruct (N.eqb_spec a c); [congruence | done].
  - by rewrite IH.
Qed.

Lemma starts_with_longer sep ext s :
  starts_with (sep ++ ext) s = true -> starts_with sep s = true.
Proof.
  revert s. induction sep as [|a sep IH]; intros [|b s] H; simpl in *; try done.
  apply andb_true_iff in H as [-> H]. simpl. by apply IH.
Qed.

Lemma cut_unfold sep c r :
  cut sep (c :: r) =
  if starts_with sep (c :: r) then Some ([], drop (length sep) (c :: r))
  else match cut sep r with Some (a, b) => Some (c :: a, b) | None => None end.
Proof. reflexivity. Qed.

Lemma cut_Some sep s a b : cut sep s = Some (a, b) -> s = a ++ sep ++ b.
Proof.
  revert a b. induction s as [|c r IH]; intros a b.
  - simpl. destruct (starts_with sep []) eqn:E; [|done].
    apply starts_with_nil_r in E as ->. by intros [= <- <-].
  - rewrite cut_unfold. destruct (starts_with sep (c :: r)) eqn:E.
    + intros [= <- <-]. by apply starts_with_split.
    + destruct (cut sep r) as [[a' b']|]; [|done].
      intros [= <- <-]. simpl. f_equal. by apply IH.
Qed.

Lemma cut_None_inv sep c r :
  cut sep (c :: r) = None -> starts_with sep (c :: r) = false /\ cut sep r = None.
Proof.
  rewrite cut_unfold. destruct (starts_with sep (c :: r)); [done|].
  by destruct (cut sep r) as [[??]|].
Qed.

Lemma cut_None_nil sep : cut sep [] = None -> sep <> [].
Proof. by intros H ->. Qed.

Lemma cut_app_other c sep p t :
  c ∉ sep -> sep <> [] -> cut sep p = None ->
  cut sep (p ++ c :: t) =
  match cut sep t with Some (a, b) => Some (p ++ c :: a, b) | None => None end.
Proof.
  intros Hc Hsep. induction p as [|x p IH]; intros Hp.
  - simpl app. rewrite cut_unfold.
    replace (starts_with sep (c :: t)) with (starts_with sep []).
    2: { symmetry. apply (starts_with_app_other c sep [] t Hc). }
    destruct sep; done.
  - apply cut_None_inv in Hp as [Hx Hp].
    change ((x :: p) ++ c :: t) with (x :: (p ++ c :: t)).
    rewrite cut_unfold.
    change (x :: (p ++ c :: t)) with ((x :: p) ++ c :: t).
    rewrite starts_with_app_other, Hx by done.
    rewrite IH by done. by destruct (cut sep t) as [[??]|].
Qed.

Lemma cut_cons_other c sep t :
  c ∉ sep -> sep <> [] ->
  cut sep (c :: t) =
  match cut sep t with Some (a, b) => Some (c :: a, b) | None => None end.
Proof.
  intros Hc Hsep. apply (cut_app_other c sep [] t Hc Hsep). by destruct sep.
Qed.

Lemma cut_None_longer sep ext s : cut sep s = None -> cut (sep ++ ext) s = None.
Proof.
  induction s as [|c r IH]; intros H.
  - apply cut_None_nil in H. destruct sep; done.
  - apply cut_None_inv in H as [Hc H]. rewrite cut_unfold, IH by done.
    destruct (starts_with (sep ++ ext) (c :: r)) eqn:E; [|done].
    apply starts_with_longer in E. congruence.
Qed.

Lemma split_first sep s :
  split sep s !! 0 = Some (match cut sep s with Some (a, _) => a | None => s end).
Proof.
  unfold split. destruct s as [|c r].
  - simpl. destruct (starts_with sep []) eqn:E; [|done].
    by apply starts_with_nil_r in E as ->.
  - cbn [length split_rounds]. by destruct (cut sep (c :: r)) as [[??]|].
Qed.

Lemma split_rounds_first n sep s :
  (n = 0 -> s = []) -> sep <> [] ->
  split_rounds n sep s !! 0 = Some (match cut sep s with Some (a, _) => a | None => s end).
Proof.
  intros Hn Hsep. destruct n as [|n].
  - rewrite Hn by done. simpl. by destruct sep.
  - simpl. by destruct (cut sep s) as [[??]|].
Qed.

Lemma split_second sep s a b :
  sep <> [] -> cut sep s = Some (a, b) ->
  split sep s !! 1 = Some (match cut sep b with Some (a', _) => a' | None => b end).
Proof.
  intros Hsep H. unfold split. pose proof (cut_Some _ _ _ _ H) as Hs.
  destruct (length s) as [|n] eqn:Hn.
  - apply nil_length_inv in Hn. subst s. destruct a, sep; done.
  - simpl. rewrite H. simpl. apply split_rounds_first; [|done].
    intros ->. rewrite Hs in Hn. rewrite !length_app in Hn.
    destruct sep; [done|]. destruct b; [done|]. simpl in Hn. lia.
Qed.

End Texts.

(* ================================================================== *)
(** * Texts that can be encoded *)
(* ================================================================== *)

Section Encoding.
Implicit Types (s t : str) (h : error_handler).


Lemma printable_app h s t : printable h (s ++ t) = printable h s && printable h t.
Proof. apply forallb_app. Qed.



Lemma print_text_shown env s w :
  printable (stdout_errors env) s = true -> print_text env s w = (inr tt, w).
Proof. unfold print_text. by intros ->. Qed.

Lemma print_text_refused env s w :
  printable (stdout_errors env) s = false ->
  print_text env s w = (inl (Exn "UnicodeEncodeError" (encode_error env s)), w).
Proof. unfold print_text. by intros ->. Qed.


End Encoding.
Lemma is_space_cases (c : N) : is_space c = true -> c ∈ whitespace.
Proof.
  unfold is_space. intros H. apply existsb_exists in H as (x & Hx & E).
  apply N.eqb_eq in E. subst x. by apply list_elem_of_In.
Qed.

(** Case analysis over the white-space code points. *)
Ltac each_space H :=
  apply is_space_cases in H; unfold whitespace in H;
  repeat (apply elem_of_cons in H as [->|H]); [..|by apply elem_of_nil in H].

Section Strip.
Implicit Types (s p t : str) (c : N).

Lemma lstrip_idem s : lstrip (lstrip s) = lstrip s.
Proof.
  induction s as [|c s IH]; [done|]. simpl.
  destruct (is_space c) eqn:E; [done|]. simpl. by rewrite E.
Qed.

Lemma rstrip_snoc s c :
  rstrip (s ++ [c]) = if is_space c then rstrip s else s ++ [c].
Proof.
  unfold rstrip. rewrite rev_app_distr. simpl.
  destruct (is_space c); [done|]. simpl. by rewrite rev_involutive.
Qed.

Lemma rstrip_idem s : rstrip (rstrip s) = rstrip s.
Proof. unfold rstrip. by rewrite rev_involutive, lstrip_idem. Qed.

Lemma lstrip_trimmed s : trimmed_left (lstrip s).
Proof.
  induction s as [|c s IH]; [done|]. simpl.
  by destruct (is_space c) eqn:E.
Qed.

Lemma lstrip_fixed s : trimmed_left s -> lstrip s = s.
Proof. destruct s as [|c s]; [done|]. simpl. by intros ->. Qed.

Lemma rstrip_trimmed s : trimmed_left s -> trimmed_left (rstrip s).
Proof.
  induction s as [|c s IH] using rev_ind; [done|].
  rewrite rstrip_snoc. destruct (is_space c) eqn:E.
  - intros H. apply IH. destruct s; [done|]. exact H.
  - done.
Qed.

Lemma strip_idem s : strip (strip s) = strip s.
Proof.
  unfold strip.
  rewrite (lstrip_fixed (rstrip (lstrip s))).
  - apply rstrip_idem.
  - apply rstrip_trimmed, lstrip_trimmed.
Qed.

Lemma lstrip_snoc_space s c :
  is_space c = true ->
  (lstrip (s ++ [c]) = [] /\ lstrip s = []) \/ lstrip (s ++ [c]) = lstrip s ++ [c].
Proof.
  intros Hc. induction s as [|x s IH]; simpl.
  - rewrite Hc. by left.
  - destruct (is_space x); [done|]. by right.
Qed.

Lemma strip_between_newlines s : strip (10%N :: s ++ [10%N]) = strip s.
Proof.
  unfold strip. change (lstrip (10%N :: s ++ [10%N])) with (lstrip (s ++ [10%N])).
  destruct (lstrip_snoc_space s 10%N) as [[-> ->]| ->]; [done..|].
  by rewrite rstrip_snoc.
Qed.

End Strip.

(* ================================================================== *)
(** * Facts about the decoder *)
(* ================================================================== *)

Section Decoder.
Implicit Types (s : str) (c : N) (p : pstate) (v : json).

Lemma run_error s : run PError s = PError.
Proof. induction s; [done|]. done. Qed.

Lemma run_snoc p s c : run p (s ++ [c]) = step (run p s) c.
Proof. unfold run. by rewrite fold_left_app. Qed.

Lemma after_step_wf v st c : wf_state (after_step v st c).
Proof.
  unfold after_step. destruct (is_ws c); [done|].
  destruct st as [|[]]; [done|..]; repeat case_match; done.
Qed.

Lemma value_start_wf st c : wf_state (value_start st c).
Proof.
  unfold value_start. repeat case_match; try done;
    simpl; repeat constructor.
Qed.

Lemma step_wf p c : wf_state p -> wf_state (step p c).
Proof.
  intros H.
  destruct p as [st|st|st|done st|done key st|tg buf ss st|buf ns st|rest w st|w st|];
    simpl.
  - case_match; [done|apply value_start_wf].
  - repeat case_match; try done; apply value_start_wf.
  - repeat case_match; done.
  - repeat case_match; done.
  - repeat case_match; done.
  - unfold string_step, plain_step, close_string. repeat case_match; done.
  - repeat case_match; try done; try apply after_step_wf.
    all: simpl; repeat constructor.
  - simpl in H. destruct rest as [|x rest]; [done|].
    apply Forall_cons in H as [_ H].
    repeat case_match; try done; by subst.
  - apply after_step_wf.
  - done.
Qed.

Lemma run_wf p s : wf_state p -> wf_state (run p s).
Proof.
  revert p. induction s as [|c s IH]; intros p H; [done|].
  apply IH. by apply step_wf.
Qed.

Lemma finish_step_space p c v :
  wf_state p -> is_space c = true ->
  finish (step p c) = Some v -> finish p = Some v.
Proof.
  intros Hwf Hc. destruct p as [st|st|st|done st|done key st|tg buf ss st|buf ns st|rest w st|w st|].
  - each_space Hc; by destruct st.
  - each_space Hc; by destruct st.
  - each_space Hc; by destruct st.
  - each_space Hc; by destruct st.
  - each_space Hc; by destruct st.
  - destruct ss as [|hi|hi|hi k acc]; each_space Hc; simpl; try done.
    all: by destruct tg.
  - destruct ns; each_space Hc; simpl; try done;
      destruct st as [|[]]; done.
  - destruct rest as [|x rest]; [done|]. simpl in Hwf.
    apply Forall_cons in Hwf as [Hx _]. simpl.
    destruct (N.eqb_spec c x) as [->|]; [congruence | done].
  - each_space Hc; simpl; try done; destruct st as [|[]]; done.
  - done.
Qed.

Lemma loads_cons_space c s v :
  is_space c = true -> loads (c :: s) = Some v -> loads s = Some v.
Proof.
  intros Hc. unfold loads. change (run (PValue []) (c :: s)) with (run (step (PValue []) c) s).
  each_space Hc; try done; simpl step; rewrite run_error; done.
Qed.

Lemma loads_snoc_space c s v :
  is_space c = true -> loads (s ++ [c]) = Some v -> loads s = Some v.
Proof.
  intros Hc. unfold loads. rewrite run_snoc. apply finish_step_space; [|done].
  by apply run_wf.
Qed.

Lemma loads_lstrip s v : loads s = Some v -> loads (lstrip s) = Some v.
Proof.
  induction s as [|c s IH]; [done|]. simpl.
  destruct (is_space c) eqn:E; [|done].
  intros H. apply IH. by apply loads_cons_space with c.
Qed.

Lemma loads_rstrip s v : loads s = Some v -> loads (rstrip s) = Some v.
Proof.
  induction s as [|c s IH] using rev_ind; [done|].
  rewrite rstrip_snoc. destruct (is_space c) eqn:E; [|done].
  intros H. apply IH. by apply loads_snoc_space with c.
Qed.

Lemma loads_strip s v : loads s = Some v -> loads (strip s) = Some v.
Proof. intros H. unfold strip. by apply loads_rstrip, loads_lstrip. Qed.

(** Around a document that decodes, the white space of Python is the
    white space of JSON: [strip] and [trim] cut the same text. *)
Lemma is_ws_space c : is_ws c = true -> is_space c = true.
Proof.
  unfold is_ws. intros H.
  repeat (apply orb_true_iff in H as [H|H]); apply N.eqb_eq in H; by subst.
Qed.

Lemma loads_cons_ws c s v :
  is_space c = true -> loads (c :: s) = Some v -> is_ws c = true.
Proof.
  intros Hc. unfold loads.
  change (run (PValue []) (c :: s)) with (run (step (PValue []) c) s).
  each_space Hc; try done; simpl step; rewrite run_error; done.
Qed.

Lemma finish_step_ws p c v :
  wf_state p -> is_space c = true ->
  finish (step p c) = Some v -> is_ws c = true.
Proof.
  intros Hwf Hc. destruct p as [st|st|st|done st|done key st|tg buf ss st|buf ns st|rest w st|w st|].
  - each_space Hc; by destruct st.
  - each_space Hc; by destruct st.
  - each_space Hc; by destruct st.
  - each_space Hc; by destruct st.
  - each_space Hc; by destruct st.
  - destruct ss as [|hi|hi|hi k acc]; each_space Hc; simpl; try done.
    all: by destruct tg.
  - destruct ns; each_space Hc; simpl; try done;
      destruct st as [|[]]; done.
  - destruct rest as [|x rest]; [done|]. simpl in Hwf.
    apply Forall_cons in Hwf as [Hx _]. simpl.
    destruct (N.eqb_spec c x) as [->|]; [congruence | done].
  - each_space Hc; simpl; try done; destruct st as [|[]]; done.
  - done.
Qed.

Lemma loads_snoc_ws c s v :
  is_space c = true -> loads (s ++ [c]) = Some v -> is_ws c = true.
Proof.
  intros Hc. unfold loads. rewrite run_snoc. apply finish_step_ws; [|done].
  by apply run_wf.
Qed.

Lemma lstrip_skip_ws s v : loads s = Some v -> lstrip s = skip_ws s.
Proof.
  induction s as [|c s IH]; [done|]. simpl. intros H.
  destruct (is_space c) eqn:E.
  - rewrite (loads_cons_ws c s v E H). apply IH. by apply loads_cons_space with c.
  - destruct (is_ws c) eqn:E'; [|done]. apply is_ws_space in E'. congruence.
Qed.

Lemma lstrip_rev_skip_ws s v : loads s = Some v -> lstrip (rev s) = skip_ws (rev s).
Proof.
  induction s as [|c s IH] using rev_ind; [done|].
  rewrite rev_app_distr. simpl. intros H.
  destruct (is_space c) eqn:E.
  - rewrite (loads_snoc_ws c s v E H). apply IH. by apply loads_snoc_space with c.
  - destruct (is_ws c) eqn:E'; [|done]. apply is_ws_space in E'. congruence.
Qed.

Lemma strip_trim s v : loads s = Some v -> strip s = trim s.
Proof.
  intros H. unfold strip, trim, rstrip.
  rewrite (lstrip_rev_skip_ws (lstrip s) v) by by apply loads_lstrip.
  by rewrite (lstrip_skip_ws s v).
Qed.

Lemma trim_strip s v : loads s = Some v -> trim (strip s) = trim s.
Proof.
  intros H. rewrite <- (strip_trim (strip s) v) by by apply loads_strip.
  rewrite strip_idem. by apply strip_trim with v.
Qed.

End Decoder.

(* ================================================================== *)
(** * Code fences *)
(* ================================================================== *)

Section Fences.
Implicit Types (p : str) (w : World).

Lemma no_fence_no_tag p :
  contains (lit "```") p = false -> cut (lit "```json") p = None.
Proof.
  unfold contains. destruct (cut (lit "```") p) eqn:E; [done|]. intros _.
  change (lit "```json") with (lit "```" ++ lit "json").
  by apply cut_None_longer.
Qed.

Lemma no_fence_cut p : contains (lit "```") p = false -> cut (lit "```") p = None.
Proof. unfold contains. by destruct (cut (lit "```") p). Qed.

Lemma newline_not_in_fence : 10%N ∉ lit "```".
Proof. by compute; intros H; repeat (apply elem_of_cons in H as [|H]; [done|]); apply elem_of_nil in H. Qed.

Lemma newline_not_in_tag : 10%N ∉ lit "```json".
Proof. by compute; intros H; repeat (apply elem_of_cons in H as [|H]; [done|]); apply elem_of_nil in H. Qed.

Lemma fence_nonempty : lit "```" <> [].
Proof. done. Qed.

Lemma tag_nonempty : lit "```json" <> [].
Proof. done. Qed.

Lemma cut_fence_body p :
  contains (lit "```") p = false ->
  cut (lit "```") (10%N :: p ++ 10%N :: lit "```") = Some (10%N :: p ++ [10%N], []).
Proof.
  intros H.
  rewrite cut_cons_other; [|apply newline_not_in_fence|done].
  rewrite (cut_app_other 10%N (lit "```") p (lit "```"));
    [|apply newline_not_in_fence|done|by apply no_fence_cut].
  reflexivity.
Qed.

Lemma cut_tag_body p :
  contains (lit "```") p = false ->
  cut (lit "```json") (10%N :: p ++ 10%N :: lit "```") = None.
Proof.
  intros H.
  rewrite cut_cons_other; [|apply newline_not_in_tag|done].
  rewrite (cut_app_other 10%N (lit "```json") p (lit "```"));
    [|apply newline_not_in_tag|done|by apply no_fence_no_tag].
  reflexivity.
Qed.

Lemma cut_fence_inner p :
  contains (lit "```") p = false ->
  cut (lit "```") (10%N :: p ++ [10%N]) = None.
Proof.
  intros H.
  rewrite cut_cons_other; [|apply newline_not_in_fence|done].
  rewrite (cut_app_other 10%N (lit "```") p []);
    [|apply newline_not_in_fence|done|by apply no_fence_cut].
  reflexivity.
Qed.

Lemma unfence_bare p w :
  contains (lit "```") p = false -> QueryGenerator.unfence p w = (inr p, w).
Proof.
  intros H. unfold QueryGenerator.unfence. unfold contains at 1.
  rewrite no_fence_no_tag by done. by rewrite H.
Qed.

Lemma unfence_fence_json p w :
  contains (lit "```") p = false -> QueryGenerator.unfence (fence_json p) w = (inr (strip p), w).
Proof.
  intros H. unfold QueryGenerator.unfence.
  assert (Hcut : cut (lit "```json") (fence_json p)
                 = Some ([], 10%N :: p ++ 10%N :: lit "```")) by reflexivity.
  unfold contains at 1. rewrite Hcut.
  unfold bind, item.
  rewrite (split_second _ _ _ _ tag_nonempty Hcut), cut_tag_body by done.
  simpl. rewrite split_first, cut_fence_body by done.
  simpl. by rewrite strip_between_newlines.
Qed.

Lemma unfence_fence_plain p w :
  contains (lit "```") p = false -> QueryGenerator.unfence (fence_plain p) w = (inr (strip p), w).
Proof.
  intros H. unfold QueryGenerator.unfence.
  assert (Htag : cut (lit "```json") (fence_plain p) = None).
  { change (fence_plain p) with (lit "```" ++ 10%N :: p ++ 10%N :: lit "```").
    rewrite (cut_app_other 10%N (lit "```json") (lit "```") (p ++ 10%N :: lit "```"));
      [|apply newline_not_in_tag|done|done].
    rewrite (cut_app_other 10%N (lit "```json") p (lit "```"));
      [|apply newline_not_in_tag|done|by apply no_fence_no_tag].
    reflexivity. }
  assert (Hcut : cut (lit "```") (fence_plain p)
                 = Some ([], 10%N :: p ++ 10%N :: lit "```")) by reflexivity.
  unfold contains. rewrite Htag, Hcut.
  unfold bind, item.
  rewrite (split_second _ _ _ _ fence_nonempty Hcut), cut_fence_body by done.
  simpl. rewrite split_first, cut_fence_inner by done.
  simpl. by rewrite strip_between_newlines.
Qed.

End Fences.


(* ================================================================== *)
(** * Invariants of the effects *)
(* ================================================================== *)

(** ** Rules for [preserves] *)

Section Rules.
Context {A B : Type} (I : World -> Prop).

Lemma preserves_ret (a : A) : preserves I (ret a).
Proof. by intros w. Qed.

Lemma preserves_raise (e : exn) : preserves I (raise e : M A).
Proof. by intros w. Qed.

Lemma preserves_gets (f : World -> A) : preserves I (gets f).
Proof. by intros w. Qed.

Lemma preserves_lift (x : exn + A) : preserves I (lift x).
Proof. by destruct x; intros w. Qed.

Lemma preserves_modify (f : World -> World) :
  (forall w, I w -> I (f w)) -> preserves I (modify f).
Proof. intros H w. apply H. Qed.

Lemma preserves_bind (m : M A) (k : A -> M B) :
  preserves I m -> (forall a, preserves I (k a)) -> preserves I (bind m k).
Proof.
  intros Hm Hk w Hw. unfold bind. specialize (Hm w Hw).
  destruct (m w) as [[e|a] w']; [done|]. by apply Hk.
Qed.

Lemma preserves_try (body : M A) (handler : exn -> M A) :
  preserves I body -> (forall e, preserves I (handler e)) ->
  preserves I (try_except body handler).
Proof.
  intros Hm Hk w Hw. unfold try_except. specialize (Hm w Hw).
  destruct (body w) as [[e|a] w']; [|done]. by apply Hk.
Qed.

End Rules.

(** The structure of a computation is walked through; what is left are
    the primitives that change the world. *)
Ltac walk :=
  repeat match goal with
  | |- preserves _ (ret _) => apply preserves_ret
  | |- preserves _ (raise _) => apply preserves_raise
  | |- preserves _ (gets _) => apply preserves_gets
  | |- preserves _ (lift _) => apply preserves_lift
  | |- preserves _ (bind _ _) => apply preserves_bind; [|intros ?]
  | |- preserves _ (try_except _ _) => apply preserves_try; [|intros ?]
  | |- preserves _ (if ?b then _ else _) => destruct b
  | |- preserves _ (match ?x with _ => _ end) => destruct x
  | |- preserves _ (let _ := _ in _) => cbv zeta
  end.

(** ** Computations that only read *)

Section Pure.
Context (I : World -> Prop).

Lemma preserves_container x : preserves I (container x).
Proof. unfold container. walk. Qed.

Lemma preserves_item l i : preserves I (item l i).
Proof. unfold item. walk. Qed.

Lemma preserves_json_loads env s : preserves I (json_loads env s).
Proof. unfold json_loads. walk. Qed.

Lemma preserves_get_method v k d : preserves I (get_method v k d).
Proof. unfold get_method. walk. Qed.

Lemma preserves_strip_method v : preserves I (strip_method v).
Proof. unfold strip_method. walk. Qed.

Lemma preserves_getitem d k : preserves I (getitem d k).
Proof. unfold getitem. walk. Qed.

Lemma preserves_text_of v : preserves I (text_of v).
Proof. unfold text_of. walk. Qed.

Lemma preserves_len_text s : preserves I (len_text s).
Proof. unfold len_text. walk. Qed.

Lemma preserves_print_text env s : preserves I (print_text env s).
Proof. unfold print_text. walk. Qed.

Lemma preserves_time_time : preserves I time_time.
Proof. unfold time_time. walk. Qed.

Lemma preserves_datetime_now env fmt : preserves I (datetime_now env fmt).
Proof. unfold datetime_now. walk. Qed.

Lemma preserves_unfence t : preserves I (QueryGenerator.unfence t).
Proof. unfold QueryGenerator.unfence. walk; apply preserves_item. Qed.

End Pure.

Ltac walk_pure :=
  repeat first
    [ progress walk
    | match goal with
      | |- preserves _ (container _) => apply preserves_container
      | |- preserves _ (item _ _) => apply preserves_item
      | |- preserves _ (json_loads _ _) => apply preserves_json_loads
      | |- preserves _ (get_method _ _ _) => apply preserves_get_method
      | |- preserves _ (strip_method _) => apply preserves_strip_method
      | |- preserves _ (getitem _ _) => apply preserves_getitem
      | |- preserves _ (text_of _) => apply preserves_text_of
      | |- preserves _ (len_text _) => apply preserves_len_text
      | |- preserves _ (print_text _ _) => apply preserves_print_text
      | |- preserves _ time_time => apply preserves_time_time
      | |- preserves _ (datetime_now _ _) => apply preserves_datetime_now
      | |- preserves _ (QueryGenerator.unfence _) => apply preserves_unfence
      end ].

(** ** Invariants of the whole program *)

(** A world update made of setters and tolerated events keeps [I]. *)
Ltac settle St :=
  intros;
  repeat first
    [ assumption
    | apply (stable_clock _ _ _ St)
    | apply (stable_requests _ _ _ St)
    | apply (stable_statements _ _ _ St)
    | apply (stable_sleeps _ _ _ St)
    | apply (stable_query_gen _ _ _ St)
    | apply (stable_summary_gen _ _ _ St)
    | apply (stable_emit _ _ _ St); [by intros ?? [=]|] ].

Section Primitives.
Context (I : World -> Prop) (loud : string -> Prop) (free : str -> Prop).
Hypothesis stable : Stable I loud free.

Lemma preserves_time_sleep env secs : preserves I (time_sleep env secs).
Proof using stable.
  unfold time_sleep. walk. apply preserves_modify. settle stable.
Qed.

Lemma preserves_generate_content env model contents :
  preserves I (generate_content env model contents).
Proof using stable.
  unfold generate_content. walk; apply preserves_modify; settle stable.
Qed.

Lemma preserves_read_sql env sql : preserves I (read_sql env sql).
Proof using stable.
  unfold read_sql. walk; apply preserves_modify; settle stable.
Qed.

Lemma preserves_library_write p t : free p -> preserves I (library_write p t).
Proof using stable.
  intros Hp. unfold library_write. apply preserves_modify. intros w Hw.
  apply (stable_files _ _ _ stable p t (emit (Written p t) w) Hp).
  apply (stable_emit _ _ _ stable); [by intros ?? [=]|done].
Qed.

Lemma preserves_write_file env p pieces :
  free p -> preserves I (write_file env p pieces).
Proof using stable.
  intros Hp. unfold write_file. destruct (encoded_prefix pieces) as [written bad].
  apply preserves_bind; [|intros _; walk].
  apply preserves_modify. intros w Hw.
  apply (stable_files _ _ _ stable p (concat written) (emit (Written p (concat written)) w) Hp).
  apply (stable_emit _ _ _ stable); [by intros ?? [=]|done].
Qed.

Lemma outputs_in_free name x :
  relative name -> free (path_join (lit "../outputs") (name ++ x)).
Proof using stable.
  intros H. destruct name as [|c name]; [destruct H|].
  replace (path_join (lit "../outputs") ((c :: name) ++ x))
    with (lit "../outputs/" ++ ((c :: name) ++ x));
    [apply (stable_outputs _ _ _ stable)|].
  unfold path_join. simpl in H.
  change (starts_with (lit "/") ((c :: name) ++ x)) with (N.eqb 47 c && true).
  destruct (N.eqb_spec 47 c); [by subst|reflexivity].
Qed.

End Primitives.

(** The walk through a computation, with the primitives closed by the
    stability of the invariant. *)
Ltac frame St :=
  repeat first
    [ progress walk_pure
    | match goal with
      | |- preserves _ (time_sleep _ _) => apply (preserves_time_sleep _ _ _ St)
      | |- preserves _ (generate_content _ _ _) =>
          apply (preserves_generate_content _ _ _ St)
      | |- preserves _ (read_sql _ _) => apply (preserves_read_sql _ _ _ St)
      | |- preserves _ (library_write _ _) =>
          apply (preserves_library_write _ _ _ St);
          apply (outputs_in_free _ _ _ St); by auto
      | |- preserves _ (write_file _ _ _) =>
          apply (preserves_write_file _ _ _ St);
          apply (outputs_in_free _ _ _ St); by auto
      | |- preserves _ (modify _) => apply preserves_modify; settle St
      end ].

Section Frame.
Context (I : World -> Prop) (loud : string -> Prop) (free : str -> Prop).
Hypothesis stable : Stable I loud free.

Lemma preserves_wait_query env : preserves I (QueryGenerator._wait_for_rate_limit env).
Proof using stable.
  unfold QueryGenerator._wait_for_rate_limit. frame stable.
Qed.

Lemma preserves_wait_summary env : preserves I (SummaryGenerator._wait_for_rate_limit env).
Proof using stable.
  unfold SummaryGenerator._wait_for_rate_limit. frame stable.
Qed.

Lemma preserves_generate_sql env q :
  ~ loud "generate_sql" -> preserves I (QueryGenerator.generate_sql env q).
Proof using stable.
  intros Hq. unfold QueryGenerator.generate_sql.
  apply preserves_bind; [|intros _].
  { apply preserves_modify. intros w Hw.
    apply (stable_emit _ _ _ stable); [by intros ?? [= <- _]|done]. }
  frame stable.
Qed.

Lemma preserves_validate env sql err :
  ~ loud "validate_and_improve_query" ->
  preserves I (QueryGenerator.validate_and_improve_query env sql err).
Proof using stable.
  intros Hq. unfold QueryGenerator.validate_and_improve_query.
  apply preserves_bind; [|intros _].
  { apply preserves_modify. intros w Hw.
    apply (stable_emit _ _ _ stable); [by intros ?? [= <- _]|done]. }
  frame stable. apply preserves_wait_query.
Qed.

Lemma preserves_execute_query env sql :
  ~ loud "execute_query" -> preserves I (AutomatedEDA.execute_query env sql).
Proof using stable.
  intros Hq. unfold AutomatedEDA.execute_query.
  apply preserves_bind; [|intros _].
  { apply preserves_modify. intros w Hw.
    apply (stable_emit _ _ _ stable); [by intros ?? [= <- _]|done]. }
  frame stable.
Qed.

Lemma preserves_generate_eda_report env df ctx name :
  relative name -> preserves I (AutomatedEDA.generate_eda_report env df ctx name).
Proof using stable.
  intros Hn. unfold AutomatedEDA.generate_eda_report, AutomatedEDA.analyze_results,
    AutomatedEDA.create_visualizations, AutomatedEDA.export_for_tableau,
    AutomatedEDA.output_dir.
  frame stable.
Qed.

Lemma preserves_generate_executive_summary env ctx df a :
  preserves I (SummaryGenerator.generate_executive_summary env ctx df a).
Proof using stable.
  unfold SummaryGenerator.generate_executive_summary. frame stable.
  apply preserves_wait_summary.
Qed.

Lemma preserves_report_steps env q results ts sql df :
  preserves I (AnalyticsWorkflow.report_steps env q results ts sql df).
Proof using stable.
  unfold AnalyticsWorkflow.report_steps. frame stable.
  - by apply preserves_generate_eda_report.
  - apply preserves_generate_executive_summary.
  - unfold SummaryGenerator.generate_detailed_report. frame stable.
  - unfold SummaryGenerator.save_report. frame stable.
Qed.

Lemma preserves_execution_steps env q results ts sql :
  ~ loud "execute_query" -> ~ loud "validate_and_improve_query" ->
  preserves I (AnalyticsWorkflow.execution_steps env q results ts sql).
Proof using stable.
  intros He Hv. unfold AnalyticsWorkflow.execution_steps.
  apply preserves_bind; [by apply preserves_execute_query|intros [df error]].
  destruct (AnalyticsWorkflow.is_error error); [|apply preserves_report_steps].
  apply preserves_bind; [by apply preserves_validate|intros fix_result].
  apply preserves_bind; [walk_pure|intros ok].
  destruct (truthy ok); [|apply preserves_ret].
  apply preserves_bind; [walk_pure|intros changes].
  apply preserves_bind; [walk_pure|intros _].
  apply preserves_bind; [walk_pure|intros sql'].
  apply preserves_bind; [by apply preserves_execute_query|intros [df' error']].
  destruct (AnalyticsWorkflow.is_error error'); [apply preserves_ret|].
  apply preserves_report_steps.
Qed.

End Frame.

(* ================================================================== *)
(** * The calls of a workflow run *)
(* ================================================================== *)


Lemma calls_app method l1 l2 :
  calls method (l1 ++ l2) = calls method l1 + calls method l2.
Proof.
  induction l1 as [|e l1 IH]; [done|]. destruct e; simpl; rewrite IH; lia.
Qed.

Lemma calls_stable method k :
  Stable (fun w => calls method (log w) <= k) (fun m => m = method) (fun _ => True).
Proof.
  split; try done.
  intros e w He Hw. unfold emit. simpl. rewrite calls_app. simpl.
  destruct e as [m a| | | |]; simpl; try lia.
  rewrite bool_decide_eq_false_2; [lia|]. by apply (He m a).
Qed.

Section Adds.
Context {A B : Type} (method : string).

Lemma adds_silent (m : M A) :
  (forall k, preserves (fun w => calls method (log w) <= k) m) -> adds method 0 m.
Proof. intros H w. specialize (H _ w (le_n _)). simpl in H. lia. Qed.

Lemma adds_le n n' (m : M A) : n <= n' -> adds method n m -> adds method n' m.
Proof. intros Hn H w. specialize (H w). lia. Qed.

Lemma adds_ret n (a : A) : adds method n (ret a).
Proof. intros w. simpl. lia. Qed.

Lemma adds_bind n1 n2 (m : M A) (k : A -> M B) :
  adds method n1 m -> (forall a, adds method n2 (k a)) ->
  adds method (n1 + n2) (bind m k).
Proof.
  intros Hm Hk w. unfold bind. specialize (Hm w).
  destruct (m w) as [[e|a] w']; simpl in *; [lia|].
  specialize (Hk a w'). lia.
Qed.

Lemma adds_call n args (k : M B) :
  adds method n k ->
  adds method (S n) (bind (modify (emit (Call method args))) (fun _ => k)).
Proof.
  intros Hk w. unfold bind, modify. specialize (Hk (emit (Call method args) w)).
  unfold emit in *. simpl in *. rewrite calls_app in Hk. simpl in Hk.
  rewrite bool_decide_eq_true_2 in Hk by done. lia.
Qed.

End Adds.

Section Bounds.
Context (env : Env).

Ltac silent lemma :=
  apply adds_silent; intros k; eapply lemma; [apply calls_stable|..]; try done.

Lemma generate_sql_silent method q :
  method <> "generate_sql"%string ->
  adds method 0 (QueryGenerator.generate_sql env q).
Proof. intros H. silent preserves_generate_sql. Qed.

Lemma execute_query_silent method sql :
  method <> "execute_query"%string ->
  adds method 0 (AutomatedEDA.execute_query env sql).
Proof. intros H. silent preserves_execute_query. Qed.

Lemma validate_silent method sql err :
  method <> "validate_and_improve_query"%string ->
  adds method 0 (QueryGenerator.validate_and_improve_query env sql err).
Proof. intros H. silent preserves_validate. Qed.

Lemma report_steps_silent method q results ts sql df :
  adds method 0 (AnalyticsWorkflow.report_steps env q results ts sql df).
Proof. silent preserves_report_steps. Qed.

Lemma execute_query_once sql :
  adds "execute_query" 1 (AutomatedEDA.execute_query env sql).
Proof.
  unfold AutomatedEDA.execute_query. apply adds_call.
  apply adds_silent. intros k.
  pose proof (calls_stable "execute_query" k) as St. frame St.
Qed.

Lemma validate_once sql err :
  adds "validate_and_improve_query" 1
    (QueryGenerator.validate_and_improve_query env sql err).
Proof.
  unfold QueryGenerator.validate_and_improve_query. apply adds_call.
  apply adds_silent. intros k.
  pose proof (calls_stable "validate_and_improve_query" k) as St. frame St.
  apply (preserves_wait_query _ _ _ St).
Qed.

Lemma execution_steps_executions q results ts sql :
  adds "execute_query" 2 (AnalyticsWorkflow.execution_steps env q results ts sql).
Proof.
  unfold AnalyticsWorkflow.execution_steps.
  apply (adds_bind _ 1 1); [apply execute_query_once|intros [df error]].
  destruct (AnalyticsWorkflow.is_error error).
  - apply (adds_bind _ 0 1); [by apply validate_silent|intros fix_result].
    apply (adds_bind _ 0 1); [apply adds_silent; intros k; walk_pure|intros ok'].
    destruct (truthy ok'); [|apply adds_ret].
    apply (adds_bind _ 0 1); [apply adds_silent; intros k; walk_pure|intros changes].
    apply (adds_bind _ 0 1); [apply adds_silent; intros k; walk_pure|intros _].
    apply (adds_bind _ 0 1); [apply adds_silent; intros k; walk_pure|intros sql_query'].
    apply (adds_bind _ 1 0); [apply execute_query_once|intros [df' error']].
    destruct (AnalyticsWorkflow.is_error error'); [apply adds_ret|].
    apply report_steps_silent.
  - eapply adds_le; [|apply report_steps_silent]. lia.
Qed.

Lemma execution_steps_corrections q results ts sql :
  adds "validate_and_improve_query" 1
    (AnalyticsWorkflow.execution_steps env q results ts sql).
Proof.
  unfold AnalyticsWorkflow.execution_steps.
  apply (adds_bind _ 0 1); [by apply execute_query_silent|intros [df error]].
  destruct (AnalyticsWorkflow.is_error error).
  - apply (adds_bind _ 1 0); [apply validate_once|intros fix_result].
    apply (adds_bind _ 0 0); [apply adds_silent; intros k; walk_pure|intros ok'].
    destruct (truthy ok'); [|apply adds_ret].
    apply (adds_bind _ 0 0); [apply adds_silent; intros k; walk_pure|intros changes].
    apply (adds_bind _ 0 0); [apply adds_silent; intros k; walk_pure|intros _].
    apply (adds_bind _ 0 0); [apply adds_silent; intros k; walk_pure|intros sql_query'].
    apply (adds_bind _ 0 0); [by apply execute_query_silent|intros [df' error']].
    destruct (AnalyticsWorkflow.is_error error'); [apply adds_ret|].
    apply report_steps_silent.
  - eapply adds_le; [|apply report_steps_silent]. lia.
Qed.

(** Step 1 and the saving of the query enter neither the Executor nor
    the Corrector. *)
Lemma run_analysis_adds method n q save_sql :
  method <> "generate_sql"%string ->
  (forall results ts sql,
     adds method n (AnalyticsWorkflow.execution_steps env q results ts sql)) ->
  adds method n (AnalyticsWorkflow.run_analysis env q save_sql).
Proof.
  intros Hm Hsteps. unfold AnalyticsWorkflow.run_analysis.
  apply (adds_bind _ 0 n); [apply adds_silent; intros k; walk_pure|intros timestamp].
  apply (adds_bind _ 0 n); [by apply generate_sql_silent|intros query_result].
  apply (adds_bind _ 0 n); [apply adds_silent; intros k; walk_pure|intros ok].
  destruct (negb (truthy ok)); [apply adds_ret|].
  apply (adds_bind _ 0 n); [apply adds_silent; intros k; walk_pure|intros sql_query].
  apply (adds_bind _ 0 n); [apply adds_silent; intros k; walk_pure|intros explanation].
  apply (adds_bind _ 0 n); [apply adds_silent; intros k; walk_pure|intros _].
  apply (adds_bind _ 0 n); [apply adds_silent; intros k; walk_pure|intros _].
  apply (adds_bind _ 0 n); [|intros results; apply Hsteps].
  apply adds_silent. intros k. pose proof (calls_stable method k) as St.
  destruct save_sql; [|apply preserves_ret].
  apply preserves_bind; [|intros ?; apply preserves_ret].
  by apply (preserves_write_file _ _ _ St).
Qed.

End Bounds.

(** C1. A workflow run enters the Corrector ([validate_and_improve_query])
    at most once and the Executor ([execute_query]) at most twice,
    whatever the backend and the database answer; [run_analysis] is a
    total function, so the run always ends. *)
Theorem repair_loop_is_bounded env q save_sql w :
  let w' := snd (AnalyticsWorkflow.run_analysis env q save_sql w) in
  calls "validate_and_improve_query" (log w')
    <= calls "validate_and_improve_query" (log w) + 1
  /\ calls "execute_query" (log w') <= calls "execute_query" (log w) + 2.
Proof.
  split; apply run_analysis_adds; try done; intros.
  - apply execution_steps_corrections.
  - apply execution_steps_executions.
Qed.

(* ================================================================== *)
(** * What the components return *)
(* ================================================================== *)

Section Worlds.
Context {A B : Type}.

Lemma pure_intro (m : M A) :
  (forall w0, preserves (fun w => w = w0) m) -> pure m.
Proof. intros H w. by apply (H w w). Qed.

Lemma snd_bind_pure (m : M A) (k : A -> M B) w :
  (forall a, pure (k a)) -> snd (bind m k w) = snd (m w).
Proof.
  intros Hk. unfold bind. destruct (m w) as [[e|a] w1]; [done|]. apply Hk.
Qed.

Lemma bind_returns (m : M A) (k : A -> M B) w a w1 :
  m w = (inr a, w1) -> bind m k w = k a w1.
Proof. intros H. unfold bind. by rewrite H. Qed.

Lemma bind_modify (f : World -> World) (k : unit -> M B) w :
  bind (modify f) k w = k tt (f w).
Proof. reflexivity. Qed.

Lemma bind_gets (f : World -> A) (k : A -> M B) w :
  bind (gets f) k w = k (f w) w.
Proof. reflexivity. Qed.

Lemma snd_try_pure (body : M A) (handler : exn -> M A) w :
  (forall e, pure (handler e)) -> snd (try_except body handler w) = snd (body w).
Proof.
  intros Hk. unfold try_except. destruct (body w) as [[e|a] w1]; [|done]. apply Hk.
Qed.

End Worlds.

Section Results.
Context {A B : Type}.

Lemma returns_ret (Q : A -> Prop) (a : A) : Q a -> returns Q (ret a).
Proof. by intros H w a' w' [= <- _]. Qed.

Lemma returns_raise (Q : A -> Prop) (e : exn) : returns Q (raise e).
Proof. by intros w a w'. Qed.

Lemma returns_bind (R : A -> Prop) (Q : B -> Prop) (m : M A) (k : A -> M B) :
  returns R m -> (forall a, R a -> returns Q (k a)) -> returns Q (bind m k).
Proof.
  intros Hm Hk w b w'. unfold bind.
  destruct (m w) as [[e|a] w1] eqn:E; [done|].
  apply Hk. by apply (Hm w a w1).
Qed.

Lemma returns_any (m : M A) : returns (fun _ => True) m.
Proof. done. Qed.

Lemma returns_try (Q : A -> Prop) (body : M A) (handler : exn -> M A) :
  returns Q body -> (forall e, returns Q (handler e)) ->
  returns Q (try_except body handler).
Proof.
  intros Hm Hk w b w'. unfold try_except.
  destruct (body w) as [[e|a] w1] eqn:E.
  - apply Hk.
  - intros [= <- _]. by apply (Hm w a w1).
Qed.

Lemma total_ret (a : A) : total (ret a).
Proof. intros w. by exists a. Qed.

Lemma total_bind (m : M A) (k : A -> M B) :
  total m -> (forall a, total (k a)) -> total (bind m k).
Proof.
  intros Hm Hk w. unfold bind. destruct (Hm w) as [a Ha].
  destruct (m w) as [[e|a'] w1]; [done|]. apply Hk.
Qed.

Lemma total_try (body : M A) (handler : exn -> M A) :
  (forall e, total (handler e)) -> total (try_except body handler).
Proof.
  intros Hk w. unfold try_except.
  destruct (body w) as [[e|a] w1]; [apply Hk|by exists a].
Qed.

End Results.

Section Generator.
Context (env : Env).

Lemma strip_method_stripped v :
  returns (fun s => strip s = s) (strip_method v).
Proof.
  destruct v; try apply returns_raise. apply returns_ret, strip_idem.
Qed.

Lemma field_stripped result key :
  returns (fun s => strip s = s)
    (v <- get_method result key (JStr []) ;; strip_method v).
Proof.
  eapply returns_bind; [apply returns_any|]. intros v _. apply strip_method_stripped.
Qed.

Lemma generate_sql_total q : total (QueryGenerator.generate_sql env q).
Proof.
  unfold QueryGenerator.generate_sql.
  apply total_bind; [by intros w; exists tt|intros _].
  apply total_bind; [by intros w; eexists|intros self].
  apply total_try. intros e. destruct (QueryGenerator.is_rate_limit _); apply total_ret.
Qed.

(** What the Executor does, in full. *)
Lemma execute_query_eq sql w :
  AutomatedEDA.execute_query env sql w
  = (inr match database env (statements w) sql with
         | inr df => (Some df, None)
         | inl e => (None, Some (exn_text e))
         end,
     set_statements (S (statements w))
       (set_clock (clock w + seconds (database_latency env (statements w)))
          (emit (Statement sql) (emit (Call "execute_query" [sql]) w)))).
Proof.
  unfold AutomatedEDA.execute_query, read_sql, try_except, bind, gets, modify, lift.
  cbn [statements emit set_log clock]. by destruct (database env (statements w) sql).
Qed.

(** The fence is removed without a look at the world. *)
Lemma unfence_reads t w w' r :
  QueryGenerator.unfence t w = (r, w') ->
  w' = w /\ forall w0, QueryGenerator.unfence t w0 = (r, w0).
Proof.
  unfold QueryGenerator.unfence, item, bind, ret, raise.
  destruct (contains (lit "```json") t).
  { destruct (split (lit "```json") t !! 1) as [a|]; [|intros [= <- <-]; by split].
    destruct (split (lit "```") a !! 0) as [b|]; intros [= <- <-]; by split. }
  destruct (contains (lit "```") t); [|intros [= <- <-]; by split].
  destruct (split (lit "```") t !! 1) as [a|]; [|intros [= <- <-]; by split].
  destruct (split (lit "```") a !! 0) as [b|]; intros [= <- <-]; by split.
Qed.

(** A text is stripped to nothing exactly when it holds nothing but
    white space. *)
Lemma lstrip_nil s : lstrip s = [] <-> forallb is_space s = true.
Proof.
  induction s as [|c s IH]; [done|]. simpl.
  destruct (is_space c); [exact IH|]. split; discriminate.
Qed.

Lemma strip_nil s : strip s = [] <-> forallb is_space s = true.
Proof.
  split.
  - unfold strip, rstrip. intros H.
    apply (f_equal (@rev N)) in H. rewrite rev_involutive in H. simpl in H.
    apply lstrip_nil in H.
    pose proof (lstrip_trimmed s) as Ht.
    destruct (lstrip s) as [|c r] eqn:E; [by apply lstrip_nil|].
    simpl in Ht. rewrite forallb_forall in H.
    specialize (H c). rewrite H in Ht; [done|].
    apply in_rev. rewrite rev_involutive. by left.
  - intros H. unfold strip. apply lstrip_nil in H. by rewrite H.
Qed.

(** A successful result of the Generator comes from a response whose
    payload decoded to an object; its query is the member [sql] of that
    object, stripped. *)
Lemma generate_sql_success_payload q w d :
  fst (QueryGenerator.generate_sql env q w) = inr d ->
  d !! "success" = Some (VBool true) ->
  exists text payload members s0,
    gemini env (requests w) (model_id (query_gen w))
      (QueryGenerator.generate_prompt (query_gen w) q) = Responds (Some text) /\
    (forall w0, QueryGenerator.unfence text w0 = (inr payload, w0)) /\
    decoder_limit env (trim payload) = None /\
    loads payload = Some (JDict members) /\
    (dict_lookup (lit "sql") members = Some (JStr s0)
     \/ dict_lookup (lit "sql") members = None /\ s0 = []) /\
    d !! "sql" = Some (VStr (strip s0)).
Proof.
  intros Hd Hok. unfold QueryGenerator.generate_sql in Hd.
  rewrite bind_modify, bind_gets in Hd.
  unfold try_except in Hd.
  match type of Hd with context [match ?body ?w1 with _ => _ end] =>
    destruct (body w1) as [[e|d0] w2] eqn:E end.
  { destruct (QueryGenerator.is_rate_limit _); simpl in Hd;
      injection Hd as <-; by simplify_map_eq. }
  simpl in Hd. injection Hd as ->.
  revert E. unfold generate_content, gets, modify, bind.
  cbn [requests query_gen emit set_log].
  destruct (gemini env (requests w) _ _) as [e|[text|]] eqn:Hg; [done| |done].
  unfold container, ret.
  destruct (QueryGenerator.unfence text _) as [[e|payload] w3] eqn:Hu; [done|].
  apply unfence_reads in Hu as [-> Hu].
  unfold json_loads.
  destruct (decoder_limit env (trim payload)) as [e|] eqn:Hlim; [done|].
  destruct (loads payload) as [v|] eqn:Hv; [|done].
  unfold get_method, ret, raise.
  destruct v as [| | | | |items|members]; try done.
  unfold strip_method, ret, raise.
  destruct (match dict_lookup (lit "sql") members with
            | Some v => v | None => JStr [] end) as [| | | |s0| |] eqn:Hs; try done.
  destruct (match dict_lookup (lit "explanation") members with
            | Some v => v | None => JStr [] end) as [| | | |s1| |]; try done.
  intros [= <- _].
  exists text, payload, members, s0.
  split; [done|]. split; [done|]. split; [done|]. split; [done|].
  split; [|by simplify_map_eq].
  destruct (dict_lookup (lit "sql") members) as [v|]; [left; by subst|right].
  by injection Hs as <-.
Qed.

End Generator.

(** C3. [execute_query] never raises: it sends the statement to the
    database, once, and returns a pair that holds the rows the database
    answered and no error, or no rows and the text of the exception the
    connection or the statement raised; so exactly one of the two
    components is present. *)
Theorem execute_query_never_raises env sql_query w :
  exists r, fst (AutomatedEDA.execute_query env sql_query w) = inr r /\
    match database env (statements w) sql_query with
    | inr df => r = (Some df, None)
    | inl e => r = (None, Some (exn_text e))
    end /\
    ((exists df, r = (Some df, None)) \/ (exists msg, r = (None, Some msg))) /\
    log (snd (AutomatedEDA.execute_query env sql_query w))
    = log w ++ [Call "execute_query" [sql_query]; Statement sql_query].
Proof.
  rewrite execute_query_eq. eexists. split; [reflexivity|].
  cbn [snd log set_statements set_clock emit set_log]. rewrite <- app_assoc.
  destruct (database env (statements w) sql_query) as [e|df].
  - split; [reflexivity|]. split; [right; by eexists|reflexivity].
  - split; [reflexivity|]. split; [left; by eexists|reflexivity].
Qed.

(** C2 (amended). When [generate_sql] reports success, the payload of
    the response (its text without the code fence) has decoded to an
    object, and the [sql] entry of the result is the text under [sql]
    in that object, stripped of the white space around it, or the empty
    text when the object has no such member. So the entry is a text
    (never [None]) without leading or trailing white space, and it is
    empty exactly when the member is missing or holds nothing but white
    space. *)
Theorem generate_sql_success_carries_stripped_sql env q w d :
  fst (QueryGenerator.generate_sql env q w) = inr d ->
  d !! "success" = Some (VBool true) ->
  exists text payload members s0 s,
    gemini env (requests w) (model_id (query_gen w))
      (QueryGenerator.generate_prompt (query_gen w) q) = Responds (Some text) /\
    (forall w0, QueryGenerator.unfence text w0 = (inr payload, w0)) /\
    decoder_limit env (trim payload) = None /\
    loads payload = Some (JDict members) /\
    (dict_lookup (lit "sql") members = Some (JStr s0)
     \/ dict_lookup (lit "sql") members = None /\ s0 = []) /\
    d !! "sql" = Some (VStr s) /\
    s = strip s0 /\
    strip s = s /\
    (s = [] <-> forallb is_space s0 = true).
Proof.
  intros Hd Hok.
  destruct (generate_sql_success_payload env q w d Hd Hok)
    as (text & payload & members & s0 & Hg & Hu & Hlim & Hv & Hm & Hs).
  exists text, payload, members, s0, (strip s0).
  repeat split; try done; [apply strip_idem|apply strip_nil..].
Qed.

(* ================================================================== *)
(** * The throttle *)
(* ================================================================== *)

Section Clock.

Lemma Qltb_lt a b : Qltb a b = true <-> (a < b)%Q.
Proof.
  unfold Qltb. rewrite negb_true_iff, <- not_true_iff_false, Qle_bool_iff.
  split; [apply Qnot_le_lt|apply Qlt_not_le].
Qed.

Lemma Qltb_ge a b : Qltb a b = false <-> (b <= a)%Q.
Proof.
  unfold Qltb. rewrite negb_false_iff. apply Qle_bool_iff.
Qed.

Lemma seconds_nonneg d : (0 <= seconds d)%Q.
Proof. unfold seconds, Qle. simpl. lia. Qed.

End Clock.

Section Throttle.
Context (env : Env).

Lemma request_times_app l1 l2 :
  request_times (l1 ++ l2) = request_times l1 ++ request_times l2.
Proof.
  induction l1 as [|e l1 IH]; [done|]. destruct e; simpl; by rewrite ?IH.
Qed.

(** What [_wait_for_rate_limit] does: nothing is raised; no request is
    issued; the time stamp is the clock on return, which is at least
    [min_delay] after the previous stamp. *)
Lemma wait_for_rate_limit_spec w :
  exists w',
    QueryGenerator._wait_for_rate_limit env w = (inr tt, w') /\
    requests w' = requests w /\
    request_times (log w') = request_times (log w) /\
    last_request_time (query_gen w') = clock w' /\
    min_delay (query_gen w') = min_delay (query_gen w) /\
    model_id (query_gen w') = model_id (query_gen w) /\
    (last_request_time (query_gen w) + min_delay (query_gen w) <= clock w')%Q /\
    ((clock w - last_request_time (query_gen w) < min_delay (query_gen w))%Q ->
     (clock w + (min_delay (query_gen w) - (clock w - last_request_time (query_gen w)))
      <= clock w')%Q).
Proof.
  unfold QueryGenerator._wait_for_rate_limit, bind, time_time, gets, modify.
  set (since := (clock w - last_request_time (query_gen w))%Q).
  set (d := min_delay (query_gen w)).
  destruct (Qltb since d) eqn:E.
  - apply Qltb_lt in E. unfold time_sleep.
    destruct (Qltb (d - since) 0) eqn:E0.
    { apply Qltb_lt in E0. lra. }
    unfold modify. eexists. split; [reflexivity|].
    pose proof (seconds_nonneg (oversleep env (sleeps w))).
    cbn [clock requests log query_gen set_query_gen set_clock set_sleeps emit set_log
         QueryGenerator.set_last_request_time last_request_time min_delay model_id].
    rewrite request_times_app. cbn [request_times].
    repeat split; try done; try (subst since d; lra).
    by rewrite app_nil_r.
  - apply Qltb_ge in E. unfold ret. eexists. split; [reflexivity|].
    cbn [clock requests log query_gen set_query_gen set_clock set_sleeps emit set_log
         QueryGenerator.set_last_request_time last_request_time min_delay model_id].
    repeat split; try done; subst since d; lra.
Qed.

Lemma generate_content_world model contents w :
  snd (generate_content env model contents w)
  = set_requests (S (requests w))
      (set_clock (clock w + seconds (gemini_latency env (requests w)))
         (emit (Request (clock w) model contents) w)).
Proof.
  unfold generate_content, bind, gets, modify.
  by destruct (gemini env (requests w) model contents).
Qed.

(** The world [generate_sql] leaves: one request has been issued, at
    the time of the call; nothing else has changed. *)
Lemma generate_sql_world q w :
  snd (QueryGenerator.generate_sql env q w)
  = snd (generate_content env (model_id (query_gen w))
           (QueryGenerator.generate_prompt (query_gen w) q)
           (emit (Call "generate_sql" [q]) w)).
Proof.
  unfold QueryGenerator.generate_sql.
  rewrite bind_modify, bind_gets.
  rewrite snd_try_pure, snd_bind_pure; [done|..].
  - intros response. apply pure_intro. intros w0. walk_pure.
  - intros e. apply pure_intro. intros w0. walk_pure.
Qed.

(** What a call of the Corrector does to the world: the throttle has
    run, then one request has been issued, at time [t]. *)
Lemma validate_spec sql err w :
  exists t,
    let w' := snd (QueryGenerator.validate_and_improve_query env sql err w) in
    request_times (log w') = request_times (log w) ++ [t] /\
    last_request_time (query_gen w') = t /\
    min_delay (query_gen w') = min_delay (query_gen w) /\
    (t <= clock w')%Q /\
    (last_request_time (query_gen w) + min_delay (query_gen w) <= t)%Q /\
    ((clock w - last_request_time (query_gen w) < min_delay (query_gen w))%Q ->
     (clock w + (min_delay (query_gen w) - (clock w - last_request_time (query_gen w)))
      <= t)%Q).
Proof.
  destruct (wait_for_rate_limit_spec
              (emit (Call "validate_and_improve_query" [sql; format_opt err]) w))
    as (w1 & Hw1 & _ & Hlog & Hlast & Hdelay & _ & Hgap & Hwait).
  exists (clock w1). cbv zeta.
  unfold QueryGenerator.validate_and_improve_query.
  rewrite bind_modify, bind_gets, snd_try_pure.
  2: { intros e. apply pure_intro. intros w0. walk_pure. }
  rewrite (bind_returns _ _ _ _ _ Hw1), snd_bind_pure.
  2: { intros response. apply pure_intro. intros w0. walk_pure. }
  rewrite generate_content_world.
  cbn [log query_gen set_requests set_clock emit set_log clock] in *.
  rewrite !request_times_app in *. cbn [request_times] in *.
  rewrite app_nil_r in Hlog. rewrite Hlog.
  pose proof (seconds_nonneg (gemini_latency env (requests w1))).
  repeat split; try done. lra.
Qed.

End Throttle.

(** C7 (the code departs from it). [generate_sql] issues its completion
    request, at the time of the call, and leaves the time stamp of the
    last request as it was: the rate state is not mutated before this
    completion call. *)
Theorem generate_sql_skips_the_rate_state env q w :
  let w' := snd (QueryGenerator.generate_sql env q w) in
  request_times (log w') = request_times (log w) ++ [clock w] /\
  last_request_time (query_gen w') = last_request_time (query_gen w).
Proof.
  cbv zeta. rewrite generate_sql_world, generate_content_world.
  cbn [log query_gen set_requests set_clock emit set_log clock].
  rewrite !request_times_app. cbn [request_times]. by rewrite app_nil_r.
Qed.

(** C6. Two consecutive calls of the Corrector on a generator whose
    minimum interval is 5, the second one made in any world [w1'] in
    which the generator object is as the first call left it: the second
    request is issued at least 5 after the first one; and when the
    second call starts less than 5 after the first request
    ([elapsed = clock - t1 < 5]), its request is delayed by at least
    [5 - elapsed]. Time is the clock of the world. *)
Theorem corrector_requests_are_spaced env sql1 err1 sql2 err2 w w1' :
  min_delay (query_gen w) = 5%Q ->
  query_gen w1'
  = query_gen (snd (QueryGenerator.validate_and_improve_query env sql1 err1 w)) ->
  let w1 := snd (QueryGenerator.validate_and_improve_query env sql1 err1 w) in
  let w2 := snd (QueryGenerator.validate_and_improve_query env sql2 err2 w1') in
  exists t1 t2,
    request_times (log w1) = request_times (log w) ++ [t1] /\
    request_times (log w2) = request_times (log w1') ++ [t2] /\
    ((clock w1' - t1 < 5)%Q -> (clock w1' + (5 - (clock w1' - t1)) <= t2)%Q) /\
    (t1 + 5 <= t2)%Q.
Proof.
  intros Hd Hsame. cbv zeta.
  destruct (validate_spec env sql1 err1 w) as (t1 & Hlog1 & Hlast1 & Hd1 & _).
  cbv zeta in *.
  destruct (validate_spec env sql2 err2 w1') as (t2 & Hlog2 & _ & _ & _ & Hgap & Hwait).
  cbv zeta in *.
  exists t1, t2. rewrite Hsame, Hd1, Hd, Hlast1 in *. done.
Qed.

(* ================================================================== *)
(** * Failures and fences of the completion *)
(* ================================================================== *)

Section Classification.
Context (env : Env).

Lemma is_rate_limit_markers msg :
  contains (lit "429") msg = true \/ contains (lit "RESOURCE_EXHAUSTED") msg = true ->
  QueryGenerator.is_rate_limit msg = true.
Proof. unfold QueryGenerator.is_rate_limit. intros [-> | ->]; [done|apply orb_true_r]. Qed.

Lemma generate_sql_raising q w e :
  gemini env (requests w) (model_id (query_gen w))
    (QueryGenerator.generate_prompt (query_gen w) q) = Raises e ->
  QueryGenerator.is_rate_limit (exn_text e) = true ->
  exists d, fst (QueryGenerator.generate_sql env q w) = inr d /\
    d !! "success" = Some (VBool false) /\
    d !! "error_type" = Some (VStr (lit "rate_limit")).
Proof.
  intros He Hm. unfold QueryGenerator.generate_sql.
  rewrite bind_modify, bind_gets.
  unfold generate_content, gets, modify, try_except, bind. simpl.
  rewrite He. unfold raise. rewrite Hm.
  eexists. split; [reflexivity|]. by simplify_map_eq.
Qed.

Lemma validate_raising sql err w e :
  gemini env (requests w) (model_id (query_gen w))
    (QueryGenerator.review_prompt (query_gen w) sql err) = Raises e ->
  QueryGenerator.is_rate_limit (exn_text e) = true ->
  exists d, fst (QueryGenerator.validate_and_improve_query env sql err w) = inr d /\
    d !! "success" = Some (VBool false) /\
    d !! "error_type" = Some (VStr (lit "rate_limit")).
Proof.
  intros He Hm. unfold QueryGenerator.validate_and_improve_query.
  rewrite bind_modify, bind_gets.
  destruct (wait_for_rate_limit_spec env
              (emit (Call "validate_and_improve_query" [sql; format_opt err]) w))
    as (w1 & Hw1 & Hreq & _).
  unfold try_except. rewrite (bind_returns _ _ _ _ _ Hw1).
  unfold generate_content, gets, modify, bind. simpl.
  rewrite Hreq. simpl. rewrite He. unfold raise. rewrite Hm.
  eexists. split; [reflexivity|]. by simplify_map_eq.
Qed.

End Classification.

(** C4. When the completion request raises an error whose text holds
    the marker 429 or the marker RESOURCE_EXHAUSTED, both [generate_sql]
    and [validate_and_improve_query] return a failure whose [error_type]
    is [rate_limit]. *)
Theorem rate_limit_errors_are_classified env q sql err w e :
  (forall model contents, gemini env (requests w) model contents = Raises e) ->
  contains (lit "429") (exn_text e) = true
  \/ contains (lit "RESOURCE_EXHAUSTED") (exn_text e) = true ->
  (exists d, fst (QueryGenerator.generate_sql env q w) = inr d /\
     d !! "success" = Some (VBool false) /\
     d !! "error_type" = Some (VStr (lit "rate_limit"))) /\
  (exists d, fst (QueryGenerator.validate_and_improve_query env sql err w) = inr d /\
     d !! "success" = Some (VBool false) /\
     d !! "error_type" = Some (VStr (lit "rate_limit"))).
Proof.
  intros He Hm. apply is_rate_limit_markers in Hm. split.
  - by apply (generate_sql_raising env q w e).
  - by apply (validate_raising env sql err w e).
Qed.

Section Parsing.
Context (env : Env).

Lemma wait_answering c :
  QueryGenerator._wait_for_rate_limit (answering env c)
  = QueryGenerator._wait_for_rate_limit env.
Proof. reflexivity. Qed.

(** With a backend that answers [text], the Generator's outcome is that
    of the response handling on [text]. *)
Lemma generate_sql_fenced q w p v wrapped :
  loads p = Some v ->
  (forall w0, QueryGenerator.unfence wrapped w0 = (inr (strip p), w0)) ->
  (forall w0, QueryGenerator.unfence p w0 = (inr p, w0)) ->
  QueryGenerator.generate_sql (answering env (Responds (Some wrapped))) q w
  = QueryGenerator.generate_sql (answering env (Responds (Some p))) q w.
Proof.
  intros Hv Hwrapped Hbare. unfold QueryGenerator.generate_sql.
  rewrite !bind_modify, !bind_gets.
  unfold generate_content, gets, modify, container, ret, try_except, bind. simpl.
  rewrite Hwrapped, Hbare.
  unfold json_loads. by rewrite (trim_strip _ _ Hv), (loads_strip _ _ Hv), Hv.
Qed.

Lemma validate_fenced sql err w p v wrapped :
  loads p = Some v ->
  (forall w0, QueryGenerator.unfence wrapped w0 = (inr (strip p), w0)) ->
  (forall w0, QueryGenerator.unfence p w0 = (inr p, w0)) ->
  QueryGenerator.validate_and_improve_query (answering env (Responds (Some wrapped))) sql err w
  = QueryGenerator.validate_and_improve_query (answering env (Responds (Some p))) sql err w.
Proof.
  intros Hv Hwrapped Hbare. unfold QueryGenerator.validate_and_improve_query.
  rewrite !bind_modify, !bind_gets.
  destruct (wait_for_rate_limit_spec env
              (emit (Call "validate_and_improve_query" [sql; format_opt err]) w))
    as (w1 & Hw1 & _).
  unfold try_except. rewrite !wait_answering, !(bind_returns _ _ _ _ _ Hw1).
  unfold generate_content, gets, modify, container, ret, bind. simpl.
  rewrite Hwrapped, Hbare.
  unfold json_loads. by rewrite (trim_strip _ _ Hv), (loads_strip _ _ Hv), Hv.
Qed.

End Parsing.

(** C5 (amended). For a payload that decodes and that holds no run of
    three backquotes, the response that wraps it in a code fence (with
    the json tag or without) gives the Generator and the Corrector the
    same result, and the same world, as the bare payload. *)
Theorem fenced_payload_is_parsed_like_the_bare_one env q sql err w payload v :
  contains (lit "```") payload = false ->
  loads payload = Some v ->
  let bare := answering env (Responds (Some payload)) in
  let tagged := answering env (Responds (Some (fence_json payload))) in
  let plain := answering env (Responds (Some (fence_plain payload))) in
  QueryGenerator.generate_sql tagged q w = QueryGenerator.generate_sql bare q w /\
  QueryGenerator.generate_sql plain q w = QueryGenerator.generate_sql bare q w /\
  QueryGenerator.validate_and_improve_query tagged sql err w
  = QueryGenerator.validate_and_improve_query bare sql err w /\
  QueryGenerator.validate_and_improve_query plain sql err w
  = QueryGenerator.validate_and_improve_query bare sql err w.
Proof.
  intros Hp Hv. cbv zeta.
  repeat split;
    first [eapply generate_sql_fenced | eapply validate_fenced]; try exact Hv;
    intros w0; auto using unfence_fence_json, unfence_fence_plain, unfence_bare.
Qed.

(* ================================================================== *)
(** * The outcome of a workflow run *)
(* ================================================================== *)

Section Outcome.
Context (env : Env).

Lemma report_steps_outcome q results ts sql df :
  returns reported (AnalyticsWorkflow.report_steps env q results ts sql df).
Proof.
  unfold AnalyticsWorkflow.report_steps.
  destruct df as [df|]; [|apply returns_raise].
  eapply returns_bind; [apply returns_any|intros eda _].
  eapply returns_bind; [apply returns_any|intros summary _].
  eapply returns_bind; [apply returns_any|intros full_report _].
  eapply returns_bind; [apply returns_any|intros report_path _].
  eapply returns_bind; [apply returns_any|intros n _].
  eapply returns_bind; [apply returns_any|intros _ _].
  apply returns_ret. unfold reported.
  split; [by simplify_map_eq|]. split; eexists; by simplify_map_eq.
Qed.



End Outcome.

Section Failures.
Context (env : Env) (q : str).

Lemma is_error_text error :
  AnalyticsWorkflow.is_error error = true ->
  exists e, AnalyticsWorkflow.error_value error = VStr e /\ e <> [].
Proof. destruct error as [[|c s]|]; try done. intros _. by exists (c :: s). Qed.

Lemma execution_steps_failure results ts sql :
  results !! "success" = Some (VBool false) ->
  results !! "query" = Some (VStr q) ->
  returns (failed_after_generation q)
    (AnalyticsWorkflow.execution_steps env q results ts sql).
Proof.
  intros Hs Hq. unfold AnalyticsWorkflow.execution_steps.
  assert (Hreport : forall results' sql' df,
    returns (failed_after_generation q)
      (AnalyticsWorkflow.report_steps env q results' ts sql' df)).
  { intros results' sql' df w d w' H [Hd _].
    destruct (report_steps_outcome env q results' ts sql' df w d w' H) as [Hd' _].
    congruence. }
  eapply returns_bind; [apply returns_any|intros [df error] _].
  destruct (AnalyticsWorkflow.is_error error) eqn:E; [|apply Hreport].
  destruct (is_error_text _ E) as (e & He & Hne).
  eapply returns_bind; [apply returns_any|intros fix_result _].
  eapply returns_bind; [apply returns_any|intros ok _].
  destruct (truthy ok).
  - eapply returns_bind; [apply returns_any|intros changes _].
    eapply returns_bind; [apply returns_any|intros _ _].
    eapply returns_bind; [apply returns_any|intros sql' _].
    eapply returns_bind; [apply returns_any|intros [df' error'] _].
    destruct (AnalyticsWorkflow.is_error error') eqn:E'; [|apply Hreport].
    destruct (is_error_text _ E') as (e' & He' & Hne').
    apply returns_ret. intros _. rewrite He'. split; [by simplify_map_eq|].
    exists sql', e'. by simplify_map_eq.
  - apply returns_ret. intros Hsq. rewrite He. split; [by simplify_map_eq|].
    destruct Hsq as [_ [sql0 Hsql0]].
    exists sql0, e. by simplify_map_eq.
Qed.

(** The failure exits after the generation record the error. *)
Lemma run_analysis_failure save_sql :
  returns (failed_after_generation q)
    (AnalyticsWorkflow.run_analysis env q save_sql).
Proof.
  unfold AnalyticsWorkflow.run_analysis.
  eapply returns_bind; [apply returns_any|intros ts _].
  eapply returns_bind; [apply returns_any|intros query_result _].
  eapply returns_bind; [apply returns_any|intros ok _].
  destruct (negb (truthy ok)).
  { apply returns_ret. intros [_ [sql Hsql]]. by simplify_map_eq. }
  eapply returns_bind; [apply returns_any|intros sql _].
  eapply returns_bind; [apply returns_any|intros explanation _].
  eapply returns_bind; [apply returns_any|intros _ _].
  eapply returns_bind; [apply returns_any|intros _ _].
  eapply (returns_bind (fun results =>
            results !! "success" = Some (VBool false) /\
            results !! "query" = Some (VStr q))).
  - destruct save_sql.
    + eapply returns_bind; [apply returns_any|intros _ _].
      apply returns_ret. by simplify_map_eq.
    + apply returns_ret. by simplify_map_eq.
  - intros results [Hs Hq]. by apply execution_steps_failure.
Qed.

End Failures.


(* ================================================================== *)
(** * The saved query *)
(* ================================================================== *)

Section Saved.
Context (env : Env).




Lemma generate_sql_log q w :
  log (snd (QueryGenerator.generate_sql env q w))
  = log w ++ [Call "generate_sql" [q];
              Request (clock w) (model_id (query_gen w))
                (QueryGenerator.generate_prompt (query_gen w) q)].
Proof.
  rewrite generate_sql_world, generate_content_world. simpl. by rewrite <- app_assoc.
Qed.






(** A generated query that the console cannot show ends the run with an
    exception, before anything is saved or executed. *)
Lemma run_analysis_query_not_shown q save_sql w d sql :
  fst (QueryGenerator.generate_sql env q w) = inr d ->
  d !! "success" = Some (VBool true) ->
  d !! "sql" = Some (VStr sql) ->
  (exists explanation, d !! "explanation" = Some (VStr explanation)) ->
  printable (stdout_errors env) sql = false ->
  AnalyticsWorkflow.run_analysis env q save_sql w
  = (inl (Exn "UnicodeEncodeError" (encode_error env sql)),
     snd (QueryGenerator.generate_sql env q w)).
Proof.
  intros Hd Hok Hsql [explanation Hexp] Hs.
  assert (Hgen : QueryGenerator.generate_sql env q w
                 = (inr d, snd (QueryGenerator.generate_sql env q w))).
  { destruct (QueryGenerator.generate_sql env q w). simpl in *. by subst. }
  unfold AnalyticsWorkflow.run_analysis, datetime_now.
  rewrite bind_gets. rewrite (bind_returns _ _ _ _ _ Hgen).
  unfold getitem. rewrite Hok, Hsql, Hexp.
  cbv beta iota delta [bind ret text_of truthy negb].
  by rewrite (print_text_refused env sql _ Hs).
Qed.

End Saved.


(* ================================================================== *)
(** * Footprints of the components *)
(* ================================================================== *)

Section Footprints.
Context {A X : Type}.

Lemma keeps_intro (f : World -> X) (m : M A) :
  (forall x, preserves (fun w => f w = x) m) -> keeps f m.
Proof. intros H w. by apply (H (f w) w). Qed.

Lemma keeps_preserves (f : World -> X) (m : M A) x :
  keeps f m -> preserves (fun w => f w = x) m.
Proof. intros H w Hw. by rewrite H. Qed.

End Footprints.

Section Sequences.
Context {A B X : Type}.

Lemma keeps_bind (f : World -> X) (m : M A) (k : A -> M B) :
  keeps f m -> (forall a, keeps f (k a)) -> keeps f (bind m k).
Proof.
  intros Hm Hk. apply keeps_intro. intros x.
  apply preserves_bind; [|intros a]; by apply keeps_preserves.
Qed.

Lemma grows_keeps (f : World -> nat) (m : M A) : keeps f m -> grows f 0 m.
Proof. intros H w. rewrite H. lia. Qed.

Lemma grows_le (f : World -> nat) n n' (m : M A) :
  n <= n' -> grows f n m -> grows f n' m.
Proof. intros Hn H w. specialize (H w). lia. Qed.

Lemma grows_ret (f : World -> nat) n (a : A) : grows f n (ret a).
Proof. intros w. simpl. lia. Qed.

Lemma grows_bind f n1 n2 (m : M A) (k : A -> M B) :
  grows f n1 m -> (forall a, grows f n2 (k a)) -> grows f (n1 + n2) (bind m k).
Proof.
  intros Hm Hk w. unfold bind. specialize (Hm w).
  destruct (m w) as [[e|a] w']; simpl in *; [lia|].
  specialize (Hk a w'). lia.
Qed.

Lemma grows_try f n1 n2 (body : M A) (handler : exn -> M A) :
  grows f n1 body -> (forall e, grows f n2 (handler e)) ->
  grows f (n1 + n2) (try_except body handler).
Proof.
  intros Hm Hk w. unfold try_except. specialize (Hm w).
  destruct (body w) as [[e|a] w']; simpl in *; [|lia].
  specialize (Hk e w'). lia.
Qed.

End Sequences.

Section Heard.
Context (ok : event -> Prop) (l0 : list event).

Lemma only_start w : log w = l0 -> only ok l0 w.
Proof. intros H. exists []. by rewrite app_nil_r. Qed.

Lemma only_same w w' : log w' = log w -> only ok l0 w -> only ok l0 w'.
Proof. intros H (l & Hl & Hok). exists l. by rewrite H. Qed.

Lemma only_step e w w' :
  log w' = log w ++ [e] -> ok e -> only ok l0 w -> only ok l0 w'.
Proof.
  intros H He (l & Hl & Hok). exists (l ++ [e]). rewrite H, Hl, app_assoc.
  split; [done|]. apply Forall_app. split; [done|]. by constructor.
Qed.

Lemma only_omap {X} (obs : event -> option X) w :
  (forall e, ok e -> obs e = None) -> only ok l0 w -> omap obs (log w) = omap obs l0.
Proof.
  intros Hobs (l & -> & Hok). rewrite omap_app.
  replace (omap obs l) with (@nil X); [by rewrite app_nil_r|].
  induction Hok as [|e l He _ IH]; [done|]. simpl. by rewrite (Hobs e He).
Qed.

End Heard.

(** The walk through a computation down to its updates of the world;
    [leaf] closes each update. *)
Ltac descend leaf :=
  repeat first
    [ progress walk_pure
    | match goal with
      | |- preserves _ (time_sleep _ _) => unfold time_sleep
      | |- preserves _ (generate_content _ _ _) => unfold generate_content
      | |- preserves _ (read_sql _ _) => unfold read_sql
      | |- preserves _ (library_write _ _) => unfold library_write
      | |- preserves _ (write_file _ _ _) => unfold write_file
      | |- preserves _ (modify _) => apply preserves_modify; leaf
      end ].

(** The component [f] is untouched by every update on the way. *)
Ltac kept := apply keeps_intro; intros ?; descend ltac:(by intros ? ?).

(** Every event on the way satisfies the condition of [only]; [side]
    proves it of each event. *)
Ltac heard side :=
  descend ltac:(
    let w0 := fresh "w" in let H := fresh "H" in
    intros w0 H;
    first [ exact (only_same _ _ w0 _ eq_refl H)
          | eapply only_step with (w := w0); [reflexivity|side|exact H] ]).

Section Components.
Context (env : Env).

(** The Generator and the Corrector touch neither the files nor the
    database nor the other generator object. *)
Lemma generate_sql_keeps_files q : keeps files (QueryGenerator.generate_sql env q).
Proof. unfold QueryGenerator.generate_sql. kept. Qed.

Lemma generate_sql_keeps_statements q :
  keeps statements (QueryGenerator.generate_sql env q).
Proof. unfold QueryGenerator.generate_sql. kept. Qed.

Lemma validate_keeps_files sql err :
  keeps files (QueryGenerator.validate_and_improve_query env sql err).
Proof.
  unfold QueryGenerator.validate_and_improve_query, QueryGenerator._wait_for_rate_limit.
  kept.
Qed.

Lemma validate_keeps_summary_gen sql err :
  keeps summary_gen (QueryGenerator.validate_and_improve_query env sql err).
Proof.
  unfold QueryGenerator.validate_and_improve_query, QueryGenerator._wait_for_rate_limit.
  kept.
Qed.

Lemma execute_query_keeps_requests sql :
  keeps requests (AutomatedEDA.execute_query env sql).
Proof. unfold AutomatedEDA.execute_query. kept. Qed.

Lemma validate_sends_no_statement sql err l0 :
  preserves (only (fun e => statement_of e = None) l0)
    (QueryGenerator.validate_and_improve_query env sql err).
Proof.
  unfold QueryGenerator.validate_and_improve_query, QueryGenerator._wait_for_rate_limit.
  heard ltac:(reflexivity).
Qed.

End Components.

(* ================================================================== *)
(** * The results of the Generator and of the Corrector *)
(* ================================================================== *)

Section Shapes.
Context (env : Env).

Lemma generate_sql_shape q :
  returns (fun d : gmap string pyval =>
             (d !! "success" = Some (VBool true) /\
              (exists sql explanation,
                 d !! "sql" = Some (VStr sql) /\ strip sql = sql /\
                 d !! "explanation" = Some (VStr explanation) /\
                 strip explanation = explanation) /\
              d !! "error" = None /\ d !! "error_type" = None)
             \/
             (d !! "success" = Some (VBool false) /\
              d !! "sql" = Some VNone /\ d !! "explanation" = Some VNone /\
              exists msg, d !! "error" = Some (VStr msg)))
    (QueryGenerator.generate_sql env q).
Proof.
  unfold QueryGenerator.generate_sql.
  eapply returns_bind; [apply returns_any|intros _ _].
  eapply returns_bind; [apply returns_any|intros self _].
  apply returns_try.
  - eapply returns_bind; [apply returns_any|intros response _].
    eapply returns_bind; [apply returns_any|intros text _].
    eapply returns_bind; [apply returns_any|intros text' _].
    eapply returns_bind; [apply returns_any|intros result _].
    eapply returns_bind; [apply field_stripped|intros sql Hsql].
    eapply returns_bind; [apply field_stripped|intros explanation Hex].
    apply returns_ret. left. split; [by simplify_map_eq|].
    split; [exists sql, explanation; by simplify_map_eq|by simplify_map_eq].
  - intros e. destruct (QueryGenerator.is_rate_limit _); apply returns_ret; right.
    + split; [by simplify_map_eq|]. split; [by simplify_map_eq|].
      split; [by simplify_map_eq|]. eexists. by simplify_map_eq.
    + split; [by simplify_map_eq|]. split; [by simplify_map_eq|].
      split; [by simplify_map_eq|]. eexists. by simplify_map_eq.
Qed.

Lemma wait_query_total : total (QueryGenerator._wait_for_rate_limit env).
Proof.
  intros w. destruct (wait_for_rate_limit_spec env w) as (w' & H & _).
  exists tt. by rewrite H.
Qed.

Lemma validate_total sql err :
  total (QueryGenerator.validate_and_improve_query env sql err).
Proof.
  unfold QueryGenerator.validate_and_improve_query.
  apply total_bind; [by intros w; exists tt|intros _].
  apply total_bind; [by intros w; eexists|intros self].
  apply total_try. intros e. destruct (QueryGenerator.is_rate_limit _); apply total_ret.
Qed.

Lemma validate_shape sql err :
  returns (fun d : gmap string pyval =>
             (d !! "success" = Some (VBool true) /\
              (exists sql' changes warnings,
                 d !! "sql" = Some (VStr sql') /\ strip sql' = sql' /\
                 d !! "changes" = Some (VStr changes) /\
                 d !! "warnings" = Some (VStr warnings)) /\
              d !! "error" = None)
             \/
             (d !! "success" = Some (VBool false) /\ d !! "sql" = None /\
              exists msg, d !! "error" = Some (VStr msg)))
    (QueryGenerator.validate_and_improve_query env sql err).
Proof.
  unfold QueryGenerator.validate_and_improve_query.
  eapply returns_bind; [apply returns_any|intros _ _].
  eapply returns_bind; [apply returns_any|intros self _].
  apply returns_try.
  - eapply returns_bind; [apply returns_any|intros _ _].
    eapply returns_bind; [apply returns_any|intros response _].
    eapply returns_bind; [apply returns_any|intros text _].
    eapply returns_bind; [apply returns_any|intros text' _].
    eapply returns_bind; [apply returns_any|intros result _].
    eapply returns_bind; [apply field_stripped|intros sql' Hsql].
    eapply returns_bind; [apply returns_any|intros changes _].
    eapply returns_bind; [apply returns_any|intros warnings _].
    apply returns_ret. left. split; [by simplify_map_eq|].
    split; [exists sql', changes, warnings; by simplify_map_eq|by simplify_map_eq].
  - intros e. destruct (QueryGenerator.is_rate_limit _); apply returns_ret; right.
    + split; [by simplify_map_eq|]. split; [by simplify_map_eq|].
      eexists. by simplify_map_eq.
    + split; [by simplify_map_eq|]. split; [by simplify_map_eq|].
      eexists. by simplify_map_eq.
Qed.

(** What the two methods return when the completion request raises. *)
Lemma generate_sql_on_error q w e :
  gemini env (requests w) (model_id (query_gen w))
    (QueryGenerator.generate_prompt (query_gen w) q) = Raises e ->
  QueryGenerator.is_rate_limit (exn_text e) = false ->
  exists d, fst (QueryGenerator.generate_sql env q w) = inr d /\
    d !! "success" = Some (VBool false) /\
    d !! "error" = Some (VStr (exn_text e)) /\
    d !! "error_type" = None.
Proof.
  intros He Hm. unfold QueryGenerator.generate_sql.
  rewrite bind_modify, bind_gets.
  unfold generate_content, gets, modify, try_except, bind. simpl.
  rewrite He. unfold raise. rewrite Hm.
  eexists. split; [reflexivity|]. by simplify_map_eq.
Qed.

Lemma validate_on_error sql err w e :
  gemini env (requests w) (model_id (query_gen w))
    (QueryGenerator.review_prompt (query_gen w) sql err) = Raises e ->
  QueryGenerator.is_rate_limit (exn_text e) = false ->
  exists d, fst (QueryGenerator.validate_and_improve_query env sql err w) = inr d /\
    d !! "success" = Some (VBool false) /\
    d !! "error" = Some (VStr (exn_text e)) /\
    d !! "error_type" = None.
Proof.
  intros He Hm. unfold QueryGenerator.validate_and_improve_query.
  rewrite bind_modify, bind_gets.
  destruct (wait_for_rate_limit_spec env
              (emit (Call "validate_and_improve_query" [sql; format_opt err]) w))
    as (w1 & Hw1 & Hreq & _).
  unfold try_except. rewrite (bind_returns _ _ _ _ _ Hw1).
  unfold generate_content, gets, modify, bind. simpl.
  rewrite Hreq. simpl. rewrite He. unfold raise. rewrite Hm.
  eexists. split; [reflexivity|]. by simplify_map_eq.
Qed.

End Shapes.

(** X1. [generate_sql] never raises. Whatever the backend does (an
    exception, a response without text, a text that does not decode, a
    document of the wrong shape), it returns a dictionary, of one of two
    shapes: a success with a text under [sql] and under [explanation]
    and no error entry; or a failure with [None] under [sql] and
    [explanation] and an error text. *)
Theorem generate_sql_always_returns_a_result env q w :
  exists d, fst (QueryGenerator.generate_sql env q w) = inr d /\
    ((d !! "success" = Some (VBool true) /\
      (exists sql explanation,
         d !! "sql" = Some (VStr sql) /\ strip sql = sql /\
         d !! "explanation" = Some (VStr explanation) /\
         strip explanation = explanation) /\
      d !! "error" = None /\ d !! "error_type" = None)
     \/
     (d !! "success" = Some (VBool false) /\
      d !! "sql" = Some VNone /\ d !! "explanation" = Some VNone /\
      exists msg, d !! "error" = Some (VStr msg))).
Proof.
  destruct (generate_sql_total env q w) as [d Hd]. exists d. split; [done|].
  destruct (QueryGenerator.generate_sql env q w) as [x w'] eqn:E.
  simpl in Hd. subst x. by apply (generate_sql_shape env q w d w').
Qed.

(** X2. [validate_and_improve_query] never raises. It returns a success
    whose [sql], [changes] and [warnings] entries are texts, the query
    without surrounding white space, or a failure with an error text
    and no [sql] entry at all. *)
Theorem corrector_always_returns_a_result env sql err w :
  exists d, fst (QueryGenerator.validate_and_improve_query env sql err w) = inr d /\
    ((d !! "success" = Some (VBool true) /\
      (exists sql' changes warnings,
         d !! "sql" = Some (VStr sql') /\ strip sql' = sql' /\
         d !! "changes" = Some (VStr changes) /\
         d !! "warnings" = Some (VStr warnings)) /\
      d !! "error" = None)
     \/
     (d !! "success" = Some (VBool false) /\ d !! "sql" = None /\
      exists msg, d !! "error" = Some (VStr msg))).
Proof.
  destruct (validate_total env sql err w) as [d Hd]. exists d. split; [done|].
  destruct (QueryGenerator.validate_and_improve_query env sql err w) as [x w'] eqn:E.
  simpl in Hd. subst x. by apply (validate_shape env sql err w d w').
Qed.

(** X3. When the completion request raises an error whose text holds
    neither the marker 429 nor the marker RESOURCE_EXHAUSTED, the
    Generator and the Corrector return a failure that carries the text
    of the error as it is, and no [error_type]. *)
Theorem other_errors_keep_their_text env q sql err w e :
  (forall model contents, gemini env (requests w) model contents = Raises e) ->
  contains (lit "429") (exn_text e) = false ->
  contains (lit "RESOURCE_EXHAUSTED") (exn_text e) = false ->
  (exists d, fst (QueryGenerator.generate_sql env q w) = inr d /\
     d !! "success" = Some (VBool false) /\
     d !! "error" = Some (VStr (exn_text e)) /\
     d !! "error_type" = None) /\
  (exists d, fst (QueryGenerator.validate_and_improve_query env sql err w) = inr d /\
     d !! "success" = Some (VBool false) /\
     d !! "error" = Some (VStr (exn_text e)) /\
     d !! "error_type" = None).
Proof.
  intros He H1 H2.
  assert (Hm : QueryGenerator.is_rate_limit (exn_text e) = false).
  { unfold QueryGenerator.is_rate_limit. by rewrite H1, H2. }
  split.
  - by apply (generate_sql_on_error env q w e).
  - by apply (validate_on_error env sql err w e).
Qed.

(* ================================================================== *)
(** * The fence stripping on arbitrary responses *)
(* ================================================================== *)

Section Pieces.
Implicit Types (s p t sep : str) (c : N).

Lemma starts_with_app sep s t :
  starts_with sep s = true -> starts_with sep (s ++ t) = true.
Proof.
  revert s. induction sep as [|a sep IH]; intros [|b s] H; simpl in *; try done.
  apply andb_true_iff in H as [-> H]. simpl. by apply IH.
Qed.

Lemma starts_with_self sep t : starts_with sep (sep ++ t) = true.
Proof. induction sep as [|a sep IH]; [done|]. simpl. by rewrite N.eqb_refl. Qed.

Lemma cut_self sep t : cut sep (sep ++ t) = Some ([], t).
Proof.
  destruct sep as [|a sep]; [by destruct t|].
  change ((a :: sep) ++ t) with (a :: (sep ++ t)). rewrite cut_unfold.
  change (a :: (sep ++ t)) with ((a :: sep) ++ t).
  by rewrite starts_with_self, drop_app_length.
Qed.

Lemma cut_None_nonempty sep s : cut sep s = None -> sep <> [].
Proof. intros H ->. by destruct s. Qed.

Lemma cut_None_app sep s t :
  cut sep (s ++ t) = None -> cut sep s = None /\ cut sep t = None.
Proof.
  induction s as [|c s IH]; intros H.
  - split; [|done]. pose proof (cut_None_nonempty _ _ H). by destruct sep.
  - change ((c :: s) ++ t) with (c :: (s ++ t)) in H.
    apply cut_None_inv in H as [Hc H]. destruct (IH H) as [Hs Ht].
    split; [|done]. rewrite cut_unfold, Hs.
    destruct (starts_with sep (c :: s)) eqn:E; [|done].
    apply (starts_with_app _ _ t) in E. simpl in *. congruence.
Qed.

(** The piece before the leftmost occurrence holds no occurrence. *)
Lemma cut_left_clean sep s a b :
  sep <> [] -> cut sep s = Some (a, b) -> cut sep a = None.
Proof.
  intros Hsep. revert a b. induction s as [|c r IH]; intros a b.
  - simpl. destruct (starts_with sep []) eqn:E; [|done].
    by apply starts_with_nil_r in E.
  - rewrite cut_unfold. destruct (starts_with sep (c :: r)) eqn:E.
    + intros [= <- _]. by destruct sep.
    + destruct (cut sep r) as [[a' b']|] eqn:Er; [|done].
      intros [= <- <-]. rewrite cut_unfold, (IH a' b') by done.
      destruct (starts_with sep (c :: a')) eqn:E'; [|done].
      apply cut_Some in Er. subst r.
      apply (starts_with_app _ _ (sep ++ b')) in E'. simpl in *. congruence.
Qed.

(** A text in which the first code point of the separator does not
    occur is passed over. *)
Lemma cut_skip c sep p t :
  c ∉ p ->
  cut (c :: sep) (p ++ t) =
  match cut (c :: sep) t with Some (a, b) => Some (p ++ a, b) | None => None end.
Proof.
  induction p as [|x p IH]; intros Hp.
  - simpl. by destruct (cut (c :: sep) t) as [[??]|].
  - apply not_elem_of_cons in Hp as [Hx Hp].
    change ((x :: p) ++ t) with (x :: (p ++ t)). rewrite cut_unfold, IH by done.
    simpl. destruct (N.eqb_spec c x); [congruence|]. simpl.
    by destruct (cut (c :: sep) t) as [[??]|].
Qed.

Lemma cut_absent c sep p : c ∉ p -> cut (c :: sep) p = None.
Proof.
  intros Hp. rewrite <- (app_nil_r p), cut_skip by done. reflexivity.
Qed.

Lemma starts_with_cons a sep b s :
  starts_with (a :: sep) (b :: s) = N.eqb a b && starts_with sep s.
Proof. reflexivity. Qed.

Lemma starts_with_absent c sep p : c ∉ p -> starts_with (c :: sep) p = false.
Proof.
  destruct p as [|x p]; [done|]. intros Hp.
  apply not_elem_of_cons in Hp as [Hx _]. simpl.
  by destruct (N.eqb_spec c x).
Qed.

Lemma lstrip_suffix s : exists p, s = p ++ lstrip s.
Proof.
  induction s as [|c s [p IH]]; [by exists []|]. simpl.
  destruct (is_space c); [|by exists []]. exists (c :: p). simpl. by f_equal.
Qed.

Lemma rstrip_prefix s : exists p, s = rstrip s ++ p.
Proof.
  unfold rstrip. destruct (lstrip_suffix (rev s)) as [p Hp].
  exists (rev p). rewrite <- rev_app_distr, <- Hp. by rewrite rev_involutive.
Qed.

Lemma cut_None_strip sep s : cut sep s = None -> cut sep (strip s) = None.
Proof.
  intros H. unfold strip.
  destruct (lstrip_suffix s) as [p Hp]. rewrite Hp in H.
  apply cut_None_app in H as [_ H].
  destruct (rstrip_prefix (lstrip s)) as [p' Hp']. rewrite Hp' in H.
  by apply cut_None_app in H as [H _].
Qed.

(** The first piece of a split holds no separator. *)
Lemma first_piece_clean sep s :
  sep <> [] ->
  cut sep (match cut sep s with Some (a, _) => a | None => s end) = None.
Proof.
  intros Hsep. destruct (cut sep s) as [[a b]|] eqn:E; [|done].
  by apply (cut_left_clean sep s a b).
Qed.

End Pieces.

Section Unfence.
Implicit Types (p t : str) (w : World).

(** Both branches of the fence stripping: the second piece of the
    split at the marker exists, and what is kept of it is stripped and
    free of fences. *)
Lemma unfence_branch sep t w a b :
  sep <> [] -> cut sep t = Some (a, b) ->
  exists s,
    (x <- item (split sep t) 1 ;;
     y <- item (split (lit "```") x) 0 ;;
     ret (strip y)) w = (inr s, w) /\
    contains (lit "```") s = false /\ strip s = s.
Proof.
  intros Hsep Hcut. unfold bind, item.
  rewrite (split_second _ _ _ _ Hsep Hcut). simpl.
  rewrite split_first. simpl. eexists. split; [reflexivity|].
  split; [|apply strip_idem].
  unfold contains. by rewrite cut_None_strip by (by apply first_piece_clean).
Qed.

Lemma unfence_total t w :
  exists s, QueryGenerator.unfence t w = (inr s, w) /\
    (contains (lit "```") t = false -> s = t) /\
    (contains (lit "```") t = true ->
     contains (lit "```") s = false /\ strip s = s).
Proof.
  unfold QueryGenerator.unfence.
  destruct (contains (lit "```json") t) eqn:Etag.
  - unfold contains in Etag.
    destruct (cut (lit "```json") t) as [[a b]|] eqn:Hcut; [|done].
    destruct (unfence_branch _ t w a b tag_nonempty Hcut) as (s & Hs & H1 & H2).
    exists s. split; [done|]. split; [|done].
    intros H. apply no_fence_no_tag in H. congruence.
  - destruct (contains (lit "```") t) eqn:Efence.
    + unfold contains in Efence.
      destruct (cut (lit "```") t) as [[a b]|] eqn:Hcut; [|done].
      destruct (unfence_branch _ t w a b fence_nonempty Hcut) as (s & Hs & H1 & H2).
      exists s. split; [done|]. by split.
    + exists t. by split.
Qed.

(** The closing fence followed by a text without backquotes: the tag
    occurs there only when that text starts with [json]. *)
Lemma cut_tag_closing after :
  96%N ∉ after -> starts_with (lit "json") after = false ->
  cut (lit "```json") (lit "```" ++ after) = None.
Proof.
  intros Hq Hj.
  change (lit "```" ++ after) with (96 :: 96 :: 96 :: after)%N.
  change (lit "```json") with (96 :: 96 :: 96 :: lit "json")%N.
  generalize dependent (lit "json"). intros j Hj.
  rewrite !cut_unfold, (cut_absent 96%N _ after Hq).
  rewrite !starts_with_cons, !N.eqb_refl, Hj.
  rewrite !(starts_with_absent 96%N _ after Hq). reflexivity.
Qed.

Lemma cut_fence_block payload after :
  contains (lit "```") payload = false ->
  cut (lit "```") (10%N :: payload ++ 10%N :: lit "```" ++ after)
  = Some (10%N :: payload ++ [10%N], after).
Proof.
  intros H.
  rewrite cut_cons_other; [|apply newline_not_in_fence|done].
  rewrite (cut_app_other 10%N (lit "```") payload (lit "```" ++ after));
    [|apply newline_not_in_fence|done|by apply no_fence_cut].
  by rewrite cut_self.
Qed.

(** The piece the tagged branch keeps of a block. *)
Lemma tagged_piece payload after :
  contains (lit "```") payload = false -> 96%N ∉ after ->
  match cut (lit "```")
          (match cut (lit "```json") (10%N :: payload ++ 10%N :: lit "```" ++ after) with
           | Some (a, _) => a
           | None => 10%N :: payload ++ 10%N :: lit "```" ++ after
           end) with
  | Some (a, _) => a
  | None => match cut (lit "```json") (10%N :: payload ++ 10%N :: lit "```" ++ after) with
            | Some (a, _) => a
            | None => 10%N :: payload ++ 10%N :: lit "```" ++ after
            end
  end = 10%N :: payload ++ [10%N].
Proof.
  intros Hp Hq.
  rewrite (cut_cons_other 10%N (lit "```json")); [|apply newline_not_in_tag|done].
  rewrite (cut_app_other 10%N (lit "```json") payload (lit "```" ++ after));
    [|apply newline_not_in_tag|done|by apply no_fence_no_tag].
  destruct (starts_with (lit "json") after) eqn:Hj.
  - apply starts_with_split in Hj. rewrite Hj.
    rewrite app_assoc. change (lit "```" ++ lit "json") with (lit "```json").
    rewrite cut_self. by rewrite cut_fence_inner.
  - rewrite cut_tag_closing by done. by rewrite cut_fence_block.
Qed.

Lemma unfence_prose_json before after payload w :
  96%N ∉ before -> 96%N ∉ after -> contains (lit "```") payload = false ->
  QueryGenerator.unfence (before ++ fence_json payload ++ after) w
  = (inr (strip payload), w).
Proof.
  intros Hb Ha Hp. unfold QueryGenerator.unfence.
  assert (Hcut : cut (lit "```json") (before ++ fence_json payload ++ after)
                 = Some (before, 10%N :: payload ++ 10%N :: lit "```" ++ after)).
  { change (lit "```json") with (96 :: lit "``json")%N.
    rewrite cut_skip by done.
    unfold fence_json. change (96 :: lit "``json")%N with (lit "```json").
    rewrite <- !app_assoc, cut_self. by rewrite app_nil_r. }
  unfold contains at 1. rewrite Hcut.
  unfold bind, item.
  rewrite (split_second _ _ _ _ tag_nonempty Hcut). cbv beta iota delta [ret].
  rewrite split_first. cbv beta iota delta [ret].
  rewrite tagged_piece by done. by rewrite strip_between_newlines.
Qed.

Lemma unfence_prose_plain before after payload w :
  96%N ∉ before -> 96%N ∉ after -> contains (lit "```") payload = false ->
  starts_with (lit "json") after = false ->
  QueryGenerator.unfence (before ++ fence_plain payload ++ after) w
  = (inr (strip payload), w).
Proof.
  intros Hb Ha Hp Hj. unfold QueryGenerator.unfence.
  assert (Htag : cut (lit "```json") (before ++ fence_plain payload ++ after) = None).
  { change (lit "```json") with (96 :: lit "``json")%N.
    rewrite cut_skip by done.
    change (96 :: lit "``json")%N with (lit "```json").
    unfold fence_plain. rewrite <- !app_assoc. cbn [app].
    rewrite (cut_app_other 10%N (lit "```json") (lit "```")
               (payload ++ 10%N :: lit "```" ++ after));
      [|apply newline_not_in_tag|done|done].
    rewrite (cut_app_other 10%N (lit "```json") payload (lit "```" ++ after));
      [|apply newline_not_in_tag|done|by apply no_fence_no_tag].
    by rewrite cut_tag_closing. }
  assert (Hcut : cut (lit "```") (before ++ fence_plain payload ++ after)
                 = Some (before, 10%N :: payload ++ 10%N :: lit "```" ++ after)).
  { change (lit "```") with (96 :: lit "``")%N at 1.
    rewrite cut_skip by done.
    unfold fence_plain. change (96 :: lit "``")%N with (lit "```").
    rewrite <- !app_assoc, cut_self. by rewrite app_nil_r. }
  unfold contains. rewrite Htag, Hcut.
  unfold bind, item.
  rewrite (split_second _ _ _ _ fence_nonempty Hcut). cbv beta iota delta [ret].
  rewrite split_first. cbv beta iota delta [ret].
  rewrite cut_fence_block by done. by rewrite cut_fence_inner, strip_between_newlines.
Qed.

End Unfence.

(** X4. The fence stripping never fails: for every response text the
    indexing of the split pieces is in range and a text is produced. A
    response without a run of three backquotes is passed on as it is;
    otherwise the text passed on is stripped and holds no such run. *)
Theorem fence_stripping_never_fails t w :
  exists s, QueryGenerator.unfence t w = (inr s, w) /\
    (contains (lit "```") t = false -> s = t) /\
    (contains (lit "```") t = true ->
     contains (lit "```") s = false /\ strip s = s).
Proof. apply unfence_total. Qed.

(** X5. Prose around a fenced block is ignored. When the response is
    a block (its payload without a run of three backquotes) between a
    text before and a text after that hold no backquote, the stripped
    payload alone is passed to the decoder; for the fence without the
    json tag, provided the text after the block does not start with
    [json]. *)
Theorem prose_around_a_fenced_block_is_ignored before after payload w :
  96%N ∉ before -> 96%N ∉ after -> contains (lit "```") payload = false ->
  QueryGenerator.unfence (before ++ fence_json payload ++ after) w
  = (inr (strip payload), w) /\
  (starts_with (lit "json") after = false ->
   QueryGenerator.unfence (before ++ fence_plain payload ++ after) w
   = (inr (strip payload), w)).
Proof.
  intros Hb Ha Hp. split.
  - by apply unfence_prose_json.
  - intros Hj. by apply unfence_prose_plain.
Qed.

(* ================================================================== *)
(** * The two throttles *)
(* ================================================================== *)

Section Waits.
Context (env : Env).

Lemma sleeps_asked_app l1 l2 :
  sleeps_asked (l1 ++ l2) = sleeps_asked l1 ++ sleeps_asked l2.
Proof. apply omap_app. Qed.

(** The world the throttle of the query generator leaves. *)
Lemma wait_query_world w :
  let elapsed := (clock w - last_request_time (query_gen w))%Q in
  let wait_time := (min_delay (query_gen w) - elapsed)%Q in
  QueryGenerator._wait_for_rate_limit env w
  = (inr tt,
     if Qltb elapsed (min_delay (query_gen w)) then
       let t := (clock w + wait_time + seconds (oversleep env (sleeps w)))%Q in
       set_query_gen (QueryGenerator.set_last_request_time t (query_gen w))
         (set_sleeps (S (sleeps w)) (set_clock t (emit (Sleep (clock w) wait_time) w)))
     else
       set_query_gen (QueryGenerator.set_last_request_time (clock w) (query_gen w)) w).
Proof.
  cbv zeta.
  unfold QueryGenerator._wait_for_rate_limit, bind, time_time, gets, modify.
  destruct (Qltb (clock w - last_request_time (query_gen w)) (min_delay (query_gen w)))
    eqn:E; [|reflexivity].
  apply Qltb_lt in E. unfold time_sleep.
  destruct (Qltb _ 0) eqn:E0; [|reflexivity].
  apply Qltb_lt in E0. lra.
Qed.

(** The same for the summary generator. *)
Lemma wait_summary_world w :
  let elapsed := (clock w - sg_last_request_time (summary_gen w))%Q in
  let wait_time := (sg_min_delay (summary_gen w) - elapsed)%Q in
  SummaryGenerator._wait_for_rate_limit env w
  = (inr tt,
     if Qltb elapsed (sg_min_delay (summary_gen w)) then
       let t := (clock w + wait_time + seconds (oversleep env (sleeps w)))%Q in
       set_summary_gen (SummaryGenerator.set_last_request_time t (summary_gen w))
         (set_sleeps (S (sleeps w)) (set_clock t (emit (Sleep (clock w) wait_time) w)))
     else
       set_summary_gen (SummaryGenerator.set_last_request_time (clock w) (summary_gen w)) w).
Proof.
  cbv zeta.
  unfold SummaryGenerator._wait_for_rate_limit, bind, time_time, gets, modify.
  destruct (Qltb (clock w - sg_last_request_time (summary_gen w))
              (sg_min_delay (summary_gen w))) eqn:E; [|reflexivity].
  apply Qltb_lt in E. unfold time_sleep.
  destruct (Qltb _ 0) eqn:E0; [|reflexivity].
  apply Qltb_lt in E0. lra.
Qed.

(** The world a call of the Corrector leaves: the entry is logged, the
    throttle runs, one request is issued. *)
Lemma validate_world sql err w :
  let w0 := emit (Call "validate_and_improve_query" [sql; format_opt err]) w in
  let w1 := snd (QueryGenerator._wait_for_rate_limit env w0) in
  snd (QueryGenerator.validate_and_improve_query env sql err w)
  = snd (generate_content env (model_id (query_gen w))
           (QueryGenerator.review_prompt (query_gen w) sql err) w1).
Proof.
  cbv zeta. unfold QueryGenerator.validate_and_improve_query.
  rewrite bind_modify, bind_gets, snd_try_pure.
  2: { intros e. apply pure_intro. intros w0. walk_pure. }
  rewrite (bind_returns _ _ _ tt
             (snd (QueryGenerator._wait_for_rate_limit env
                     (emit (Call "validate_and_improve_query" [sql; format_opt err]) w)))).
  2: { rewrite wait_query_world. reflexivity. }
  rewrite snd_bind_pure; [reflexivity|].
  intros response. apply pure_intro. intros w0. walk_pure.
Qed.

(** The world a summary request leaves, when the prompt was built. *)
Lemma summary_world ctx df a w p :
  summary_prompt env ctx df a = inr p ->
  let w1 := snd (SummaryGenerator._wait_for_rate_limit env w) in
  snd (SummaryGenerator.generate_executive_summary env ctx df a w)
  = snd (generate_content env (sg_model_id (summary_gen w)) p w1).
Proof.
  intros Hp. cbv zeta. unfold SummaryGenerator.generate_executive_summary.
  rewrite Hp. unfold lift. rewrite (bind_returns _ _ w p w) by reflexivity.
  rewrite bind_gets, snd_try_pure.
  2: { intros e. apply pure_intro. intros w0. walk_pure. }
  rewrite (bind_returns _ _ _ tt
             (snd (SummaryGenerator._wait_for_rate_limit env w))).
  2: { rewrite wait_summary_world. reflexivity. }
  rewrite snd_bind_pure; [reflexivity|].
  intros response. apply pure_intro. intros w0. walk_pure.
Qed.

Lemma summary_spec ctx df a w p :
  summary_prompt env ctx df a = inr p ->
  exists t,
    let w' := snd (SummaryGenerator.generate_executive_summary env ctx df a w) in
    request_times (log w') = request_times (log w) ++ [t] /\
    sg_last_request_time (summary_gen w') = t /\
    sg_min_delay (summary_gen w') = sg_min_delay (summary_gen w) /\
    (sg_last_request_time (summary_gen w) + sg_min_delay (summary_gen w) <= t)%Q /\
    ((clock w - sg_last_request_time (summary_gen w) < sg_min_delay (summary_gen w))%Q ->
     (clock w + (sg_min_delay (summary_gen w)
                 - (clock w - sg_last_request_time (summary_gen w))) <= t)%Q).
Proof.
  intros Hp. cbv zeta. rewrite (summary_world _ _ _ _ _ Hp).
  rewrite generate_content_world, wait_summary_world. cbv zeta.
  destruct (Qltb _ _) eqn:E.
  - apply Qltb_lt in E. eexists.
    cbn [snd log summary_gen set_requests set_clock emit set_log clock set_summary_gen
         set_sleeps SummaryGenerator.set_last_request_time sg_last_request_time
         sg_min_delay].
    rewrite !request_times_app. cbn [request_times]. rewrite ?app_nil_r.
    split; [reflexivity|]. split; [reflexivity|]. split; [reflexivity|].
    pose proof (seconds_nonneg (oversleep env (sleeps w))).
    split; [lra|]. intros _. lra.
  - apply Qltb_ge in E. eexists.
    cbn [snd log summary_gen set_requests set_clock emit set_log clock set_summary_gen
         set_sleeps SummaryGenerator.set_last_request_time sg_last_request_time
         sg_min_delay].
    rewrite !request_times_app. cbn [request_times]. rewrite ?app_nil_r.
    split; [reflexivity|]. split; [reflexivity|]. split; [reflexivity|].
    split; [lra|]. intros H. lra.
Qed.

End Waits.

(** X6. A call of the Corrector sleeps at most once: when less than
    [min_delay] has elapsed since the time stamp of the generator
    object it asks [time.sleep] for exactly the missing time, and
    otherwise it does not sleep at all; its request is issued at the
    time of the call or, after a sleep, when the sleep ends. *)
Theorem corrector_sleeps_for_the_missing_time_only env sql err w :
  let w' := snd (QueryGenerator.validate_and_improve_query env sql err w) in
  let elapsed := (clock w - last_request_time (query_gen w))%Q in
  let wait_time := (min_delay (query_gen w) - elapsed)%Q in
  sleeps_asked (log w')
  = sleeps_asked (log w)
    ++ (if Qltb elapsed (min_delay (query_gen w)) then [wait_time] else []) /\
  request_times (log w')
  = request_times (log w)
    ++ [if Qltb elapsed (min_delay (query_gen w))
        then (clock w + wait_time + seconds (oversleep env (sleeps w)))%Q
        else clock w].
Proof.
  cbv zeta. rewrite validate_world, generate_content_world, wait_query_world.
  cbv zeta.
  cbn [clock query_gen sleeps emit set_log log].
  destruct (Qltb _ _);
    cbn [snd log set_requests set_clock emit set_log clock set_query_gen set_sleeps];
    rewrite !sleeps_asked_app, !request_times_app; cbn; by rewrite !app_nil_r.
Qed.

(** X7. Two consecutive summary requests of a [SummaryGenerator] whose
    minimum interval is 5, the second call made in any world in which
    the generator object is as the first call left it: the second
    request is issued at least 5 after the first one. The prompts of
    both calls are assumed to build (they are put together before the
    throttle runs). *)
Theorem summary_requests_are_spaced env ctx1 df1 a1 ctx2 df2 a2 w w1' p1 p2 :
  summary_prompt env ctx1 df1 a1 = inr p1 ->
  summary_prompt env ctx2 df2 a2 = inr p2 ->
  sg_min_delay (summary_gen w) = 5%Q ->
  summary_gen w1'
  = summary_gen (snd (SummaryGenerator.generate_executive_summary env ctx1 df1 a1 w)) ->
  let w1 := snd (SummaryGenerator.generate_executive_summary env ctx1 df1 a1 w) in
  let w2 := snd (SummaryGenerator.generate_executive_summary env ctx2 df2 a2 w1') in
  exists t1 t2,
    request_times (log w1) = request_times (log w) ++ [t1] /\
    request_times (log w2) = request_times (log w1') ++ [t2] /\
    (t1 + 5 <= t2)%Q.
Proof.
  intros Hp1 Hp2 Hd Hsame. cbv zeta.
  destruct (summary_spec env ctx1 df1 a1 w p1 Hp1) as (t1 & Hlog1 & Hlast1 & Hd1 & _).
  cbv zeta in *.
  destruct (summary_spec env ctx2 df2 a2 w1' p2 Hp2) as (t2 & Hlog2 & _ & _ & Hgap & _).
  cbv zeta in *.
  exists t1, t2. rewrite Hsame, Hd1, Hd, Hlast1 in *. done.
Qed.

(* ================================================================== *)
(** * A run without sleeps *)
(* ================================================================== *)

Section Leads.
Context {A B : Type}.

Lemma leads_preserves (I : World -> Prop) (m : M A) : preserves I m -> leads I I m.
Proof. done. Qed.

Lemma leads_weaken (P P' Q Q' : World -> Prop) (m : M A) :
  (forall w, P' w -> P w) -> (forall w, Q w -> Q' w) -> leads P Q m -> leads P' Q' m.
Proof. intros HP HQ H w Hw. apply HQ, H, HP, Hw. Qed.

Lemma leads_bind (P R Q : World -> Prop) (m : M A) (k : A -> M B) :
  leads P R m -> (forall w, R w -> Q w) -> (forall a, leads R Q (k a)) ->
  leads P Q (bind m k).
Proof.
  intros Hm HR Hk w Hw. unfold bind. specialize (Hm w Hw).
  destruct (m w) as [[e|a] w']; simpl in *; [by apply HR|]. by apply Hk.
Qed.

End Leads.

Section Rested.
Context (env : Env) (n : nat).


Lemma rested_weaken1 w : (both_rested n) w -> (summary_still_rested n) w.
Proof. unfold both_rested, summary_still_rested. tauto. Qed.

Lemma rested_weaken2 w : (summary_still_rested n) w -> (unslept n) w.
Proof. unfold summary_still_rested, unslept. tauto. Qed.

(** An update that leaves the sleeps and the generator objects alone
    and does not turn the clock back. *)
Ltac later :=
  let w0 := fresh "w" in let H := fresh "H" in
  intros w0 H; unfold both_rested, summary_still_rested, unslept, rested, summary_rested in *;
  cbn [sleeps clock query_gen summary_gen set_requests set_statements set_clock
       set_files set_log emit];
  repeat match goal with
         | |- context [seconds ?d] =>
             lazymatch goal with
             | _ : (0 <= seconds d)%Q |- _ => fail
             | _ => pose proof (seconds_nonneg d)
             end
         end;
  repeat match goal with
         | H : _ /\ _ |- _ => destruct H
         | |- _ /\ _ => split
         end; try assumption; try lra.

Lemma generate_sql_rested q : preserves (both_rested n) (QueryGenerator.generate_sql env q).
Proof.
  unfold QueryGenerator.generate_sql.
  descend later.
Qed.

Lemma execute_query_rested1 sql : preserves (both_rested n) (AutomatedEDA.execute_query env sql).
Proof. unfold AutomatedEDA.execute_query. descend later. Qed.

Lemma execute_query_rested2 sql : preserves (summary_still_rested n) (AutomatedEDA.execute_query env sql).
Proof. unfold AutomatedEDA.execute_query. descend later. Qed.

(** A rested Corrector does not sleep. *)
Lemma validate_rested sql err :
  leads (both_rested n) (summary_still_rested n) (QueryGenerator.validate_and_improve_query env sql err).
Proof.
  intros w (Hs & Hq & Hsum). rewrite validate_world, generate_content_world.
  rewrite wait_query_world. cbv zeta.
  replace (Qltb _ _) with false.
  2: { symmetry. apply Qltb_ge. unfold rested in Hq. simpl. lra. }
  unfold summary_still_rested, summary_rested in *. simpl.
  pose proof (seconds_nonneg (gemini_latency env (requests w))).
  split; [done|lra].
Qed.

Lemma generate_eda_report_rested df ctx name :
  preserves (summary_still_rested n) (AutomatedEDA.generate_eda_report env df ctx name).
Proof.
  unfold AutomatedEDA.generate_eda_report, AutomatedEDA.analyze_results,
    AutomatedEDA.create_visualizations, AutomatedEDA.export_for_tableau.
  descend later.
Qed.

(** Neither does a rested summary generator. *)
Lemma summary_rested_leads ctx df a :
  leads (summary_still_rested n) (unslept n) (SummaryGenerator.generate_executive_summary env ctx df a).
Proof.
  intros w (Hs & Hsum).
  destruct (summary_prompt env ctx df a) as [e|p] eqn:Hp.
  - unfold SummaryGenerator.generate_executive_summary. rewrite Hp. exact Hs.
  - rewrite (summary_world env ctx df a w p Hp), generate_content_world.
    rewrite wait_summary_world. cbv zeta.
    replace (Qltb _ _) with false; [exact Hs|].
    symmetry. apply Qltb_ge. unfold summary_rested in Hsum. lra.
Qed.

Lemma report_steps_rested q results ts sql df :
  leads (summary_still_rested n) (unslept n) (AnalyticsWorkflow.report_steps env q results ts sql df).
Proof.
  unfold AnalyticsWorkflow.report_steps.
  destruct df as [df|]; [|intros w Hw; by apply rested_weaken2].
  cbv zeta.
  apply (leads_bind (summary_still_rested n) (summary_still_rested n) (unslept n)); [apply generate_eda_report_rested
                               |apply rested_weaken2|intros eda].
  apply (leads_bind (summary_still_rested n) (unslept n) (unslept n)); [apply summary_rested_leads|done|intros summary].
  apply leads_preserves.
  unfold SummaryGenerator.generate_detailed_report, SummaryGenerator.save_report.
  descend later.
Qed.

Lemma execution_steps_rested q results ts sql :
  leads (both_rested n) (unslept n) (AnalyticsWorkflow.execution_steps env q results ts sql).
Proof.
  assert (H13 : forall w, (both_rested n) w -> (unslept n) w)
    by (intros w Hw; by apply rested_weaken2, rested_weaken1).
  assert (Hreport : forall results' sql' df,
    leads (both_rested n) (unslept n) (AnalyticsWorkflow.report_steps env q results' ts sql' df)).
  { intros. apply (leads_weaken (summary_still_rested n) (both_rested n) (unslept n) (unslept n));
      [apply rested_weaken1|done|apply report_steps_rested]. }
  unfold AnalyticsWorkflow.execution_steps.
  apply (leads_bind (both_rested n) (both_rested n) (unslept n)); [apply execute_query_rested1|done|intros [df error]].
  destruct (AnalyticsWorkflow.is_error error); [|apply Hreport].
  apply (leads_bind (both_rested n) (summary_still_rested n) (unslept n)); [apply validate_rested|apply rested_weaken2|].
  intros fix_result.
  apply (leads_bind (summary_still_rested n) (summary_still_rested n) (unslept n)); [apply leads_preserves; walk_pure
                               |apply rested_weaken2|intros ok].
  destruct (truthy ok); [|intros w Hw; by apply rested_weaken2].
  apply (leads_bind (summary_still_rested n) (summary_still_rested n) (unslept n)); [apply leads_preserves; walk_pure
                               |apply rested_weaken2|intros changes].
  apply (leads_bind (summary_still_rested n) (summary_still_rested n) (unslept n)); [apply leads_preserves; walk_pure
                               |apply rested_weaken2|intros u].
  apply (leads_bind (summary_still_rested n) (summary_still_rested n) (unslept n)); [apply leads_preserves; walk_pure
                               |apply rested_weaken2|intros sql'].
  apply (leads_bind (summary_still_rested n) (summary_still_rested n) (unslept n)); [apply execute_query_rested2
                               |apply rested_weaken2|intros [df' error']].
  destruct (AnalyticsWorkflow.is_error error'); [intros w Hw; by apply rested_weaken2|].
  apply report_steps_rested.
Qed.

Lemma run_analysis_rested q save_sql :
  leads (both_rested n) (unslept n) (AnalyticsWorkflow.run_analysis env q save_sql).
Proof.
  assert (H13 : forall w, (both_rested n) w -> (unslept n) w)
    by (intros w Hw; by apply rested_weaken2, rested_weaken1).
  unfold AnalyticsWorkflow.run_analysis.
  apply (leads_bind (both_rested n) (both_rested n) (unslept n)); [apply leads_preserves; walk_pure|done|intros ts].
  cbv zeta.
  apply (leads_bind (both_rested n) (both_rested n) (unslept n)); [apply generate_sql_rested|done|intros query_result].
  apply (leads_bind (both_rested n) (both_rested n) (unslept n)); [apply leads_preserves; walk_pure|done|intros ok].
  destruct (negb (truthy ok)); [intros w Hw; by apply H13|].
  apply (leads_bind (both_rested n) (both_rested n) (unslept n)); [apply leads_preserves; walk_pure|done|intros sql].
  apply (leads_bind (both_rested n) (both_rested n) (unslept n)); [apply leads_preserves; walk_pure|done|intros explanation].
  apply (leads_bind (both_rested n) (both_rested n) (unslept n)); [apply leads_preserves; walk_pure|done|intros u1].
  apply (leads_bind (both_rested n) (both_rested n) (unslept n)); [apply leads_preserves; walk_pure|done|intros u2].
  apply (leads_bind (both_rested n) (both_rested n) (unslept n)); [|done|intros results; apply execution_steps_rested].
  apply leads_preserves. destruct save_sql; descend later.
Qed.

End Rested.

(** X8. A run that starts when the last request of each generator
    object is at least its minimum interval old (so the first run of a
    workflow object just built, whose time stamps are 0) never calls
    [time.sleep]: the completion requests of the run, up to three, are
    issued with no enforced delay between them, each throttle knowing
    only the requests of its own object. *)
Theorem run_of_a_rested_workflow_never_sleeps env q save_sql w :
  rested w -> summary_rested w ->
  sleeps (snd (AnalyticsWorkflow.run_analysis env q save_sql w)) = sleeps w.
Proof.
  intros Hq Hs. by apply (run_analysis_rested env (sleeps w) q save_sql w).
Qed.

(* ================================================================== *)
(** * The files of the EDA report *)
(* ================================================================== *)

Section Reports.
Context (env : Env).

Lemma generate_eda_report_files df ctx name w a :
  fst (AutomatedEDA.generate_eda_report env df ctx name w) = inr a ->
  let w' := snd (AutomatedEDA.generate_eda_report env df ctx name w) in
  let report_path := path_join AutomatedEDA.output_dir (name ++ lit "_report.txt") in
  a_report_file a = Some report_path /\
  (forall p, p ∈ a_visualization_files a ++ a_tableau_files a ++ [report_path] ->
             is_Some (files w' !! p)) /\
  a_row_count a = length (df_rows df) /\
  a_column_count a = length (df_columns df) /\
  a_columns a = df_columns df /\
  a_query_context a = ctx /\
  length (a_visualization_files a) <= 2 /\
  (a_tableau_files a = [] \/ length (a_tableau_files a) = 2).
Proof.
  cbv zeta.
  unfold AutomatedEDA.generate_eda_report, AutomatedEDA.analyze_results,
    AutomatedEDA.create_visualizations, AutomatedEDA.export_for_tableau,
    datetime_now, library_write, write_file, try_except, bind, gets, modify, lift,
    ret, raise.
  destruct (profile env df) as [e|prof]; [done|].
  destruct (numeric_columns env df) as [|num nums];
    [|destruct (savefig env "distributions" df) as [e1|png1]; [done|];
      destruct (categorical_columns env df) as [|cat cats];
      [|destruct (Nat.leb _ 15);
        [destruct (savefig env "top_categories" df) as [e2|png2]; [done|]|]]];
    (destruct (to_csv env df) as [e3|csv];
      [|destruct (to_excel env df) as [e4|xlsx]]);
    (destruct (encoded_prefix _) as [written [bad|]]; [done|]);
    cbn [fst snd]; intros [= <-]; cbn [a_report_file a_visualization_files
      a_tableau_files a_row_count a_column_count a_columns a_query_context
      AutomatedEDA.with_files files set_files emit set_log length app];
    (split; [reflexivity|]); (split; [|repeat split; auto with lia]);
    intros x Hx; rewrite !lookup_insert_is_Some';
    repeat (apply elem_of_cons in Hx as [->|Hx]; [tauto|]);
    by apply elem_of_nil in Hx.
Qed.

Lemma export_for_tableau_outcome df filename w :
  let csv_path := path_join AutomatedEDA.output_dir (filename ++ lit ".csv") in
  let excel_path := path_join AutomatedEDA.output_dir (filename ++ lit ".xlsx") in
  exists fs w',
    AutomatedEDA.export_for_tableau env df filename w = (inr fs, w') /\
    match to_csv env df, to_excel env df with
    | inr csv, inr xlsx =>
        fs = [csv_path; excel_path] /\
        files w' = <[excel_path := xlsx]> (<[csv_path := csv]> (files w))
    | inr csv, inl _ => fs = [] /\ files w' = <[csv_path := csv]> (files w)
    | inl _, _ => fs = [] /\ files w' = files w
    end.
Proof.
  cbv zeta.
  unfold AutomatedEDA.export_for_tableau, library_write, try_except, bind, modify, lift,
    ret, raise.
  destruct (to_csv env df) as [e|csv]; [by eexists _, _|].
  destruct (to_excel env df) as [e|xlsx]; by eexists _, _.
Qed.

Lemma wait_summary_requests w :
  requests (snd (SummaryGenerator._wait_for_rate_limit env w)) = requests w.
Proof. rewrite wait_summary_world. cbv zeta. by destruct (Qltb _ _). Qed.

Lemma wait_summary_model w :
  sg_model_id (summary_gen (snd (SummaryGenerator._wait_for_rate_limit env w)))
  = sg_model_id (summary_gen w).
Proof. rewrite wait_summary_world. cbv zeta. by destruct (Qltb _ _). Qed.

(** Once its prompt is built, the summary generator returns. *)
Lemma summary_returns ctx df a w p :
  summary_prompt env ctx df a = inr p ->
  exists r, fst (SummaryGenerator.generate_executive_summary env ctx df a w) = inr r.
Proof.
  intros Hp. unfold SummaryGenerator.generate_executive_summary.
  rewrite Hp. unfold lift. rewrite (bind_returns _ _ w p w) by reflexivity.
  rewrite bind_gets. unfold try_except.
  destruct (bind _ _ w) as [[e|r] w1]; [|by exists r].
  destruct (QueryGenerator.is_rate_limit _); by eexists.
Qed.

Lemma summary_on_error ctx df a w p e :
  summary_prompt env ctx df a = inr p ->
  gemini env (requests w) (sg_model_id (summary_gen w)) p = Raises e ->
  fst (SummaryGenerator.generate_executive_summary env ctx df a w)
  = inr (Some (if QueryGenerator.is_rate_limit (exn_text e)
               then SummaryGenerator.rate_limit_summary
               else lit "Error generating summary: " ++ exn_text e)).
Proof.
  intros Hp He. unfold SummaryGenerator.generate_executive_summary.
  rewrite Hp. unfold lift. rewrite (bind_returns _ _ w p w) by reflexivity.
  rewrite bind_gets. unfold try_except.
  rewrite (bind_returns _ _ _ tt (snd (SummaryGenerator._wait_for_rate_limit env w))).
  2: { rewrite wait_summary_world. reflexivity. }
  unfold generate_content, gets, modify, bind. cbn [fst snd].
  rewrite wait_summary_requests, He. unfold raise.
  by destruct (QueryGenerator.is_rate_limit _).
Qed.

Lemma rate_limit_summary_prefix :
  starts_with (lit "Error generating summary: ") SummaryGenerator.rate_limit_summary = true.
Proof. vm_compute. reflexivity. Qed.

End Reports.

(** X9. The files an EDA report names have been written. When
    [generate_eda_report] returns, its report path is
    [<output_dir>/<name>_report.txt]; this file, every visualization
    file and every Tableau file listed in the result exists; there are
    at most two visualization files and either no Tableau file or two;
    the row and column counts are those of the table. *)
Theorem eda_report_names_the_files_it_wrote env df ctx name w a :
  fst (AutomatedEDA.generate_eda_report env df ctx name w) = inr a ->
  let w' := snd (AutomatedEDA.generate_eda_report env df ctx name w) in
  let report_path := path_join AutomatedEDA.output_dir (name ++ lit "_report.txt") in
  a_report_file a = Some report_path /\
  (forall p, p ∈ a_visualization_files a ++ a_tableau_files a ++ [report_path] ->
             is_Some (files w' !! p)) /\
  a_row_count a = length (df_rows df) /\
  a_column_count a = length (df_columns df) /\
  a_columns a = df_columns df /\
  a_query_context a = ctx /\
  length (a_visualization_files a) <= 2 /\
  (a_tableau_files a = [] \/ length (a_tableau_files a) = 2).
Proof. apply generate_eda_report_files. Qed.

(** X10. [export_for_tableau] never raises. It returns the two paths
    when both exports succeed, and the empty list otherwise; when the
    CSV export succeeded and the Excel export failed, the CSV file
    stays written although the empty list is returned. *)
Theorem export_for_tableau_never_raises env df filename w :
  let csv_path := path_join AutomatedEDA.output_dir (filename ++ lit ".csv") in
  let excel_path := path_join AutomatedEDA.output_dir (filename ++ lit ".xlsx") in
  exists fs w',
    AutomatedEDA.export_for_tableau env df filename w = (inr fs, w') /\
    match to_csv env df, to_excel env df with
    | inr csv, inr xlsx =>
        fs = [csv_path; excel_path] /\
        files w' = <[excel_path := xlsx]> (<[csv_path := csv]> (files w))
    | inr csv, inl _ => fs = [] /\ files w' = <[csv_path := csv]> (files w)
    | inl _, _ => fs = [] /\ files w' = files w
    end.
Proof. apply export_for_tableau_outcome. Qed.

(** X11. Once its prompt is built, [generate_executive_summary] never
    raises: when the completion request raises, the error is returned
    as the summary, a text that starts with [Error generating summary: ]
    and goes on with the text of the error, or with the fixed advice
    when that text holds a rate-limit marker. *)
Theorem summary_failures_are_returned_as_text env ctx df a w p :
  summary_prompt env ctx df a = inr p ->
  (exists r, fst (SummaryGenerator.generate_executive_summary env ctx df a w) = inr r) /\
  forall e,
    gemini env (requests w) (sg_model_id (summary_gen w)) p = Raises e ->
    exists s,
      fst (SummaryGenerator.generate_executive_summary env ctx df a w) = inr (Some s) /\
      starts_with (lit "Error generating summary: ") s = true /\
      s = if QueryGenerator.is_rate_limit (exn_text e)
          then SummaryGenerator.rate_limit_summary
          else lit "Error generating summary: " ++ exn_text e.
Proof.
  intros Hp. split; [by apply (summary_returns env ctx df a w p)|].
  intros e He. eexists. split; [by apply (summary_on_error env ctx df a w p e)|].
  split; [|reflexivity].
  destruct (QueryGenerator.is_rate_limit _);
    [apply rate_limit_summary_prefix|apply starts_with_self].
Qed.

(* ================================================================== *)
(** * The course of a workflow run *)
(* ================================================================== *)

Section Course.
Context (env : Env).

Lemma run_analysis_without_generation q save_sql w d :
  fst (QueryGenerator.generate_sql env q w) = inr d ->
  d !! "success" = Some (VBool false) ->
  AnalyticsWorkflow.run_analysis env q save_sql w
  = (inr (<["success" := VBool false]>
          (<["query" := VStr q]>
          (<["timestamp" := VStr (strftime env (lit "%Y-%m-%d_%H-%M-%S") (clock w))]> ∅))),
     snd (QueryGenerator.generate_sql env q w)).
Proof.
  intros Hd Hok.
  assert (Hgen : QueryGenerator.generate_sql env q w
                 = (inr d, snd (QueryGenerator.generate_sql env q w))).
  { destruct (QueryGenerator.generate_sql env q w). simpl in *. by subst. }
  unfold AnalyticsWorkflow.run_analysis, datetime_now.
  rewrite bind_gets. rewrite (bind_returns _ _ _ _ _ Hgen).
  unfold getitem. rewrite Hok. reflexivity.
Qed.

End Course.

(** X12. A failed generation ends the run at once. The run returns the
    three entries it started with (no success, the question, the time
    stamp) and leaves the world as the Generator left it: one
    completion request has been made, no file has been written and no
    statement has been sent to the database. *)
Theorem failed_generation_ends_the_run env q save_sql w d :
  fst (QueryGenerator.generate_sql env q w) = inr d ->
  d !! "success" = Some (VBool false) ->
  let w' := snd (AnalyticsWorkflow.run_analysis env q save_sql w) in
  fst (AnalyticsWorkflow.run_analysis env q save_sql w)
  = inr (<["success" := VBool false]>
         (<["query" := VStr q]>
         (<["timestamp" := VStr (strftime env (lit "%Y-%m-%d_%H-%M-%S") (clock w))]> ∅)))
  /\ requests w' = S (requests w)
  /\ files w' = files w
  /\ statements w' = statements w
  /\ statements_sent (log w') = statements_sent (log w).
Proof.
  intros Hd Hok. cbv zeta.
  rewrite (run_analysis_without_generation env q save_sql w d Hd Hok).
  cbn [fst snd]. split; [reflexivity|].
  rewrite generate_sql_world, generate_content_world.
  cbn [requests files statements log set_requests set_clock emit set_log].
  unfold statements_sent. rewrite !omap_app. cbn. by rewrite !app_nil_r.
Qed.


(* ================================================================== *)
(** * Results and worlds together *)
(* ================================================================== *)

Section Ensures.
Context {A B : Type}.

Lemma ensures_ret (P : World -> Prop) (Q : A -> World -> Prop) (a : A) :
  (forall w, P w -> Q a w) -> ensures P (ret a) Q.
Proof. intros H w a' w' Hw [= <- <-]. by apply H. Qed.

Lemma ensures_raise (P : World -> Prop) (Q : A -> World -> Prop) (e : exn) :
  ensures P (raise e) Q.
Proof. by intros w a w' _. Qed.

Lemma ensures_bind (P : World -> Prop) (R : A -> World -> Prop)
    (Q : B -> World -> Prop) (m : M A) (k : A -> M B) :
  ensures P m R -> (forall a, ensures (R a) (k a) Q) -> ensures P (bind m k) Q.
Proof.
  intros Hm Hk w b w' Hw. unfold bind.
  destruct (m w) as [[e|a] w1] eqn:E; [done|].
  apply Hk. by apply (Hm w a w1).
Qed.

Lemma ensures_weaken (P P' : World -> Prop) (Q Q' : A -> World -> Prop) (m : M A) :
  (forall w, P' w -> P w) -> (forall a w, Q a w -> Q' a w) ->
  ensures P m Q -> ensures P' m Q'.
Proof. intros HP HQ H w a w' Hw E. apply HQ. by apply (H w a w'); [apply HP|]. Qed.

(** A condition on the value and an invariant of the world. *)
Lemma ensures_both (I : World -> Prop) (Q : A -> Prop) (m : M A) :
  returns Q m -> preserves I m -> ensures I m (fun a w => Q a /\ I w).
Proof.
  intros HQ HI w a w' Hw E. split; [by apply (HQ w a w')|].
  specialize (HI w Hw). by rewrite E in HI.
Qed.

Lemma ensures_step (P I : World -> Prop) (Q : A -> Prop) (m : M A) :
  (forall w, P w -> I w) -> returns Q m -> preserves I m ->
  ensures P m (fun a w => Q a /\ I w).
Proof.
  intros HP HQ HI w a w' Hw E. by apply (ensures_both I Q m HQ HI w a w'); [apply HP|].
Qed.

End Ensures.

Section Sent.
Context (env : Env).

Lemma statements_sent_app l1 l2 :
  statements_sent (l1 ++ l2) = statements_sent l1 ++ statements_sent l2.
Proof. apply omap_app. Qed.

(** A computation that sends no statement keeps the statements sent. *)
Lemma sends_nothing {A} (m : M A) :
  (forall l0, preserves (only no_statement l0) m) ->
  keeps (fun w => statements_sent (log w)) m.
Proof.
  intros H w. specialize (H (log w) w (only_start _ _ w eq_refl)).
  by apply (only_omap no_statement (log w) statement_of).
Qed.

Lemma report_steps_sends_no_statement q results ts sql df l0 :
  preserves (only no_statement l0)
    (AnalyticsWorkflow.report_steps env q results ts sql df).
Proof.
  unfold AnalyticsWorkflow.report_steps, AutomatedEDA.generate_eda_report,
    AutomatedEDA.analyze_results, AutomatedEDA.create_visualizations,
    AutomatedEDA.export_for_tableau, SummaryGenerator.generate_executive_summary,
    SummaryGenerator._wait_for_rate_limit, SummaryGenerator.generate_detailed_report,
    SummaryGenerator.save_report.
  heard ltac:(reflexivity).
Qed.

Lemma last_sent_kept {A} (m : M A) l0 sql :
  keeps (fun w => statements_sent (log w)) m -> preserves (last_sent l0 sql) m.
Proof. intros H w [pre Hw]. exists pre. by rewrite H. Qed.

Lemma report_steps_entry q results ts sql df key :
  key <> "row_count"%string -> key <> "dataframe"%string ->
  key <> "eda_results"%string -> key <> "executive_summary"%string ->
  key <> "report_file"%string -> key <> "success"%string ->
  returns (fun d => d !! key = results !! key)
    (AnalyticsWorkflow.report_steps env q results ts sql df).
Proof.
  intros. unfold AnalyticsWorkflow.report_steps.
  destruct df as [df|]; [|apply returns_raise].
  eapply returns_bind; [apply returns_any|intros eda _].
  eapply returns_bind; [apply returns_any|intros summary _].
  eapply returns_bind; [apply returns_any|intros full_report _].
  eapply returns_bind; [apply returns_any|intros report_path _].
  eapply returns_bind; [apply returns_any|intros n _].
  eapply returns_bind; [apply returns_any|intros _ _].
  apply returns_ret. by rewrite !lookup_insert_ne.
Qed.

Lemma execution_steps_last_sent q results ts sql l0 :
  results !! "sql_query" = Some (VStr sql) ->
  ensures (fun w => exists pre, statements_sent (log w) = l0 ++ pre)
    (AnalyticsWorkflow.execution_steps env q results ts sql)
    (fun d w => exists s, d !! "sql_query" = Some (VStr s) /\ last_sent l0 s w).
Proof.
  intros Hres. unfold AnalyticsWorkflow.execution_steps.
  assert (Hexec : forall s,
    ensures (fun w => exists pre, statements_sent (log w) = l0 ++ pre)
      (AutomatedEDA.execute_query env s) (fun _ w => last_sent l0 s w)).
  { intros s w r w' [pre Hw]. rewrite execute_query_eq. intros [= _ <-].
    exists pre. cbn [log set_statements set_clock emit set_log].
    rewrite !statements_sent_app, Hw. cbn. by rewrite app_nil_r, <- app_assoc. }
  assert (Hreport : forall results' s df,
    results' !! "sql_query" = Some (VStr s) ->
    ensures (last_sent l0 s)
      (AnalyticsWorkflow.report_steps env q results' ts s df)
      (fun d w => exists s', d !! "sql_query" = Some (VStr s') /\ last_sent l0 s' w)).
  { intros results' s df Hs.
    eapply ensures_weaken; [done| |apply ensures_both].
    - intros d w [Hd Hw]. exists s. split; [|exact Hw]. exact Hd.
    - intros w d w' E. cbv beta.
      rewrite (report_steps_entry q results' ts s df "sql_query" ltac:(done) ltac:(done)
                 ltac:(done) ltac:(done) ltac:(done) ltac:(done) w d w' E). exact Hs.
    - apply last_sent_kept, sends_nothing. intros l1.
      apply report_steps_sends_no_statement. }
  eapply ensures_bind; [apply Hexec|intros [df error]].
  destruct (AnalyticsWorkflow.is_error error); [|by apply Hreport].
  eapply ensures_bind.
  { apply ensures_both; [apply returns_any|].
    apply last_sent_kept, sends_nothing. intros l1. apply validate_sends_no_statement. }
  intros fix_result. cbv beta.
  eapply ensures_bind.
  { apply ensures_both; [apply returns_any|]. walk_pure. }
  intros ok. destruct (truthy ok).
  - eapply ensures_bind.
    { apply ensures_both; [apply returns_any|]. walk_pure. }
    intros changes. cbv beta.
    eapply ensures_bind.
    { apply ensures_both; [apply returns_any|]. walk_pure. }
    intros u. cbv beta.
    eapply ensures_bind.
    { apply ensures_both; [apply returns_any|]. walk_pure. }
    intros sql'. cbv beta.
    eapply ensures_bind.
    { eapply ensures_weaken; [|done|apply (Hexec sql')].
      intros w [_ [_ [_ [_ [_ [pre Hw]]]]]]. exists (pre ++ [sql]). by rewrite Hw. }
    intros [df' error']. cbv beta.
    destruct (AnalyticsWorkflow.is_error error').
    + apply ensures_ret. intros w Hw. exists sql'. split; [by simplify_map_eq|done].
    + apply Hreport. by simplify_map_eq.
  - apply ensures_ret. intros w [_ [_ Hw]]. exists sql.
    split; [by simplify_map_eq|done].
Qed.

Lemma generate_sql_sends_no_statement q l0 :
  preserves (only no_statement l0) (QueryGenerator.generate_sql env q).
Proof. unfold QueryGenerator.generate_sql. heard ltac:(reflexivity). Qed.

Lemma run_analysis_last_sent q save_sql l0 :
  ensures (fun w => statements_sent (log w) = l0)
    (AnalyticsWorkflow.run_analysis env q save_sql)
    (fun d w => forall s, d !! "sql_query" = Some (VStr s) -> last_sent l0 s w).
Proof.
  set (P := fun w : World => statements_sent (log w) = l0).
  assert (Hkept : forall {A} (m : M A),
    keeps (fun w => statements_sent (log w)) m -> preserves P m).
  { intros A m H w Hw. unfold P. by rewrite H. }
  unfold AnalyticsWorkflow.run_analysis.
  eapply ensures_bind.
  { apply (ensures_step P P); [done|apply returns_any|walk_pure]. }
  intros ts. cbv beta zeta.
  eapply ensures_bind.
  { apply (ensures_step _ P); [by intros w [_ Hw]|apply returns_any|].
    apply Hkept, sends_nothing. intros l1. apply generate_sql_sends_no_statement. }
  intros query_result. cbv beta.
  eapply ensures_bind.
  { apply (ensures_step _ P); [by intros w [_ Hw]|apply returns_any|walk_pure]. }
  intros ok. cbv beta.
  destruct (negb (truthy ok)).
  { apply ensures_ret. intros w _ s Hs. by simplify_map_eq. }
  eapply ensures_bind.
  { apply (ensures_step _ P); [by intros w [_ Hw]|apply returns_any|walk_pure]. }
  intros sql. cbv beta.
  eapply ensures_bind.
  { apply (ensures_step _ P); [by intros w [_ Hw]|apply returns_any|walk_pure]. }
  intros explanation. cbv beta.
  eapply ensures_bind.
  { apply (ensures_step _ P); [by intros w [_ Hw]|apply returns_any|walk_pure]. }
  intros u1. cbv beta.
  eapply ensures_bind.
  { apply (ensures_step _ P); [by intros w [_ Hw]|apply returns_any|walk_pure]. }
  intros u2. cbv beta.
  eapply ensures_bind.
  { apply (ensures_step _ P (fun results => results !! "sql_query" = Some (VStr sql)));
      [by intros w [_ Hw]| |].
    - destruct save_sql.
      + eapply returns_bind; [apply returns_any|intros _ _].
        apply returns_ret. by simplify_map_eq.
      + apply returns_ret. by simplify_map_eq.
    - destruct save_sql; [|apply preserves_ret].
      apply Hkept, sends_nothing. intros l1. heard ltac:(reflexivity). }
  intros results w d w' [Hres Hw] E s Hs.
  destruct (execution_steps_last_sent q results ts sql l0 Hres w d w') as (s' & Hs' & H);
    [exists []; by rewrite app_nil_r|exact E|].
  congruence.
Qed.

End Sent.

(** X14. The query a result carries is the query executed last. When
    a run returns a result with a [sql_query] entry, that text is the
    last statement the run sent to the database: the generated query,
    or the corrected one once it has been executed. *)
Theorem result_carries_the_query_executed_last env q save_sql w d s :
  fst (AnalyticsWorkflow.run_analysis env q save_sql w) = inr d ->
  d !! "sql_query" = Some (VStr s) ->
  exists pre,
    statements_sent (log (snd (AnalyticsWorkflow.run_analysis env q save_sql w)))
    = statements_sent (log w) ++ pre ++ [s].
Proof.
  intros Hd Hs.
  destruct (AnalyticsWorkflow.run_analysis env q save_sql w) as [r w'] eqn:E.
  simpl in Hd. subst r.
  by apply (run_analysis_last_sent env q save_sql (statements_sent (log w)) w d w').
Qed.

(* ================================================================== *)
(** * The result of a run *)
(* ================================================================== *)

Section Complete.
Context (env : Env).

Lemma ensures_any {A} (P : World -> Prop) (m : M A) : ensures P m (fun _ _ => True).
Proof. done. Qed.

Lemma ensures_intro {A} (m : M A) (Q : A -> World -> Prop) :
  ensures (fun _ => True) m Q -> forall w a w', m w = (inr a, w') -> Q a w'.
Proof. intros H w a w'. by apply H. Qed.

Lemma started_sql save_sql q ts results sql :
  started save_sql q ts results ->
  started save_sql q ts (<["sql_query" := VStr sql]> results).
Proof.
  intros (Hs & Hq & Ht & _ & Hf & He). unfold started.
  split; [by simplify_map_eq|]. split; [by simplify_map_eq|].
  split; [by simplify_map_eq|]. split; [exists sql; by simplify_map_eq|].
  split; by simplify_map_eq.
Qed.

Lemma started_generated q ts explanation sql :
  started false q ts (generated ts q explanation sql).
Proof.
  unfold started, generated.
  split; [by simplify_map_eq|]. split; [by simplify_map_eq|].
  split; [by simplify_map_eq|]. split; [exists sql; by simplify_map_eq|].
  split; by simplify_map_eq.
Qed.

Lemma started_file q ts results :
  started false q ts results ->
  started true q ts (<["sql_file" := VStr (saved_path ts)]> results).
Proof.
  intros (Hs & Hq & Ht & [sql Hsql] & _ & He). unfold started.
  split; [by simplify_map_eq|]. split; [by simplify_map_eq|].
  split; [by simplify_map_eq|]. split; [exists sql; by simplify_map_eq|].
  split; by simplify_map_eq.
Qed.

Lemma report_steps_complete save_sql q results ts sql df :
  started save_sql q ts results ->
  ensures (fun _ => True) (AnalyticsWorkflow.report_steps env q results ts sql df)
    (fun d w => d !! "success" = Some (VBool true) /\ complete save_sql q ts d w).
Proof.
  intros (Hs & Hq & Ht & [sql0 Hsql] & Hf & He) w d w' _.
  unfold AnalyticsWorkflow.report_steps. destruct df as [df|]; [|done].
  cbv zeta. unfold bind.
  destruct (AutomatedEDA.generate_eda_report env df q (lit "analysis_" ++ ts) w)
    as [[e|eda] w1] eqn:Eeda; [done|].
  destruct (SummaryGenerator.generate_executive_summary env q df eda w1)
    as [[e|summary] w2]; [done|].
  destruct (SummaryGenerator.generate_detailed_report env q sql df eda summary w2)
    as [[e|full_report] w3]; [done|].
  unfold SummaryGenerator.save_report, write_file, print_text, bind, modify, ret,
    raise, len_text.
  destruct (encoded_prefix [full_report]) as [written [bad|]]; [done|].
  destruct summary as [summary|]; [|done].
  cbv beta iota delta [ret].
  destruct (printable _ _); [|done].
  intros [= <- <-].
  assert (Hrows : a_row_count eda = length (df_rows df)).
  { pose proof (generate_eda_report_files env df q (lit "analysis_" ++ ts) w eda) as H.
    rewrite Eeda in H. by apply H. }
  split; [by simplify_map_eq|]. unfold complete.
  rewrite !lookup_insert_ne by done.
  split; [done|]. split; [done|]. split; [by exists sql0|]. split; [done|].
  split; [exists df, eda, summary; by simplify_map_eq|].
  split; [by simplify_map_eq|]. split; [|by simplify_map_eq].
  cbn [files set_files]. unfold report_path.
  change (path_join (lit "../outputs") (lit "complete_report_" ++ ts ++ lit ".md"))
    with (lit "../outputs/complete_report_" ++ ts ++ lit ".md").
  rewrite lookup_insert_eq. by eexists.
Qed.

Lemma execution_steps_complete save_sql q results ts sql :
  started save_sql q ts results ->
  ensures (fun _ => True) (AnalyticsWorkflow.execution_steps env q results ts sql)
    (fun d w => d !! "success" = Some (VBool true) -> complete save_sql q ts d w).
Proof.
  intros Hst. unfold AnalyticsWorkflow.execution_steps.
  assert (Hreport : forall results' sql' df,
    started save_sql q ts results' ->
    ensures (fun _ => True) (AnalyticsWorkflow.report_steps env q results' ts sql' df)
      (fun d w => d !! "success" = Some (VBool true) -> complete save_sql q ts d w)).
  { intros results' sql' df H w d w' _ E _.
    by destruct (report_steps_complete save_sql q results' ts sql' df H w d w' I E). }
  assert (Hfail : forall results' (v : pyval) w,
    started save_sql q ts results' ->
    (<["error" := v]> results') !! "success" = Some (VBool true) ->
    complete save_sql q ts (<["error" := v]> results') w).
  { intros results' v w (Hs & _) H. rewrite lookup_insert_ne in H by done. congruence. }
  eapply ensures_bind; [apply ensures_any|intros [df error]].
  destruct (AnalyticsWorkflow.is_error error); [|by apply Hreport].
  eapply ensures_bind; [apply ensures_any|intros fix_result].
  eapply ensures_bind; [apply ensures_any|intros ok].
  destruct (truthy ok).
  - eapply ensures_bind; [apply ensures_any|intros changes].
    eapply ensures_bind; [apply ensures_any|intros u].
    eapply ensures_bind; [apply ensures_any|intros sql'].
    eapply ensures_bind; [apply ensures_any|intros [df' error']].
    destruct (AnalyticsWorkflow.is_error error').
    + apply ensures_ret. intros w _. by apply Hfail, started_sql.
    + by apply Hreport, started_sql.
  - apply ensures_ret. intros w _. by apply Hfail.
Qed.

Lemma run_analysis_complete q save_sql w d w' :
  AnalyticsWorkflow.run_analysis env q save_sql w = (inr d, w') ->
  d !! "success" = Some (VBool true) ->
  complete save_sql q (strftime env (lit "%Y-%m-%d_%H-%M-%S") (clock w)) d w'.
Proof.
  unfold AnalyticsWorkflow.run_analysis, datetime_now. rewrite bind_gets.
  generalize (strftime env (lit "%Y-%m-%d_%H-%M-%S") (clock w)). intros ts. cbv zeta.
  revert w d w'.
  apply (ensures_intro _ (fun d w' => d !! "success" = Some (VBool true) ->
                                      complete save_sql q ts d w')).
  eapply ensures_bind; [apply ensures_any|intros query_result].
  eapply ensures_bind; [apply ensures_any|intros ok].
  destruct (negb (truthy ok)).
  { apply ensures_ret. intros w0 _ H. by simplify_map_eq. }
  eapply ensures_bind; [apply ensures_any|intros sql].
  eapply ensures_bind; [apply ensures_any|intros explanation].
  eapply ensures_bind; [apply ensures_any|intros u1].
  eapply ensures_bind; [apply ensures_any|intros u2].
  eapply (ensures_bind _ (fun results _ => started save_sql q ts results)).
  2: { intros results w0 d w1 Hst. by apply execution_steps_complete. }
  destruct save_sql.
  - eapply ensures_bind; [apply ensures_any|intros u].
    apply ensures_ret. intros w0 _. apply started_file, started_generated.
  - apply ensures_ret. intros w0 _. apply started_generated.
Qed.

End Complete.

(** X15. A result that reports success is complete. It carries the
    question, the time stamp of the run and a query, with the path of
    the saved query exactly when [save_sql] was set; the table and its
    number of rows; the EDA results, made for the same number of rows;
    an executive summary that is a text (possibly an error text, never
    [None]); no error entry; and the path
    [../outputs/complete_report_<timestamp>.md] of the complete report,
    a file that exists when the run returns. *)
Theorem successful_result_is_complete env q save_sql w d :
  fst (AnalyticsWorkflow.run_analysis env q save_sql w) = inr d ->
  d !! "success" = Some (VBool true) ->
  complete save_sql q (strftime env (lit "%Y-%m-%d_%H-%M-%S") (clock w)) d
    (snd (AnalyticsWorkflow.run_analysis env q save_sql w)).
Proof.
  intros Hd Hok.
  destruct (AnalyticsWorkflow.run_analysis env q save_sql w) as [r w'] eqn:E.
  simpl in Hd. subst r. by apply (run_analysis_complete env q save_sql w d w').
Qed.

(* ================================================================== *)
(** * The error of a failed run *)
(* ================================================================== *)

Section Blame.
Context (env : Env).

(** An error the Executor returns is the text of an exception of the
    database for the statement. *)
Lemma execute_query_error sql :
  returns (fun r : option DataFrame * option str =>
             AnalyticsWorkflow.is_error (snd r) = true ->
             exists k e, database env k sql = inl e /\ exn_text e <> [] /\
                         AnalyticsWorkflow.error_value (snd r) = VStr (exn_text e))
    (AutomatedEDA.execute_query env sql).
Proof.
  intros w r w'. rewrite execute_query_eq. intros [= <- _].
  destruct (database env (statements w) sql) as [e|df] eqn:E; [|done].
  cbn [snd]. intros H. exists (statements w), e. split; [done|].
  destruct (exn_text e); [done|]. by split.
Qed.

Lemma execution_steps_blamed q results ts sql :
  results !! "sql_query" = Some (VStr sql) ->
  results !! "query" = Some (VStr q) ->
  returns (fun d => d !! "success" = Some (VBool false) -> blamed env q d)
    (AnalyticsWorkflow.execution_steps env q results ts sql).
Proof.
  intros Hsql Hq. unfold AnalyticsWorkflow.execution_steps.
  assert (Hreport : forall results' sql' df,
    returns (fun d => d !! "success" = Some (VBool false) -> blamed env q d)
      (AnalyticsWorkflow.report_steps env q results' ts sql' df)).
  { intros results' sql' df w d w' H Hd.
    destruct (report_steps_outcome env q results' ts sql' df w d w' H) as [Hd' _].
    congruence. }
  eapply returns_bind; [apply execute_query_error|intros [df error] Herr].
  destruct (AnalyticsWorkflow.is_error error) eqn:E; [|apply Hreport].
  destruct (Herr E) as (k & e & Hk & Hne & Hv). cbn [snd] in Hv.
  eapply returns_bind; [apply returns_any|intros fix_result _].
  eapply returns_bind; [apply returns_any|intros ok _].
  destruct (truthy ok).
  - eapply returns_bind; [apply returns_any|intros changes _].
    eapply returns_bind; [apply returns_any|intros _ _].
    eapply returns_bind; [apply returns_any|intros sql' _].
    eapply returns_bind; [apply execute_query_error|intros [df' error'] Herr'].
    destruct (AnalyticsWorkflow.is_error error') eqn:E'; [|apply Hreport].
    destruct (Herr' E') as (k' & e' & Hk' & Hne' & Hv'). cbn [snd] in Hv'.
    apply returns_ret. intros _ s Hs. rewrite Hv'.
    rewrite lookup_insert_ne, lookup_insert_eq in Hs by done. injection Hs as <-.
    split; [by simplify_map_eq|]. exists k', e'. by simplify_map_eq.
  - apply returns_ret. intros _ s Hs. rewrite Hv.
    rewrite lookup_insert_ne in Hs by done. rewrite Hsql in Hs. injection Hs as <-.
    split; [by simplify_map_eq|]. exists k, e. by simplify_map_eq.
Qed.

Lemma run_analysis_blamed q save_sql :
  returns (fun d => d !! "success" = Some (VBool false) -> blamed env q d)
    (AnalyticsWorkflow.run_analysis env q save_sql).
Proof.
  unfold AnalyticsWorkflow.run_analysis.
  eapply returns_bind; [apply returns_any|intros ts _].
  eapply returns_bind; [apply returns_any|intros query_result _].
  eapply returns_bind; [apply returns_any|intros ok _].
  destruct (negb (truthy ok)).
  { apply returns_ret. intros _ s Hs. by simplify_map_eq. }
  eapply returns_bind; [apply returns_any|intros sql _].
  eapply returns_bind; [apply returns_any|intros explanation _].
  eapply returns_bind; [apply returns_any|intros _ _].
  eapply returns_bind; [apply returns_any|intros _ _].
  eapply (returns_bind (fun results =>
            results !! "sql_query" = Some (VStr sql) /\
            results !! "query" = Some (VStr q))).
  - destruct save_sql.
    + eapply returns_bind; [apply returns_any|intros _ _].
      apply returns_ret. by simplify_map_eq.
    + apply returns_ret. by simplify_map_eq.
  - intros results [Hs Hq]. by apply execution_steps_blamed.
Qed.

End Blame.

(** X16. A run that fails after its query was generated blames the
    database. Its result carries the question and, under [error], the
    text of an exception that the database raised for the very query
    the result carries under [sql_query] (the corrected query when the
    correction was executed, the generated one otherwise); that text is
    not empty. An error of the Corrector itself is never recorded. *)
Theorem failed_result_carries_the_database_error env q save_sql w d s :
  fst (AnalyticsWorkflow.run_analysis env q save_sql w) = inr d ->
  d !! "success" = Some (VBool false) ->
  d !! "sql_query" = Some (VStr s) ->
  d !! "query" = Some (VStr q) /\
  exists k e, database env k s = inl e /\ exn_text e <> [] /\
              d !! "error" = Some (VStr (exn_text e)).
Proof.
  intros Hd Hok Hs.
  destruct (AnalyticsWorkflow.run_analysis env q save_sql w) as [r w'] eqn:E.
  simpl in Hd. subst r.
  by apply (run_analysis_blamed env q save_sql w d w' E Hok s).
Qed.

(* ================================================================== *)
(** * The traffic of a run *)
(* ================================================================== *)

Section Traffic.
Context (env : Env).

Lemma generate_sql_requests q : grows requests 1 (QueryGenerator.generate_sql env q).
Proof.
  intros w. rewrite generate_sql_world, generate_content_world. simpl. lia.
Qed.

Lemma wait_query_requests w :
  requests (snd (QueryGenerator._wait_for_rate_limit env w)) = requests w.
Proof. rewrite wait_query_world. cbv zeta. by destruct (Qltb _ _). Qed.

Lemma validate_requests sql err :
  grows requests 1 (QueryGenerator.validate_and_improve_query env sql err).
Proof.
  intros w. rewrite validate_world, generate_content_world.
  cbn [requests set_requests]. rewrite wait_query_requests. simpl. lia.
Qed.

Lemma validate_keeps_statements sql err :
  keeps statements (QueryGenerator.validate_and_improve_query env sql err).
Proof.
  unfold QueryGenerator.validate_and_improve_query, QueryGenerator._wait_for_rate_limit.
  kept.
Qed.

Lemma execute_query_statements sql :
  grows statements 1 (AutomatedEDA.execute_query env sql).
Proof. intros w. rewrite execute_query_eq. simpl. lia. Qed.

Lemma generate_eda_report_keeps_requests df ctx name :
  keeps requests (AutomatedEDA.generate_eda_report env df ctx name).
Proof.
  unfold AutomatedEDA.generate_eda_report, AutomatedEDA.analyze_results,
    AutomatedEDA.create_visualizations, AutomatedEDA.export_for_tableau.
  kept.
Qed.

Lemma summary_requests ctx df a :
  grows requests 1 (SummaryGenerator.generate_executive_summary env ctx df a).
Proof.
  intros w. destruct (summary_prompt env ctx df a) as [e|p] eqn:Hp.
  - unfold SummaryGenerator.generate_executive_summary. rewrite Hp. simpl. lia.
  - rewrite (summary_world env ctx df a w p Hp), generate_content_world.
    cbn [requests set_requests]. rewrite wait_summary_requests. simpl. lia.
Qed.

Lemma report_steps_requests q results ts sql df :
  grows requests 1 (AnalyticsWorkflow.report_steps env q results ts sql df).
Proof.
  unfold AnalyticsWorkflow.report_steps.
  destruct df as [df|]; [|intros w; simpl; lia]. cbv zeta.
  apply (grows_bind _ 0 1);
    [apply grows_keeps, generate_eda_report_keeps_requests|intros eda].
  apply (grows_bind _ 1 0); [apply summary_requests|intros summary].
  apply grows_keeps.
  unfold SummaryGenerator.generate_detailed_report, SummaryGenerator.save_report.
  kept.
Qed.

Lemma report_steps_keeps_statements q results ts sql df :
  keeps statements (AnalyticsWorkflow.report_steps env q results ts sql df).
Proof.
  unfold AnalyticsWorkflow.report_steps, AutomatedEDA.generate_eda_report,
    AutomatedEDA.analyze_results, AutomatedEDA.create_visualizations,
    AutomatedEDA.export_for_tableau, SummaryGenerator.generate_executive_summary,
    SummaryGenerator._wait_for_rate_limit, SummaryGenerator.generate_detailed_report,
    SummaryGenerator.save_report.
  kept.
Qed.

Lemma grows_pure {A} f (m : M A) :
  (forall x, preserves (fun w => f w = x) m) -> grows f 0 m.
Proof. intros H. by apply grows_keeps, keeps_intro. Qed.

Lemma execution_steps_requests q results ts sql :
  grows requests 2 (AnalyticsWorkflow.execution_steps env q results ts sql).
Proof.
  unfold AnalyticsWorkflow.execution_steps.
  apply (grows_bind _ 0 2);
    [apply grows_keeps, execute_query_keeps_requests|intros [df error]].
  destruct (AnalyticsWorkflow.is_error error);
    [|eapply grows_le; [|apply report_steps_requests]; lia].
  apply (grows_bind _ 1 1); [apply validate_requests|intros fix_result].
  apply (grows_bind _ 0 1); [apply grows_pure; intros x; walk_pure|intros ok].
  destruct (truthy ok); [|apply grows_ret].
  apply (grows_bind _ 0 1); [apply grows_pure; intros x; walk_pure|intros changes].
  apply (grows_bind _ 0 1); [apply grows_pure; intros x; walk_pure|intros u].
  apply (grows_bind _ 0 1); [apply grows_pure; intros x; walk_pure|intros sql'].
  apply (grows_bind _ 0 1);
    [apply grows_keeps, execute_query_keeps_requests|intros [df' error']].
  destruct (AnalyticsWorkflow.is_error error'); [apply grows_ret|].
  apply report_steps_requests.
Qed.

Lemma execution_steps_statements q results ts sql :
  grows statements 2 (AnalyticsWorkflow.execution_steps env q results ts sql).
Proof.
  unfold AnalyticsWorkflow.execution_steps.
  apply (grows_bind _ 1 1); [apply execute_query_statements|intros [df error]].
  destruct (AnalyticsWorkflow.is_error error);
    [|eapply grows_le; [|apply grows_keeps, report_steps_keeps_statements]; lia].
  apply (grows_bind _ 0 1);
    [apply grows_keeps, validate_keeps_statements|intros fix_result].
  apply (grows_bind _ 0 1); [apply grows_pure; intros x; walk_pure|intros ok].
  destruct (truthy ok); [|apply grows_ret].
  apply (grows_bind _ 0 1); [apply grows_pure; intros x; walk_pure|intros changes].
  apply (grows_bind _ 0 1); [apply grows_pure; intros x; walk_pure|intros u].
  apply (grows_bind _ 0 1); [apply grows_pure; intros x; walk_pure|intros sql'].
  apply (grows_bind _ 1 0); [apply execute_query_statements|intros [df' error']].
  destruct (AnalyticsWorkflow.is_error error'); [apply grows_ret|].
  apply grows_keeps, report_steps_keeps_statements.
Qed.

Lemma run_analysis_grows f n1 n2 q save_sql :
  grows f n1 (QueryGenerator.generate_sql env q) ->
  (forall results ts sql,
     grows f n2 (AnalyticsWorkflow.execution_steps env q results ts sql)) ->
  (forall p t, keeps f (write_file env p t)) ->
  grows f (n1 + n2) (AnalyticsWorkflow.run_analysis env q save_sql).
Proof.
  intros Hgen Hsteps Hwrite. unfold AnalyticsWorkflow.run_analysis.
  apply (grows_bind _ 0 (n1 + n2)); [apply grows_pure; intros x; walk_pure|intros ts].
  cbv zeta.
  apply (grows_bind _ n1 n2); [apply Hgen|intros query_result].
  apply (grows_bind _ 0 n2); [apply grows_pure; intros x; walk_pure|intros ok].
  destruct (negb (truthy ok)); [apply grows_ret|].
  apply (grows_bind _ 0 n2); [apply grows_pure; intros x; walk_pure|intros sql].
  apply (grows_bind _ 0 n2); [apply grows_pure; intros x; walk_pure|intros explanation].
  apply (grows_bind _ 0 n2); [apply grows_pure; intros x; walk_pure|intros u1].
  apply (grows_bind _ 0 n2); [apply grows_pure; intros x; walk_pure|intros u2].
  apply (grows_bind _ 0 n2); [|intros results; apply Hsteps].
  destruct save_sql; [|apply grows_ret].
  apply (grows_bind _ 0 0); [apply grows_keeps, Hwrite|intros u; apply grows_ret].
Qed.

End Traffic.

(** X17. The traffic of a run is bounded: it makes at most three
    completion requests (the generation, one correction, the summary)
    and sends at most two statements to the database. *)
Theorem run_makes_at_most_three_requests env q save_sql w :
  let w' := snd (AnalyticsWorkflow.run_analysis env q save_sql w) in
  requests w' <= requests w + 3 /\ statements w' <= statements w + 2.
Proof.
  split.
  - apply (run_analysis_grows env requests 1 2).
    + apply generate_sql_requests.
    + intros. apply execution_steps_requests.
    + intros. unfold write_file. kept.
  - apply (run_analysis_grows env statements 0 2).
    + apply grows_keeps, generate_sql_keeps_statements.
    + intros. apply execution_steps_statements.
    + intros. unfold write_file. kept.
Qed.

(* ================================================================== *)
(** * The prompts *)
(* ================================================================== *)

Section Prompts.
Context (env : Env).

Lemma contains_middle sep a b : contains sep (a ++ sep ++ b) = true.
Proof.
  unfold contains. induction a as [|c a IH].
  - simpl app. by rewrite cut_self.
  - change ((c :: a) ++ sep ++ b) with (c :: (a ++ sep ++ b)). rewrite cut_unfold.
    destruct (starts_with sep (c :: a ++ sep ++ b)); [done|].
    by destruct (cut sep (a ++ sep ++ b)) as [[??]|].
Qed.

Lemma generate_prompt_contents self q :
  contains q (QueryGenerator.generate_prompt self q) = true /\
  contains (schema_context self) (QueryGenerator.generate_prompt self q) = true.
Proof.
  unfold QueryGenerator.generate_prompt. split.
  - rewrite !(app_assoc _ _ (q ++ _)). apply contains_middle.
  - apply contains_middle.
Qed.

Lemma review_prompt_contents self sql err :
  contains sql (QueryGenerator.review_prompt self sql err) = true /\
  contains (schema_context self) (QueryGenerator.review_prompt self sql err) = true /\
  contains (match err with
            | Some ((_ :: _) as m) => lit "Error encountered: " ++ m
            | _ => lit "Please validate and optimize this query."
            end) (QueryGenerator.review_prompt self sql err) = true.
Proof.
  unfold QueryGenerator.review_prompt. split; [|split].
  - rewrite !(app_assoc _ _ (sql ++ _)). apply contains_middle.
  - apply contains_middle.
  - rewrite !(app_assoc _ _ (match err with Some (_ :: _ as m) => _ | _ => _ end ++ _)).
    apply contains_middle.
Qed.

Lemma validate_log sql err w :
  exists t pre,
    log (snd (QueryGenerator.validate_and_improve_query env sql err w))
    = log w ++ Call "validate_and_improve_query" [sql; format_opt err]
        :: pre ++ [Request t (model_id (query_gen w))
                     (QueryGenerator.review_prompt (query_gen w) sql err)].
Proof.
  rewrite validate_world, generate_content_world, wait_query_world. cbv zeta.
  destruct (Qltb _ _); cbn [snd log set_requests set_clock emit set_log set_query_gen
                             set_sleeps clock].
  - eexists _, [_]. by rewrite <- !app_assoc.
  - eexists _, []. by rewrite <- !app_assoc.
Qed.

End Prompts.

(** X18. A call of [generate_sql] makes exactly one completion
    request, at the time of the call, to the model of the generator
    object; the prompt it sends holds the schema context and the
    question, both verbatim. It writes no file and sends no statement
    to the database. *)
Theorem generator_sends_one_prompt_with_the_question env q w :
  let w' := snd (QueryGenerator.generate_sql env q w) in
  let prompt := QueryGenerator.generate_prompt (query_gen w) q in
  log w' = log w ++ [Call "generate_sql" [q];
                     Request (clock w) (model_id (query_gen w)) prompt] /\
  contains q prompt = true /\
  contains (schema_context (query_gen w)) prompt = true /\
  files w' = files w /\ statements w' = statements w.
Proof.
  cbv zeta. split; [apply generate_sql_log|].
  split; [apply generate_prompt_contents|]. split; [apply generate_prompt_contents|].
  split; [apply generate_sql_keeps_files|apply generate_sql_keeps_statements].
Qed.

(** X19. A call of the Corrector ends with one completion request to
    the model of the generator object. Its prompt holds the schema
    context and the query under review, verbatim, and either the line
    [Error encountered: ] followed by the error message, or, when no
    message or an empty one is given, the request to validate and
    optimize. It writes no file and sends no statement. *)
Theorem corrector_prompt_carries_the_query_and_the_error env sql err w :
  let w' := snd (QueryGenerator.validate_and_improve_query env sql err w) in
  let prompt := QueryGenerator.review_prompt (query_gen w) sql err in
  (exists t pre,
     log w' = log w ++ Call "validate_and_improve_query" [sql; format_opt err]
                :: pre ++ [Request t (model_id (query_gen w)) prompt]) /\
  contains sql prompt = true /\
  contains (schema_context (query_gen w)) prompt = true /\
  contains (match err with
            | Some ((_ :: _) as m) => lit "Error encountered: " ++ m
            | _ => lit "Please validate and optimize this query."
            end) prompt = true /\
  files w' = files w /\ statements w' = statements w.
Proof.
  cbv zeta. split; [apply validate_log|].
  split; [apply review_prompt_contents|]. split; [apply review_prompt_contents|].
  split; [apply review_prompt_contents|].
  split; [apply validate_keeps_files|apply validate_keeps_statements].
Qed.

(* ================================================================== *)
(** * The interactive session *)
(* ================================================================== *)

Section Session.
Context (env : Env).

Lemma is_exit_nil : AnalyticsWorkflow.is_exit [] = false.
Proof. reflexivity. Qed.

Lemma interactive_mode_exit word rest w :
  AnalyticsWorkflow.is_exit (strip word) = true ->
  AnalyticsWorkflow.interactive_mode env (word :: rest) w = (inr tt, w).
Proof. intros H. simpl. by rewrite H. Qed.

Lemma interactive_mode_cut before word after :
  AnalyticsWorkflow.is_exit (strip word) = true ->
  AnalyticsWorkflow.interactive_mode env (before ++ word :: after)
  = AnalyticsWorkflow.interactive_mode env (before ++ [word]).
Proof.
  intros H. induction before as [|line before IH].
  - simpl. by rewrite H.
  - simpl. rewrite IH. reflexivity.
Qed.

Lemma interactive_mode_returns lines w :
  fst (AnalyticsWorkflow.interactive_mode env lines w) = inr tt ->
  exists word, word ∈ lines /\ AnalyticsWorkflow.is_exit (strip word) = true.
Proof.
  revert w. induction lines as [|line rest IH]; intros w; [done|].
  simpl. destruct (AnalyticsWorkflow.is_exit (strip line)) eqn:E.
  - intros _. exists line. split; [by left|done].
  - assert (Hrest : forall w1,
      fst (AnalyticsWorkflow.interactive_mode env rest w1) = inr tt ->
      exists word, word ∈ line :: rest /\ AnalyticsWorkflow.is_exit (strip word) = true).
    { intros w1 H. destruct (IH w1 H) as (word & Hin & Hw).
      exists word. split; [by right|done]. }
    destruct (strip line) as [|c s]; [apply Hrest|].
    unfold bind.
    destruct (AnalyticsWorkflow.run_analysis env (c :: s) true w) as [[e|d] w1];
      [done|apply Hrest].
Qed.

Lemma interactive_mode_blank lines :
  AnalyticsWorkflow.interactive_mode env (List.filter (fun l => negb (blank l)) lines)
  = AnalyticsWorkflow.interactive_mode env lines.
Proof.
  induction lines as [|line rest IH]; [done|].
  cbn [List.filter]. unfold blank at 1.
  destruct (strip line) as [|c s] eqn:E; cbn [negb].
  - simpl. by rewrite E, is_exit_nil.
  - simpl. rewrite E, IH. reflexivity.
Qed.

Lemma generation_stable l0 :
  Stable (only not_generation l0) (fun m => m = "generate_sql"%string) (fun _ => True).
Proof.
  split; try done.
  intros e w He Hw. apply (only_step _ _ e w); [done| |done].
  intros a ->. by apply (He "generate_sql"%string a).
Qed.

(** What follows the generation in a run keeps the invariants of the
    effects. *)
Lemma run_analysis_tail I loud free q save_sql w :
  Stable I loud free -> ~ loud "execute_query"%string ->
  ~ loud "validate_and_improve_query"%string ->
  (forall ts, free (path_join (lit "../sql_queries") (lit "query_" ++ ts ++ lit ".sql"))) ->
  I (snd (QueryGenerator.generate_sql env q w)) ->
  I (snd (AnalyticsWorkflow.run_analysis env q save_sql w)).
Proof.
  intros St He Hv Hfree. unfold AnalyticsWorkflow.run_analysis, datetime_now.
  rewrite bind_gets. cbv zeta. unfold bind at 1.
  destruct (QueryGenerator.generate_sql env q w) as [[e|query_result] w1]; [done|].
  cbn [snd]. revert w1.
  apply preserves_bind; [walk_pure|intros ok].
  destruct (negb (truthy ok)); [apply preserves_ret|].
  apply preserves_bind; [walk_pure|intros sql].
  apply preserves_bind; [walk_pure|intros explanation].
  apply preserves_bind; [walk_pure|intros u1].
  apply preserves_bind; [walk_pure|intros u2].
  apply preserves_bind; [|intros results; by apply (preserves_execution_steps _ _ _ St)].
  destruct save_sql; [|apply preserves_ret].
  apply preserves_bind; [|intros ?; apply preserves_ret].
  by apply (preserves_write_file _ _ _ St).
Qed.

Lemma asked_app l1 l2 : asked (l1 ++ l2) = asked l1 ++ asked l2.
Proof. apply omap_app. Qed.

Lemma not_generation_question e : not_generation e -> question_of e = None.
Proof.
  intros H. destruct e as [m args| | | |]; try done.
  destruct args as [|q [|??]]; try done. simpl.
  case_bool_decide; [|done]. subst m. by destruct (H [q]).
Qed.

(** A run asks the Generator once, for its question. *)
Lemma run_analysis_asked q save_sql w :
  asked (log (snd (AnalyticsWorkflow.run_analysis env q save_sql w)))
  = asked (log w) ++ [q].
Proof.
  pose proof (run_analysis_tail _ _ _ q save_sql w
                (generation_stable (log (snd (QueryGenerator.generate_sql env q w))))
                ltac:(done) ltac:(done) ltac:(done)
                (only_start _ _ _ eq_refl)) as H.
  apply (only_omap _ _ question_of) in H; [|apply not_generation_question].
  fold (asked (log (snd (AnalyticsWorkflow.run_analysis env q save_sql w)))) in H.
  rewrite H, generate_sql_log. unfold asked. rewrite omap_app. reflexivity.
Qed.

Lemma interactive_mode_asked lines w :
  let w' := snd (AnalyticsWorkflow.interactive_mode env lines w) in
  (exists n, asked (log w') = asked (log w) ++ take n (questions lines)) /\
  (fst (AnalyticsWorkflow.interactive_mode env lines w) = inr tt ->
   asked (log w') = asked (log w) ++ questions lines).
Proof.
  cbv zeta. revert w. induction lines as [|line rest IH]; intros w.
  - split; [|done]. exists 0. by rewrite app_nil_r.
  - cbn [AnalyticsWorkflow.interactive_mode questions]. cbv zeta.
    destruct (AnalyticsWorkflow.is_exit (strip line)) eqn:E.
    { split; [exists 0|intros _]; by rewrite app_nil_r. }
    unfold blank. destruct (strip line) as [|c s]; [apply IH|].
    unfold bind.
    pose proof (run_analysis_asked (c :: s) true w) as Hrun.
    destruct (AnalyticsWorkflow.run_analysis env (c :: s) true w) as [[e|d] w1].
    + cbn [fst snd] in *. split; [|done]. exists 1. rewrite Hrun. simpl.
      by rewrite take_0.
    + cbn [snd] in Hrun. destruct (IH w1) as [[n Hn] Hall]. split.
      * exists (S n). rewrite Hn, Hrun, <- app_assoc. reflexivity.
      * intros H. rewrite (Hall H), Hrun, <- app_assoc. reflexivity.
Qed.

End Session.

(** X20. An exit word ends the interactive session. When the line
    read is [exit], [quit] or [q], in any case of its ASCII letters and
    with white space around it, the session returns at once, without
    any effect; whatever follows that line in the input is never
    read. *)
Theorem exit_word_ends_the_session env before word after w :
  AnalyticsWorkflow.is_exit (strip word) = true ->
  AnalyticsWorkflow.interactive_mode env (word :: after) w = (inr tt, w) /\
  AnalyticsWorkflow.interactive_mode env (before ++ word :: after)
  = AnalyticsWorkflow.interactive_mode env (before ++ [word]).
Proof.
  intros H. split.
  - by apply interactive_mode_exit.
  - by apply interactive_mode_cut.
Qed.

(** X21. An interactive session returns only through an exit word: if
    the session returns, one of the lines read was an exit word. On an
    input without exit word the session therefore ends with an
    exception. *)
Theorem session_returns_only_on_an_exit_word env lines w :
  fst (AnalyticsWorkflow.interactive_mode env lines w) = inr tt ->
  exists word, word ∈ lines /\ AnalyticsWorkflow.is_exit (strip word) = true.
Proof. apply interactive_mode_returns. Qed.

(** X22. Blank lines are skipped: leaving out the lines that hold
    nothing but white space does not change what an interactive session
    does. *)
Theorem blank_lines_are_skipped env lines :
  AnalyticsWorkflow.interactive_mode env (List.filter (fun l => negb (blank l)) lines)
  = AnalyticsWorkflow.interactive_mode env lines.
Proof. apply interactive_mode_blank. Qed.

(** X23. An interactive session hands the Generator its questions in
    order, each once and stripped: the questions asked are a prefix of
    the questions of the input (the lines before the first exit word
    that are not blank), and all of them when the session returns. A
    single run asks the Generator exactly once, for the question it was
    given. *)
Theorem session_asks_each_question_once env lines q save_sql w :
  let w' := snd (AnalyticsWorkflow.interactive_mode env lines w) in
  (exists n, asked (log w') = asked (log w) ++ take n (questions lines)) /\
  (fst (AnalyticsWorkflow.interactive_mode env lines w) = inr tt ->
   asked (log w') = asked (log w) ++ questions lines) /\
  asked (log (snd (AnalyticsWorkflow.run_analysis env q save_sql w)))
  = asked (log w) ++ [q].
Proof.
  cbv zeta. destruct (interactive_mode_asked env lines w) as [H1 H2].
  split; [exact H1|]. split; [exact H2|]. apply run_analysis_asked.
Qed.

(* ================================================================== *)
(** * Where a run writes and what it executes first *)
(* ================================================================== *)

Section Writes.
Context (env : Env).

Lemma only_weaken (ok ok' : event -> Prop) l0 w :
  (forall e, ok e -> ok' e) -> only ok l0 w -> only ok' l0 w.
Proof.
  intros H (l & Hl & Hok). exists l. split; [done|].
  eapply Forall_impl; [exact Hok|exact H].
Qed.

Lemma report_steps_writes q results ts sql df extra l0 :
  preserves (only (writes_within extra) l0)
    (AnalyticsWorkflow.report_steps env q results ts sql df).
Proof.
  unfold AnalyticsWorkflow.report_steps, AutomatedEDA.generate_eda_report,
    AutomatedEDA.analyze_results, AutomatedEDA.create_visualizations,
    AutomatedEDA.export_for_tableau, SummaryGenerator.generate_executive_summary,
    SummaryGenerator._wait_for_rate_limit, SummaryGenerator.generate_detailed_report,
    SummaryGenerator.save_report.
  heard ltac:(first [exact I | left; reflexivity]).
Qed.

Lemma execution_steps_writes q results ts sql extra l0 :
  preserves (only (writes_within extra) l0)
    (AnalyticsWorkflow.execution_steps env q results ts sql).
Proof.
  unfold AnalyticsWorkflow.execution_steps.
  apply preserves_bind;
    [unfold AutomatedEDA.execute_query; heard ltac:(exact I)|intros [df error]].
  destruct (AnalyticsWorkflow.is_error error); [|apply report_steps_writes].
  apply preserves_bind.
  { unfold QueryGenerator.validate_and_improve_query,
      QueryGenerator._wait_for_rate_limit.
    heard ltac:(exact I). }
  intros fix_result.
  apply preserves_bind; [walk_pure|intros ok].
  destruct (truthy ok); [|apply preserves_ret].
  apply preserves_bind; [walk_pure|intros changes].
  apply preserves_bind; [walk_pure|intros u].
  apply preserves_bind; [walk_pure|intros sql'].
  apply preserves_bind;
    [unfold AutomatedEDA.execute_query; heard ltac:(exact I)|intros [df' error']].
  destruct (AnalyticsWorkflow.is_error error'); [apply preserves_ret|].
  apply report_steps_writes.
Qed.

(** An invariant that may depend on the time stamp of the run is kept
    by the run when the generation, the saving of the query and Step 2
    keep it. *)
Lemma run_analysis_preserves (I : str -> World -> Prop) q save_sql w :
  (forall ts, preserves (I ts) (QueryGenerator.generate_sql env q)) ->
  (forall ts pieces, save_sql = true ->
     preserves (I ts) (write_file env (saved_path ts) pieces)) ->
  (forall ts results sql,
     preserves (I ts) (AnalyticsWorkflow.execution_steps env q results ts sql)) ->
  I (strftime env (lit "%Y-%m-%d_%H-%M-%S") (clock w)) w ->
  I (strftime env (lit "%Y-%m-%d_%H-%M-%S") (clock w))
    (snd (AnalyticsWorkflow.run_analysis env q save_sql w)).
Proof.
  intros Hgen Hsave Hsteps.
  unfold AnalyticsWorkflow.run_analysis, datetime_now. rewrite bind_gets.
  generalize (strftime env (lit "%Y-%m-%d_%H-%M-%S") (clock w)). intros ts. cbv zeta.
  revert w.
  apply preserves_bind; [apply Hgen|intros query_result].
  apply preserves_bind; [walk_pure|intros ok].
  destruct (negb (truthy ok)); [apply preserves_ret|].
  apply preserves_bind; [walk_pure|intros sql].
  apply preserves_bind; [walk_pure|intros explanation].
  apply preserves_bind; [walk_pure|intros u1].
  apply preserves_bind; [walk_pure|intros u2].
  apply preserves_bind; [|intros results; apply Hsteps].
  destruct save_sql; [|apply preserves_ret].
  apply preserves_bind; [|intros ?; apply preserves_ret].
  by apply (Hsave ts).
Qed.

Lemma run_analysis_writes q (save_sql : bool) w :
  let ts := strftime env (lit "%Y-%m-%d_%H-%M-%S") (clock w) in
  only (writes_within (if save_sql then Some (saved_path ts) else None)) (log w)
    (snd (AnalyticsWorkflow.run_analysis env q save_sql w)).
Proof.
  cbv zeta.
  apply (run_analysis_preserves
           (fun ts => only (writes_within (if save_sql then Some (saved_path ts) else None))
                        (log w))).
  - intros ts. unfold QueryGenerator.generate_sql. heard ltac:(exact I).
  - intros ts pieces ->. unfold write_file. heard ltac:(right; reflexivity).
  - intros. apply execution_steps_writes.
  - by apply only_start.
Qed.

End Writes.

(** X24. A run writes only where it should. Its log grows by events
    among which every write is to a path under [../outputs/], except
    the write of the generated query to
    [../sql_queries/query_<timestamp>.sql], which is made only when
    [save_sql] is set. *)
Theorem run_writes_only_under_outputs env q (save_sql : bool) w :
  let ts := strftime env (lit "%Y-%m-%d_%H-%M-%S") (clock w) in
  exists l,
    log (snd (AnalyticsWorkflow.run_analysis env q save_sql w)) = log w ++ l /\
    Forall (writes_within (if save_sql then Some (saved_path ts) else None)) l.
Proof. apply run_analysis_writes. Qed.

(* ================================================================== *)
(** * The first statement of a run *)
(* ================================================================== *)

Section First.
Context (env : Env).



End First.


(* ================================================================== *)
(** * Responses of the wrong shape *)
(* ================================================================== *)

Section Malformed.
Context (env : Env).

Lemma no_get_is_generic v :
  QueryGenerator.is_rate_limit (exn_text (no_attribute v "get")) = false.
Proof. destruct v; vm_compute; reflexivity. Qed.

Lemma generate_sql_without_text q w :
  gemini env (requests w) (model_id (query_gen w))
    (QueryGenerator.generate_prompt (query_gen w) q) = Responds None ->
  exists d, fst (QueryGenerator.generate_sql env q w) = inr d /\
    d !! "success" = Some (VBool false) /\
    d !! "error" = Some (VStr (lit "argument of type 'NoneType' is not iterable")) /\
    d !! "error_type" = None.
Proof.
  intros He. unfold QueryGenerator.generate_sql.
  rewrite bind_modify, bind_gets.
  unfold generate_content, gets, modify, try_except, bind. simpl.
  rewrite He. simpl.
  eexists. split; [reflexivity|]. by simplify_map_eq.
Qed.

Lemma generate_sql_not_an_object q w t v :
  gemini env (requests w) (model_id (query_gen w))
    (QueryGenerator.generate_prompt (query_gen w) q) = Responds (Some t) ->
  contains (lit "```") t = false ->
  decoder_limit env (trim t) = None ->
  loads t = Some v ->
  (forall members, v <> JDict members) ->
  exists d, fst (QueryGenerator.generate_sql env q w) = inr d /\
    d !! "success" = Some (VBool false) /\
    d !! "error" = Some (VStr (exn_text (no_attribute v "get"))) /\
    d !! "error_type" = None.
Proof.
  intros He Ht Hlim Hv Hshape. unfold QueryGenerator.generate_sql.
  rewrite bind_modify, bind_gets.
  unfold generate_content, gets, modify, try_except, bind. simpl.
  rewrite He. unfold container, ret. rewrite unfence_bare by done.
  unfold json_loads. rewrite Hlim, Hv. unfold ret.
  assert (Hget : forall key default w0,
    get_method v key default w0 = (inl (no_attribute v "get"), w0)).
  { intros. destruct v; try done. by destruct (Hshape members). }
  rewrite Hget, no_get_is_generic.
  eexists. split; [reflexivity|]. by simplify_map_eq.
Qed.

Lemma generate_sql_undecodable q w t :
  gemini env (requests w) (model_id (query_gen w))
    (QueryGenerator.generate_prompt (query_gen w) q) = Responds (Some t) ->
  contains (lit "```") t = false ->
  decoder_limit env (trim t) = None ->
  loads t = None ->
  QueryGenerator.is_rate_limit (decode_error env t) = false ->
  exists d, fst (QueryGenerator.generate_sql env q w) = inr d /\
    d !! "success" = Some (VBool false) /\
    d !! "error" = Some (VStr (decode_error env t)) /\
    d !! "error_type" = None.
Proof.
  intros He Ht Hlim Hv Hm. unfold QueryGenerator.generate_sql.
  rewrite bind_modify, bind_gets.
  unfold generate_content, gets, modify, try_except, bind. simpl.
  rewrite He. unfold container, ret. rewrite unfence_bare by done.
  unfold json_loads. rewrite Hlim, Hv. unfold raise. cbn [exn_text]. rewrite Hm.
  eexists. split; [reflexivity|]. by simplify_map_eq.
Qed.

Lemma generate_sql_over_limit q w t e :
  gemini env (requests w) (model_id (query_gen w))
    (QueryGenerator.generate_prompt (query_gen w) q) = Responds (Some t) ->
  contains (lit "```") t = false ->
  decoder_limit env (trim t) = Some e ->
  QueryGenerator.is_rate_limit (exn_text e) = false ->
  exists d, fst (QueryGenerator.generate_sql env q w) = inr d /\
    d !! "success" = Some (VBool false) /\
    d !! "error" = Some (VStr (exn_text e)) /\
    d !! "error_type" = None.
Proof.
  intros He Ht Hlim Hm. unfold QueryGenerator.generate_sql.
  rewrite bind_modify, bind_gets.
  unfold generate_content, gets, modify, try_except, bind. simpl.
  rewrite He. unfold container, ret. rewrite unfence_bare by done.
  unfold json_loads. rewrite Hlim. unfold raise. rewrite Hm.
  eexists. split; [reflexivity|]. by simplify_map_eq.
Qed.

End Malformed.

(** X26. A response of the wrong shape is a failure of the Generator,
    not an exception. When the response has no text, the failure
    carries the text of the [TypeError] raised by the search for the
    fence. When its text (without fence) exceeds a limit of the
    interpreter that runs the decoder, it carries the text of that
    exception; when it is within the limits and decodes to a document
    that is not an object, the text of the [AttributeError] raised by
    [.get]; when it does not decode, the text of the decoding error.
    The texts of the interpreter and of the decoder are provided they
    hold no rate-limit marker. *)
Theorem malformed_responses_become_failures env q w r :
  gemini env (requests w) (model_id (query_gen w))
    (QueryGenerator.generate_prompt (query_gen w) q) = Responds r ->
  exists d, fst (QueryGenerator.generate_sql env q w) = inr d /\
    match r with
    | None =>
        d !! "success" = Some (VBool false) /\
        d !! "error" = Some (VStr (lit "argument of type 'NoneType' is not iterable"))
    | Some t =>
        contains (lit "```") t = false ->
        match decoder_limit env (trim t) with
        | Some e =>
            QueryGenerator.is_rate_limit (exn_text e) = false ->
            d !! "success" = Some (VBool false) /\
            d !! "error" = Some (VStr (exn_text e))
        | None =>
            match loads t with
            | Some (JDict _) => True
            | Some v =>
                d !! "success" = Some (VBool false) /\
                d !! "error" = Some (VStr (exn_text (no_attribute v "get")))
            | None =>
                QueryGenerator.is_rate_limit (decode_error env t) = false ->
                d !! "success" = Some (VBool false) /\
                d !! "error" = Some (VStr (decode_error env t))
            end
        end
    end.
Proof.
  intros He. destruct (generate_sql_total env q w) as [d Hd]. exists d.
  split; [done|]. destruct r as [t|].
  - intros Ht. destruct (decoder_limit env (trim t)) as [e|] eqn:Hlim.
    { intros Hm.
      destruct (generate_sql_over_limit env q w t e He Ht Hlim Hm)
        as (d' & Hd' & H1 & H2 & _).
      assert (d' = d) by congruence. by subst d'. }
    destruct (loads t) as [v|] eqn:Hv.
    + assert (Hcase : (exists members, v = JDict members)
                      \/ forall members, v <> JDict members).
      { destruct v; try (right; discriminate). left. by eexists. }
      destruct Hcase as [[members ->]|Hshape]; [done|].
      destruct (generate_sql_not_an_object env q w t v He Ht Hlim Hv Hshape)
        as (d' & Hd' & H1 & H2 & _).
      assert (d' = d) by congruence. subst d'. by destruct v.
    + intros Hm.
      destruct (generate_sql_undecodable env q w t He Ht Hlim Hv Hm)
        as (d' & Hd' & H1 & H2 & _).
      assert (d' = d) by congruence. by subst d'.
  - destruct (generate_sql_without_text env q w He) as (d' & Hd' & H1 & H2 & _).
    assert (d' = d) by congruence. by subst d'.
Qed.

(* ================================================================== *)
(** * What the Corrector is asked *)
(* ================================================================== *)

Section Asked.
Context (env : Env).


End Asked.


(* ================================================================== *)
(** * Queries that cannot be shown or saved *)
(* ================================================================== *)

Section Unshown.
Context (env : Env).

Lemma generate_sql_leaves q w :
  files (snd (QueryGenerator.generate_sql env q w)) = files w /\
  statements_sent (log (snd (QueryGenerator.generate_sql env q w)))
  = statements_sent (log w) /\
  calls "execute_query" (log (snd (QueryGenerator.generate_sql env q w)))
  = calls "execute_query" (log w).
Proof.
  split; [apply generate_sql_keeps_files|]. split.
  - rewrite generate_sql_log, statements_sent_app. cbn. by rewrite app_nil_r.
  - rewrite generate_sql_log, calls_app. simpl. lia.
Qed.

(** An explanation that the console cannot show ends the run as well,
    after the query has been printed. *)
Lemma run_analysis_explanation_not_shown q save_sql w d sql explanation :
  fst (QueryGenerator.generate_sql env q w) = inr d ->
  d !! "success" = Some (VBool true) ->
  d !! "sql" = Some (VStr sql) ->
  d !! "explanation" = Some (VStr explanation) ->
  printable (stdout_errors env) sql = true ->
  printable (stdout_errors env) explanation = false ->
  AnalyticsWorkflow.run_analysis env q save_sql w
  = (inl (Exn "UnicodeEncodeError"
            (encode_error env ([10%N] ++ lit "Explanation: " ++ explanation))),
     snd (QueryGenerator.generate_sql env q w)).
Proof.
  intros Hd Hok Hsql Hexp Hs He.
  assert (Hgen : QueryGenerator.generate_sql env q w
                 = (inr d, snd (QueryGenerator.generate_sql env q w))).
  { destruct (QueryGenerator.generate_sql env q w). simpl in *. by subst. }
  unfold AnalyticsWorkflow.run_analysis, datetime_now.
  rewrite bind_gets. rewrite (bind_returns _ _ _ _ _ Hgen).
  unfold getitem. rewrite Hok, Hsql, Hexp.
  cbv beta iota delta [bind ret text_of truthy negb].
  rewrite (print_text_shown env sql _ Hs).
  rewrite print_text_refused; [reflexivity|].
  by rewrite !printable_app, He, !andb_false_r.
Qed.



End Unshown.

(** X28. A generated query or explanation that the console cannot show
    ends the run. When the generation succeeds and the query, or the
    explanation, holds a code point that the console rejects, the run
    raises [UnicodeEncodeError] in the printout that follows the
    generation: no file has been written, no statement has been sent
    to the database and the Executor has not been entered. *)
Theorem unshown_query_ends_the_run env q save_sql w d sql explanation :
  fst (QueryGenerator.generate_sql env q w) = inr d ->
  d !! "success" = Some (VBool true) ->
  d !! "sql" = Some (VStr sql) ->
  d !! "explanation" = Some (VStr explanation) ->
  printable (stdout_errors env) sql && printable (stdout_errors env) explanation = false ->
  let w' := snd (AnalyticsWorkflow.run_analysis env q save_sql w) in
  (exists text,
     fst (AnalyticsWorkflow.run_analysis env q save_sql w)
     = inl (Exn "UnicodeEncodeError" text)) /\
  files w' = files w /\
  statements_sent (log w') = statements_sent (log w) /\
  calls "execute_query" (log w') = calls "execute_query" (log w).
Proof.
  intros Hd Hok Hsql Hexp Hbad. cbv zeta.
  destruct (printable (stdout_errors env) sql) eqn:Hs.
  - simpl in Hbad.
    rewrite (run_analysis_explanation_not_shown env q save_sql w d sql explanation
               Hd Hok Hsql Hexp Hs Hbad).
    split; [by eexists|]. apply generate_sql_leaves.
  - rewrite (run_analysis_query_not_shown env q save_sql w d sql Hd Hok Hsql
               (ex_intro _ explanation Hexp) Hs).
    split; [by eexists|]. apply generate_sql_leaves.
Qed.


(* ================================================================== *)
(** * Runs in the sample environments *)
(* ================================================================== *)

Section Concrete.
Import Samples.

Lemma returned_inr (r : exn + gmap string pyval) :
  has_returned r = true -> r = inr (returned r).
Proof. by destruct r. Qed.

(** Witness of C2: the sample generation succeeds, with a stripped query. *)
Lemma generate_sql_success_carries_stripped_sql_witness :
  fst (QueryGenerator.generate_sql env_fine question (boot 100))
  = inr (returned (fst (QueryGenerator.generate_sql env_fine question (boot 100))))
  /\ returned (fst (QueryGenerator.generate_sql env_fine question (boot 100)))
       !! "success" = Some (VBool true)
  /\ exists text payload members s0 s,
       gemini env_fine (requests (boot 100)) (model_id (query_gen (boot 100)))
         (QueryGenerator.generate_prompt (query_gen (boot 100)) question)
       = Responds (Some text) /\
       (forall w0, QueryGenerator.unfence text w0 = (inr payload, w0)) /\
       decoder_limit env_fine (trim payload) = None /\
       loads payload = Some (JDict members) /\
       (dict_lookup (lit "sql") members = Some (JStr s0)
        \/ dict_lookup (lit "sql") members = None /\ s0 = []) /\
       returned (fst (QueryGenerator.generate_sql env_fine question (boot 100)))
         !! "sql" = Some (VStr s) /\
       s = strip s0 /\
       strip s = s /\
       (s = [] <-> forallb is_space s0 = true).
Proof.
  assert (H1 : fst (QueryGenerator.generate_sql env_fine question (boot 100))
    = inr (returned (fst (QueryGenerator.generate_sql env_fine question (boot 100)))))
    by (apply returned_inr; vm_compute; reflexivity).
  assert (H2 : returned (fst (QueryGenerator.generate_sql env_fine question (boot 100)))
                 !! "success" = Some (VBool true))
    by (vm_compute; reflexivity).
  split; [exact H1|]. split; [exact H2|].
  exact (generate_sql_success_carries_stripped_sql env_fine question (boot 100) _ H1 H2).
Defined.

(** Counterexample to C2: the payload has no query; the generation
    reports success and its query is the empty text. *)
Lemma generate_sql_success_with_empty_sql :
  fst (QueryGenerator.generate_sql env_without_sql question (boot 100))
  = inr (returned (fst (QueryGenerator.generate_sql env_without_sql question (boot 100))))
  /\ returned (fst (QueryGenerator.generate_sql env_without_sql question (boot 100)))
       !! "success" = Some (VBool true)
  /\ returned (fst (QueryGenerator.generate_sql env_without_sql question (boot 100)))
       !! "sql" = Some (VStr []).
Proof.
  split; [apply returned_inr; vm_compute; reflexivity|].
  split; vm_compute; reflexivity.
Qed.

(** Witness of C4: the backend answers 429 RESOURCE_EXHAUSTED. *)
Lemma rate_limit_errors_are_classified_witness :
  (forall model contents,
     gemini env_exhausted (requests (boot 100)) model contents = Raises exhausted) /\
  (contains (lit "429") (exn_text exhausted) = true
   \/ contains (lit "RESOURCE_EXHAUSTED") (exn_text exhausted) = true) /\
  (exists d, fst (QueryGenerator.generate_sql env_exhausted question (boot 100)) = inr d /\
     d !! "success" = Some (VBool false) /\
     d !! "error_type" = Some (VStr (lit "rate_limit"))) /\
  (exists d, fst (QueryGenerator.validate_and_improve_query env_exhausted answer_sql
                    (Some (exn_text missing_column)) (boot 100)) = inr d /\
     d !! "success" = Some (VBool false) /\
     d !! "error_type" = Some (VStr (lit "rate_limit"))).
Proof.
  assert (H1 : forall model contents,
     gemini env_exhausted (requests (boot 100)) model contents = Raises exhausted)
    by reflexivity.
  assert (H2 : contains (lit "429") (exn_text exhausted) = true
   \/ contains (lit "RESOURCE_EXHAUSTED") (exn_text exhausted) = true)
    by (left; vm_compute; reflexivity).
  split; [exact H1|]. split; [exact H2|].
  exact (rate_limit_errors_are_classified env_exhausted question answer_sql
           (Some (exn_text missing_column)) (boot 100) exhausted H1 H2).
Defined.

(** Counterexample to C5: a payload that decodes, whose explanation
    quotes a fenced snippet. Fed bare, the snippet is taken for the
    payload: success, with an empty query. Fed inside a fence, the text
    up to the quoted fence is taken: failure, with no query. *)
Lemma fence_quoted_in_the_payload_changes_the_result :
  loads answer_quoting_a_fence
  = Some (JDict [(lit "sql", JStr (lit "SELECT 1"));
                 (lit "explanation", JStr (lit "```{}```"))]) /\
  returned (fst (QueryGenerator.generate_sql
                   (answering env_fine (Responds (Some answer_quoting_a_fence)))
                   question (boot 100))) !! "success" = Some (VBool true) /\
  returned (fst (QueryGenerator.generate_sql
                   (answering env_fine (Responds (Some answer_quoting_a_fence)))
                   question (boot 100))) !! "sql" = Some (VStr []) /\
  returned (fst (QueryGenerator.generate_sql
                   (answering env_fine
                      (Responds (Some (fence_json answer_quoting_a_fence))))
                   question (boot 100))) !! "success" = Some (VBool false) /\
  returned (fst (QueryGenerator.generate_sql
                   (answering env_fine
                      (Responds (Some (fence_json answer_quoting_a_fence))))
                   question (boot 100))) !! "sql" = Some VNone.
Proof. repeat split; vm_compute; reflexivity. Qed.

(** Witness of C5: the sample payload, bare and fenced. *)
Lemma fenced_payload_is_parsed_like_the_bare_one_witness :
  contains (lit "```") answer = false /\
  loads answer = Some answer_value /\
  QueryGenerator.generate_sql (answering env_fine (Responds (Some (fence_json answer))))
    question (boot 100)
  = QueryGenerator.generate_sql (answering env_fine (Responds (Some answer)))
      question (boot 100) /\
  QueryGenerator.generate_sql (answering env_fine (Responds (Some (fence_plain answer))))
    question (boot 100)
  = QueryGenerator.generate_sql (answering env_fine (Responds (Some answer)))
      question (boot 100) /\
  QueryGenerator.validate_and_improve_query
    (answering env_fine (Responds (Some (fence_json answer))))
    answer_sql None (boot 100)
  = QueryGenerator.validate_and_improve_query
      (answering env_fine (Responds (Some answer))) answer_sql None (boot 100) /\
  QueryGenerator.validate_and_improve_query
    (answering env_fine (Responds (Some (fence_plain answer))))
    answer_sql None (boot 100)
  = QueryGenerator.validate_and_improve_query
      (answering env_fine (Responds (Some answer))) answer_sql None (boot 100).
Proof.
  assert (H1 : contains (lit "```") answer = false) by (vm_compute; reflexivity).
  assert (H2 : loads answer = Some answer_value) by (vm_compute; reflexivity).
  split; [exact H1|]. split; [exact H2|].
  exact (fenced_payload_is_parsed_like_the_bare_one env_fine question answer_sql None
           (boot 100) answer answer_value H1 H2).
Defined.

(** Witness of C6: two calls of the Corrector at time 100, a failing
    execution in between. *)
Lemma corrector_requests_are_spaced_witness :
  min_delay (query_gen (boot 100)) = 5%Q /\
  query_gen
    (snd (AutomatedEDA.execute_query env_database_down corrected_sql
       (snd (QueryGenerator.validate_and_improve_query env_database_down answer_sql None
               (boot 100)))))
  = query_gen (snd (QueryGenerator.validate_and_improve_query env_database_down
                      answer_sql None (boot 100))) /\
  exists t1 t2,
    request_times
      (log (snd (QueryGenerator.validate_and_improve_query env_database_down answer_sql
                   None (boot 100))))
    = request_times (log (boot 100)) ++ [t1] /\
    request_times
      (log (snd (QueryGenerator.validate_and_improve_query env_database_down
                   corrected_sql None
         (snd (AutomatedEDA.execute_query env_database_down corrected_sql
            (snd (QueryGenerator.validate_and_improve_query env_database_down answer_sql
                    None (boot 100))))))))
    = request_times
        (log (snd (AutomatedEDA.execute_query env_database_down corrected_sql
           (snd (QueryGenerator.validate_and_improve_query env_database_down answer_sql
                   None (boot 100))))))
      ++ [t2] /\
    ((clock (snd (AutomatedEDA.execute_query env_database_down corrected_sql
         (snd (QueryGenerator.validate_and_improve_query env_database_down answer_sql
                 None (boot 100))))) - t1 < 5)%Q ->
     (clock (snd (AutomatedEDA.execute_query env_database_down corrected_sql
         (snd (QueryGenerator.validate_and_improve_query env_database_down answer_sql
                 None (boot 100)))))
      + (5 - (clock (snd (AutomatedEDA.execute_query env_database_down corrected_sql
           (snd (QueryGenerator.validate_and_improve_query env_database_down answer_sql
                   None (boot 100))))) - t1)) <= t2)%Q) /\
    (t1 + 5 <= t2)%Q.
Proof.
  assert (H1 : min_delay (query_gen (boot 100)) = 5%Q) by reflexivity.
  assert (H2 : query_gen
    (snd (AutomatedEDA.execute_query env_database_down corrected_sql
       (snd (QueryGenerator.validate_and_improve_query env_database_down answer_sql None
               (boot 100)))))
    = query_gen (snd (QueryGenerator.validate_and_improve_query env_database_down
                        answer_sql None (boot 100))))
    by (vm_compute; reflexivity).
  split; [exact H1|]. split; [exact H2|].
  exact (corrector_requests_are_spaced env_database_down answer_sql None corrected_sql
           None (boot 100) _ H1 H2).
Defined.

(** The two requests of that witness: the first at 100, the second,
    asked at once, held back until 105. *)
Example corrector_requests_at_100_and_105 :
  List.map Qred
    (request_times
       (log (snd (QueryGenerator.validate_and_improve_query env_database_down
                    corrected_sql None
          (snd (AutomatedEDA.execute_query env_database_down corrected_sql
             (snd (QueryGenerator.validate_and_improve_query env_database_down
                     answer_sql None (boot 100)))))))))
  = [100%Q; 105%Q].
Proof. vm_compute. reflexivity. Qed.

(** The defect behind C7, on a run: the Generator's request and the
    Corrector's request that follows the failed execution are issued at
    the same instant, although the generator object asks for 5 seconds
    between requests. *)
Example generator_and_corrector_requests_back_to_back :
  List.map Qred
    (request_times
       (log (snd (AnalyticsWorkflow.run_analysis env_database_down question true
                    (boot 100)))))
  = [100%Q; 100%Q].
Proof. vm_compute. reflexivity. Qed.

(** C8 (the code departs from it). The backend is down: the Generator
    returns a failure that carries the error text; the run returns the
    three entries it started with, and the error text is not among
    them. *)
Lemma generation_failure_returns_no_error_text :
  returned (fst (QueryGenerator.generate_sql env_unavailable question (boot 100)))
    !! "error" = Some (VStr (lit "503 UNAVAILABLE")) /\
  fst (AnalyticsWorkflow.run_analysis env_unavailable question true (boot 100))
  = inr (returned (fst (AnalyticsWorkflow.run_analysis env_unavailable question true
                          (boot 100)))) /\
  returned (fst (AnalyticsWorkflow.run_analysis env_unavailable question true (boot 100)))
    !! "success" = Some (VBool false) /\
  returned (fst (AnalyticsWorkflow.run_analysis env_unavailable question true (boot 100)))
    !! "query" = Some (VStr question) /\
  returned (fst (AnalyticsWorkflow.run_analysis env_unavailable question true (boot 100)))
    !! "timestamp" = Some (VStr (lit "2024-02-08_10-30-00")) /\
  size (returned (fst (AnalyticsWorkflow.run_analysis env_unavailable question true
                         (boot 100)))) = 3 /\
  returned (fst (AnalyticsWorkflow.run_analysis env_unavailable question true (boot 100)))
    !! "error" = None.
Proof.
  split; [vm_compute; reflexivity|].
  split; [apply returned_inr; vm_compute; reflexivity|].
  repeat split; vm_compute; reflexivity.
Qed.

(** The sibling exits do record the error: when every execution fails,
    the result holds the corrected query and the second error. *)
Example execution_failure_returns_the_error_text :
  returned (fst (AnalyticsWorkflow.run_analysis env_database_down question true (boot 100)))
    !! "error" = Some (VStr (exn_text missing_column)) /\
  returned (fst (AnalyticsWorkflow.run_analysis env_database_down question true (boot 100)))
    !! "sql_query" = Some (VStr corrected_sql) /\
  returned (fst (AnalyticsWorkflow.run_analysis env_database_down question true (boot 100)))
    !! "query" = Some (VStr question).
Proof. repeat split; vm_compute; reflexivity. Qed.





(** ** The scenarios of the specification *)

(** Scenario A: the first execution succeeds; the report is reached with
    the rows, and the Corrector is not called. *)
Example scenario_A :
  returned (fst (AnalyticsWorkflow.run_analysis env_fine question true (boot 100)))
    !! "success" = Some (VBool true) /\
  returned (fst (AnalyticsWorkflow.run_analysis env_fine question true (boot 100)))
    !! "row_count" = Some (VInt 2) /\
  returned (fst (AnalyticsWorkflow.run_analysis env_fine question true (boot 100)))
    !! "sql_query" = Some (VStr answer_sql) /\
  calls "execute_query"
    (log (snd (AnalyticsWorkflow.run_analysis env_fine question true (boot 100)))) = 1 /\
  calls "validate_and_improve_query"
    (log (snd (AnalyticsWorkflow.run_analysis env_fine question true (boot 100)))) = 0.
Proof. repeat split; vm_compute; reflexivity. Qed.

(** Scenario B: the first execution fails, the Corrector returns a
    revised query, the second execution succeeds; the report is reached
    with the corrected query and its rows. *)
Example scenario_B :
  returned (fst (AnalyticsWorkflow.run_analysis env_repair question true (boot 100)))
    !! "success" = Some (VBool true) /\
  returned (fst (AnalyticsWorkflow.run_analysis env_repair question true (boot 100)))
    !! "row_count" = Some (VInt 2) /\
  returned (fst (AnalyticsWorkflow.run_analysis env_repair question true (boot 100)))
    !! "sql_query" = Some (VStr corrected_sql) /\
  calls "execute_query"
    (log (snd (AnalyticsWorkflow.run_analysis env_repair question true (boot 100)))) = 2 /\
  calls "validate_and_improve_query"
    (log (snd (AnalyticsWorkflow.run_analysis env_repair question true (boot 100)))) = 1.
Proof. repeat split; vm_compute; reflexivity. Qed.

(** Scenario C: the second execution fails too; the run ends with the
    second error and the corrected query, after two executions and one
    correction. *)
Example scenario_C :
  returned (fst (AnalyticsWorkflow.run_analysis env_database_down question true (boot 100)))
    !! "success" = Some (VBool false) /\
  returned (fst (AnalyticsWorkflow.run_analysis env_database_down question true (boot 100)))
    !! "sql_query" = Some (VStr corrected_sql) /\
  calls "execute_query"
    (log (snd (AnalyticsWorkflow.run_analysis env_database_down question true
                 (boot 100)))) = 2 /\
  calls "validate_and_improve_query"
    (log (snd (AnalyticsWorkflow.run_analysis env_database_down question true
                 (boot 100)))) = 1.
Proof. repeat split; vm_compute; reflexivity. Qed.

(** Scenario D: the Generator's request hits the rate limit; the run
    ends at once and the Executor is not called. *)
Example scenario_D :
  returned (fst (QueryGenerator.generate_sql env_exhausted question (boot 100)))
    !! "error_type" = Some (VStr (lit "rate_limit")) /\
  returned (fst (AnalyticsWorkflow.run_analysis env_exhausted question true (boot 100)))
    !! "success" = Some (VBool false) /\
  calls "execute_query"
    (log (snd (AnalyticsWorkflow.run_analysis env_exhausted question true (boot 100)))) = 0.
Proof. repeat split; vm_compute; reflexivity. Qed.

End Concrete.

(* ================================================================== *)
(** * The further properties in the sample environments *)
(* ================================================================== *)

Section Instances.
Import Samples.

Lemma no_backquote (s : str) : forallb (fun c => negb (N.eqb c 96)) s = true -> 96%N ∉ s.
Proof.
  intros H Hin. apply forallb_forall with (x := 96%N) in H; [done|].
  by apply list_elem_of_In.
Qed.

(** Witness of X3: the backend is down (503). *)
Lemma other_errors_keep_their_text_witness :
  (forall model contents,
     gemini env_unavailable (requests (boot 100)) model contents = Raises unavailable) /\
  contains (lit "429") (exn_text unavailable) = false /\
  contains (lit "RESOURCE_EXHAUSTED") (exn_text unavailable) = false /\
  (exists d, fst (QueryGenerator.generate_sql env_unavailable question (boot 100)) = inr d /\
     d !! "success" = Some (VBool false) /\
     d !! "error" = Some (VStr (exn_text unavailable)) /\
     d !! "error_type" = None) /\
  (exists d, fst (QueryGenerator.validate_and_improve_query env_unavailable answer_sql
                    (Some (exn_text missing_column)) (boot 100)) = inr d /\
     d !! "success" = Some (VBool false) /\
     d !! "error" = Some (VStr (exn_text unavailable)) /\
     d !! "error_type" = None).
Proof.
  assert (H1 : forall model contents,
     gemini env_unavailable (requests (boot 100)) model contents = Raises unavailable)
    by reflexivity.
  assert (H2 : contains (lit "429") (exn_text unavailable) = false)
    by (vm_compute; reflexivity).
  assert (H3 : contains (lit "RESOURCE_EXHAUSTED") (exn_text unavailable) = false)
    by (vm_compute; reflexivity).
  split; [exact H1|]. split; [exact H2|]. split; [exact H3|].
  exact (other_errors_keep_their_text env_unavailable question answer_sql
           (Some (exn_text missing_column)) (boot 100) unavailable H1 H2 H3).
Defined.

(** Witness of X5: the sample payload in a block, with a sentence
    before and a sentence after. *)
Lemma prose_around_a_fenced_block_is_ignored_witness :
  (96%N ∉ preamble) /\ (96%N ∉ postscript) /\ contains (lit "```") answer = false /\
  QueryGenerator.unfence (preamble ++ fence_json answer ++ postscript) (boot 100)
  = (inr (strip answer), boot 100) /\
  (starts_with (lit "json") postscript = false ->
   QueryGenerator.unfence (preamble ++ fence_plain answer ++ postscript) (boot 100)
   = (inr (strip answer), boot 100)).
Proof.
  assert (H1 : 96%N ∉ preamble) by (apply no_backquote; vm_compute; reflexivity).
  assert (H2 : 96%N ∉ postscript) by (apply no_backquote; vm_compute; reflexivity).
  assert (H3 : contains (lit "```") answer = false) by (vm_compute; reflexivity).
  split; [exact H1|]. split; [exact H2|]. split; [exact H3|].
  exact (prose_around_a_fenced_block_is_ignored preamble postscript answer (boot 100)
           H1 H2 H3).
Defined.

(** Witness of X7: two summaries asked at time 100. *)
Lemma summary_requests_are_spaced_witness :
  summary_prompt env_fine question table findings = inr (lit "You are a business analyst") /\
  sg_min_delay (summary_gen (boot 100)) = 5%Q /\
  exists t1 t2,
    request_times
      (log (snd (SummaryGenerator.generate_executive_summary env_fine question table
                   findings (boot 100))))
    = request_times (log (boot 100)) ++ [t1] /\
    request_times
      (log (snd (SummaryGenerator.generate_executive_summary env_fine question table
                   findings
                   (snd (SummaryGenerator.generate_executive_summary env_fine question
                           table findings (boot 100))))))
    = request_times
        (log (snd (SummaryGenerator.generate_executive_summary env_fine question table
                     findings (boot 100)))) ++ [t2] /\
    (t1 + 5 <= t2)%Q.
Proof.
  assert (H1 : summary_prompt env_fine question table findings
               = inr (lit "You are a business analyst")) by reflexivity.
  assert (H2 : sg_min_delay (summary_gen (boot 100)) = 5%Q) by reflexivity.
  split; [exact H1|]. split; [exact H2|].
  exact (summary_requests_are_spaced env_fine question table findings question table
           findings (boot 100) _ _ _ H1 H1 H2 eq_refl).
Defined.

(** Witness of X8: the first run of a workflow built at time 100. *)
Lemma run_of_a_rested_workflow_never_sleeps_witness :
  rested (boot 100) /\ summary_rested (boot 100) /\
  sleeps (snd (AnalyticsWorkflow.run_analysis env_repair question true (boot 100)))
  = sleeps (boot 100).
Proof.
  assert (H1 : rested (boot 100)) by (unfold rested; simpl; lra).
  assert (H2 : summary_rested (boot 100)) by (unfold summary_rested; simpl; lra).
  split; [exact H1|]. split; [exact H2|].
  exact (run_of_a_rested_workflow_never_sleeps env_repair question true (boot 100) H1 H2).
Defined.

(** Witness of X9: the EDA report of the sample table. *)
Lemma eda_report_names_the_files_it_wrote_witness :
  fst (AutomatedEDA.generate_eda_report env_fine table question (lit "analysis_1")
         (boot 100))
  = inr (analysis_of
           (fst (AutomatedEDA.generate_eda_report env_fine table question
                   (lit "analysis_1") (boot 100)))) /\
  a_report_file
    (analysis_of
       (fst (AutomatedEDA.generate_eda_report env_fine table question
               (lit "analysis_1") (boot 100))))
  = Some (path_join AutomatedEDA.output_dir (lit "analysis_1" ++ lit "_report.txt")).
Proof.
  assert (H1 : fst (AutomatedEDA.generate_eda_report env_fine table question
                      (lit "analysis_1") (boot 100))
    = inr (analysis_of
             (fst (AutomatedEDA.generate_eda_report env_fine table question
                     (lit "analysis_1") (boot 100)))))
    by (vm_compute; reflexivity).
  split; [exact H1|].
  exact (proj1 (eda_report_names_the_files_it_wrote env_fine table question
                  (lit "analysis_1") (boot 100) _ H1)).
Defined.

(** Witness of X11: the summary of the sample table when the backend
    is down. *)
Lemma summary_failures_are_returned_as_text_witness :
  summary_prompt env_unavailable question table findings
  = inr (lit "You are a business analyst") /\
  exists r,
    fst (SummaryGenerator.generate_executive_summary env_unavailable question table
           findings (boot 100)) = inr r.
Proof.
  assert (H1 : summary_prompt env_unavailable question table findings
               = inr (lit "You are a business analyst")) by reflexivity.
  split; [exact H1|].
  exact (proj1 (summary_failures_are_returned_as_text env_unavailable question table
                  findings (boot 100) _ H1)).
Defined.

(** Witness of X12: the backend is down. *)
Lemma failed_generation_ends_the_run_witness :
  fst (QueryGenerator.generate_sql env_unavailable question (boot 100))
  = inr (returned (fst (QueryGenerator.generate_sql env_unavailable question (boot 100))))
  /\ returned (fst (QueryGenerator.generate_sql env_unavailable question (boot 100)))
       !! "success" = Some (VBool false)
  /\ files (snd (AnalyticsWorkflow.run_analysis env_unavailable question true (boot 100)))
     = files (boot 100).
Proof.
  assert (H1 : fst (QueryGenerator.generate_sql env_unavailable question (boot 100))
    = inr (returned (fst (QueryGenerator.generate_sql env_unavailable question
                            (boot 100)))))
    by (apply returned_inr; vm_compute; reflexivity).
  assert (H2 : returned (fst (QueryGenerator.generate_sql env_unavailable question
                                (boot 100))) !! "success" = Some (VBool false))
    by (vm_compute; reflexivity).
  split; [exact H1|]. split; [exact H2|].
  exact (proj1 (proj2 (proj2 (failed_generation_ends_the_run env_unavailable question
                                true (boot 100) _ H1 H2)))).
Defined.


(** Witness of X14: the run that repairs its query. *)
Lemma result_carries_the_query_executed_last_witness :
  fst (AnalyticsWorkflow.run_analysis env_repair question true (boot 100))
  = inr (returned (fst (AnalyticsWorkflow.run_analysis env_repair question true
                          (boot 100))))
  /\ returned (fst (AnalyticsWorkflow.run_analysis env_repair question true (boot 100)))
       !! "sql_query" = Some (VStr corrected_sql)
  /\ exists pre,
       statements_sent
         (log (snd (AnalyticsWorkflow.run_analysis env_repair question true (boot 100))))
       = statements_sent (log (boot 100)) ++ pre ++ [corrected_sql].
Proof.
  assert (H1 : fst (AnalyticsWorkflow.run_analysis env_repair question true (boot 100))
    = inr (returned (fst (AnalyticsWorkflow.run_analysis env_repair question true
                            (boot 100)))))
    by (apply returned_inr; vm_compute; reflexivity).
  assert (H2 : returned (fst (AnalyticsWorkflow.run_analysis env_repair question true
                                (boot 100))) !! "sql_query" = Some (VStr corrected_sql))
    by (vm_compute; reflexivity).
  split; [exact H1|]. split; [exact H2|].
  exact (result_carries_the_query_executed_last env_repair question true (boot 100) _ _
           H1 H2).
Defined.

(** Witness of X15: the run in which everything works. *)
Lemma successful_result_is_complete_witness :
  fst (AnalyticsWorkflow.run_analysis env_fine question true (boot 100))
  = inr (returned (fst (AnalyticsWorkflow.run_analysis env_fine question true (boot 100))))
  /\ returned (fst (AnalyticsWorkflow.run_analysis env_fine question true (boot 100)))
       !! "success" = Some (VBool true)
  /\ complete true question (strftime env_fine (lit "%Y-%m-%d_%H-%M-%S") (clock (boot 100)))
       (returned (fst (AnalyticsWorkflow.run_analysis env_fine question true (boot 100))))
       (snd (AnalyticsWorkflow.run_analysis env_fine question true (boot 100))).
Proof.
  assert (H1 : fst (AnalyticsWorkflow.run_analysis env_fine question true (boot 100))
    = inr (returned (fst (AnalyticsWorkflow.run_analysis env_fine question true
                            (boot 100)))))
    by (apply returned_inr; vm_compute; reflexivity).
  assert (H2 : returned (fst (AnalyticsWorkflow.run_analysis env_fine question true
                                (boot 100))) !! "success" = Some (VBool true))
    by (vm_compute; reflexivity).
  split; [exact H1|]. split; [exact H2|].
  exact (successful_result_is_complete env_fine question true (boot 100) _ H1 H2).
Defined.

(** Witness of X16: every execution fails. *)
Lemma failed_result_carries_the_database_error_witness :
  fst (AnalyticsWorkflow.run_analysis env_database_down question true (boot 100))
  = inr (returned (fst (AnalyticsWorkflow.run_analysis env_database_down question true
                          (boot 100))))
  /\ returned (fst (AnalyticsWorkflow.run_analysis env_database_down question true
                      (boot 100))) !! "success" = Some (VBool false)
  /\ returned (fst (AnalyticsWorkflow.run_analysis env_database_down question true
                      (boot 100))) !! "sql_query" = Some (VStr corrected_sql)
  /\ returned (fst (AnalyticsWorkflow.run_analysis env_database_down question true
                      (boot 100))) !! "query" = Some (VStr question).
Proof.
  assert (H1 : fst (AnalyticsWorkflow.run_analysis env_database_down question true
                      (boot 100))
    = inr (returned (fst (AnalyticsWorkflow.run_analysis env_database_down question true
                            (boot 100)))))
    by (apply returned_inr; vm_compute; reflexivity).
  assert (H2 : returned (fst (AnalyticsWorkflow.run_analysis env_database_down question
                                true (boot 100))) !! "success" = Some (VBool false))
    by (vm_compute; reflexivity).
  assert (H3 : returned (fst (AnalyticsWorkflow.run_analysis env_database_down question
                                true (boot 100))) !! "sql_query"
               = Some (VStr corrected_sql))
    by (vm_compute; reflexivity).
  split; [exact H1|]. split; [exact H2|]. split; [exact H3|].
  exact (proj1 (failed_result_carries_the_database_error env_database_down question true
                  (boot 100) _ _ H1 H2 H3)).
Defined.

(** Witness of X20: the sample session, cut at its exit word. *)
Lemma exit_word_ends_the_session_witness :
  AnalyticsWorkflow.is_exit (strip (lit "  QUIT ")) = true /\
  AnalyticsWorkflow.interactive_mode env_fine (lit "  QUIT " :: [lit "never read"])
    (boot 100) = (inr tt, boot 100) /\
  AnalyticsWorkflow.interactive_mode env_fine
    ([lit "   "; question] ++ lit "  QUIT " :: [lit "never read"])
  = AnalyticsWorkflow.interactive_mode env_fine ([lit "   "; question] ++ [lit "  QUIT "]).
Proof.
  assert (H1 : AnalyticsWorkflow.is_exit (strip (lit "  QUIT ")) = true)
    by (vm_compute; reflexivity).
  split; [exact H1|].
  exact (exit_word_ends_the_session env_fine [lit "   "; question] (lit "  QUIT ")
           [lit "never read"] (boot 100) H1).
Defined.

(** Witness of X21: the sample session returns. *)
Lemma session_returns_only_on_an_exit_word_witness :
  fst (AnalyticsWorkflow.interactive_mode env_fine session (boot 100)) = inr tt /\
  exists word, word ∈ session /\ AnalyticsWorkflow.is_exit (strip word) = true.
Proof.
  assert (H1 : fst (AnalyticsWorkflow.interactive_mode env_fine session (boot 100))
               = inr tt) by (vm_compute; reflexivity).
  split; [exact H1|].
  exact (session_returns_only_on_an_exit_word env_fine session (boot 100) H1).
Defined.


(** Witness of X26: the backend answers with a list. *)
Lemma malformed_responses_become_failures_witness :
  gemini env_list (requests (boot 100)) (model_id (query_gen (boot 100)))
    (QueryGenerator.generate_prompt (query_gen (boot 100)) question)
  = Responds (Some (lit "[1, 2]")) /\
  exists d, fst (QueryGenerator.generate_sql env_list question (boot 100)) = inr d /\
    (contains (lit "```") (lit "[1, 2]") = false ->
     match decoder_limit env_list (trim (lit "[1, 2]")) with
     | Some e =>
         QueryGenerator.is_rate_limit (exn_text e) = false ->
         d !! "success" = Some (VBool false) /\
         d !! "error" = Some (VStr (exn_text e))
     | None =>
         match loads (lit "[1, 2]") with
         | Some (JDict _) => True
         | Some v =>
             d !! "success" = Some (VBool false) /\
             d !! "error" = Some (VStr (exn_text (no_attribute v "get")))
         | None =>
             QueryGenerator.is_rate_limit (decode_error env_list (lit "[1, 2]")) = false ->
             d !! "success" = Some (VBool false) /\
             d !! "error" = Some (VStr (decode_error env_list (lit "[1, 2]")))
         end
     end).
Proof.
  assert (H1 : gemini env_list (requests (boot 100)) (model_id (query_gen (boot 100)))
                 (QueryGenerator.generate_prompt (query_gen (boot 100)) question)
               = Responds (Some (lit "[1, 2]"))) by reflexivity.
  split; [exact H1|].
  exact (malformed_responses_become_failures env_list question (boot 100) _ H1).
Defined.

(** That failure, in full. *)
Example list_response_is_a_failure :
  returned (fst (QueryGenerator.generate_sql env_list question (boot 100))) !! "error"
  = Some (VStr (lit "'list' object has no attribute 'get'")).
Proof. vm_compute. reflexivity. Qed.

(** A document that exceeds a limit of the interpreter: the failure
    carries the text of the exception of the interpreter. *)
Example deep_response_is_a_failure :
  returned (fst (QueryGenerator.generate_sql env_shallow question (boot 100))) !! "success"
  = Some (VBool false) /\
  returned (fst (QueryGenerator.generate_sql env_shallow question (boot 100))) !! "error"
  = Some (VStr (exn_text too_deep)).
Proof. split; vm_compute; reflexivity. Qed.


(** Witness of X28: the query holds the lone surrogate U+D800, which no
    console shows. *)
Lemma unshown_query_ends_the_run_witness :
  fst (QueryGenerator.generate_sql env_surrogate question (boot 100))
  = inr (returned (fst (QueryGenerator.generate_sql env_surrogate question (boot 100))))
  /\ returned (fst (QueryGenerator.generate_sql env_surrogate question (boot 100)))
       !! "success" = Some (VBool true)
  /\ returned (fst (QueryGenerator.generate_sql env_surrogate question (boot 100)))
       !! "sql" = Some (VStr sql_with_surrogate)
  /\ returned (fst (QueryGenerator.generate_sql env_surrogate question (boot 100)))
       !! "explanation" = Some (VStr (lit "One row."))
  /\ printable (stdout_errors env_surrogate) sql_with_surrogate
     && printable (stdout_errors env_surrogate) (lit "One row.") = false
  /\ (exists text,
        fst (AnalyticsWorkflow.run_analysis env_surrogate question true (boot 100))
        = inl (Exn "UnicodeEncodeError" text)).
Proof.
  assert (H1 : fst (QueryGenerator.generate_sql env_surrogate question (boot 100))
    = inr (returned (fst (QueryGenerator.generate_sql env_surrogate question (boot 100)))))
    by (apply returned_inr; vm_compute; reflexivity).
  assert (H2 : returned (fst (QueryGenerator.generate_sql env_surrogate question
                                (boot 100))) !! "success" = Some (VBool true))
    by (vm_compute; reflexivity).
  assert (H3 : returned (fst (QueryGenerator.generate_sql env_surrogate question
                                (boot 100))) !! "sql" = Some (VStr sql_with_surrogate))
    by (vm_compute; reflexivity).
  assert (H4 : returned (fst (QueryGenerator.generate_sql env_surrogate question
                                (boot 100))) !! "explanation"
               = Some (VStr (lit "One row.")))
    by (vm_compute; reflexivity).
  assert (H5 : printable (stdout_errors env_surrogate) sql_with_surrogate
               && printable (stdout_errors env_surrogate) (lit "One row.") = false)
    by (vm_compute; reflexivity).
  split; [exact H1|]. split; [exact H2|]. split; [exact H3|]. split; [exact H4|].
  split; [exact H5|].
  exact (proj1 (unshown_query_ends_the_run env_surrogate question true (boot 100) _
                  sql_with_surrogate (lit "One row.") H1 H2 H3 H4 H5)).
Defined.


(** The sample session: one question is asked, the one typed. *)
Example session_asks_the_question :
  asked (log (snd (AnalyticsWorkflow.interactive_mode env_fine session (boot 100))))
  = [question].
Proof. vm_compute. reflexivity. Qed.

End Instances.
